(** * The Valohai hook of the Airflow plugin, embedded in Rocq

    Source: [airflow_valohai_plugin/hooks/valohai_hook.py].

    The hook is sequential glue code around an HTTP API.  The embedding keeps
    that shape: Python values are a small inductive type, the outside world
    (the Valohai server, the orchestrator's result store, the file
    downloader, the clock) is an abstract state machine, and every method of
    the hook is a computation in a state-and-exception monad that records
    each external effect in a chronological trace. *)

From Stdlib Require Import String Ascii List ZArith Bool Lia.
From Stdlib Require Import DecimalString.
Import ListNotations.

Local Open Scope string_scope.
Local Open Scope Z_scope.

Set Warnings "-register-all".

(** ** Python values

    The values that travel through the hook are decoded JSON documents and
    plain arguments of the caller: [None], booleans, integers, strings,
    lists and dictionaries.  A dictionary is an association list in insertion
    order whose keys are distinct; a lookup takes the first binding.  Floating
    point numbers are outside the model. *)

Inductive value : Type :=
| VNone
| VBool (b : bool)
| VInt (n : Z)
| VStr (s : string)
| VList (items : list value)
| VDict (entries : list (string * value)).

Fixpoint lookup (k : string) (m : list (string * value)) : option value :=
  match m with
  | [] => None
  | (k', v) :: m' => if String.eqb k k' then Some v else lookup k m'
  end.

(** Python's truth value of an object, as tested by [if x:] and [x and y]. *)
Definition py_truthy (v : value) : bool :=
  match v with
  | VNone => false
  | VBool b => b
  | VInt n => negb (n =? 0)
  | VStr s => negb (String.eqb s "")
  | VList l => match l with [] => false | _ :: _ => true end
  | VDict m => match m with [] => false | _ :: _ => true end
  end.

(** Python's [==] on these values.  A boolean is an integer ([True == 1]);
    dictionaries compare by content, whatever the order of insertion. *)
Fixpoint py_eq (a b : value) {struct a} : bool :=
  match a, b with
  | VNone, VNone => true
  | VBool x, VBool y => Bool.eqb x y
  | VBool x, VInt n => (if x then 1 else 0) =? n
  | VInt n, VBool y => n =? (if y then 1 else 0)
  | VInt n, VInt m => n =? m
  | VStr s, VStr t => String.eqb s t
  | VList xs, VList ys =>
      (fix all2 (xs ys : list value) {struct xs} : bool :=
         match xs, ys with
         | [], [] => true
         | x :: xs', y :: ys' => py_eq x y && all2 xs' ys'
         | _, _ => false
         end) xs ys
  | VDict m1, VDict m2 =>
      Nat.eqb (length m1) (length m2)
      && (fix sub (m : list (string * value)) : bool :=
            match m with
            | [] => true
            | (k, v) :: m' =>
                match lookup k m2 with
                | Some v' => py_eq v v'
                | None => false
                end && sub m'
            end) m1
  | _, _ => false
  end.

(** Lists and dictionaries cannot be hashed, so they cannot be looked up in
    a [set]. *)
Definition hashable (v : value) : bool :=
  match v with
  | VList _ | VDict _ => false
  | _ => true
  end.

(** [os.path.join(a, b)] of [posixpath], for two string components. *)
Definition starts_with_slash (s : string) : bool :=
  match s with
  | String c _ => Ascii.eqb c "/"%char
  | EmptyString => false
  end.

Fixpoint ends_with_slash (s : string) : bool :=
  match s with
  | EmptyString => false
  | String c EmptyString => Ascii.eqb c "/"%char
  | String _ rest => ends_with_slash rest
  end.

Definition posix_join (a b : string) : string :=
  if starts_with_slash b then b
  else if String.eqb a "" || ends_with_slash a then a ++ b
  else a ++ "/" ++ b.

(** ** Exceptions, requests and events *)

Inductive exn : Type :=
| AttributeError (attribute : string)
| KeyError (key : string)
| TypeError
| ValueError
| ReError
| AirflowException (message : string)
| ExternalError (what : string).

Definition http_headers : Type := list (string * string).

(** The calls that leave the process and come back with an answer. *)
Inductive request : Type :=
| Get (url : string) (hdrs : http_headers) (params : list (string * value))
| Post (url : string) (hdrs : http_headers) (json : option value)
| UrlRetrieve (url : value) (filename : string)
| XComPull (task_ids : value).

(** The answer: for an HTTP request the decoded JSON body of the response
    ([response.json()]), or the exception the call raises. *)
Inductive reply : Type :=
| Reply (body : value)
| Throws (e : exn).

Inductive event : Type :=
| Call (r : request)
| Sleep (seconds : Z)
| LogInfo (message : string).

(** How a computation ends: with a value, with an exception, or cut off
    because the loop was given too few iterations. *)
Inductive outcome (A : Type) : Type :=
| Ret (a : A)
| Raise (e : exn)
| OutOfFuel.
Arguments Ret {A} a.
Arguments Raise {A} e.
Arguments OutOfFuel {A}.

(** ** The runtime the hook runs against

    Everything the source takes from outside the repository: the answers of
    the server and of the orchestrator ([respond]), the passing of time on
    the server side while the client sleeps ([elapse]), Python's textual
    form of lists and dictionaries ([repr]) and the regular expression
    engine ([re_match p s] is [Some true] when [re.match(p, s)] finds a
    match, [Some false] when it does not, [None] when [p] does not
    compile, whatever [s] is). *)
Class Runtime : Type := {
  server : Type;
  respond : request -> server -> reply * server;
  elapse : Z -> server -> server;
  repr : value -> string;
  re_match : string -> string -> option bool
}.

(** ** The hook object *)

Record connection : Type := {
  conn_host : string;
  extra_dejson : list (string * value)
}.

(** [headers] is [None] as long as the attribute has never been assigned. *)
Record ValohaiHook : Type := {
  host : string;
  headers : option http_headers
}.

Section Hook.
Context {RT : Runtime}.

(** [str(v)], as used by [str.format]. *)
Definition py_str (v : value) : string :=
  match v with
  | VNone => "None"
  | VBool true => "True"
  | VBool false => "False"
  | VInt n => NilZero.string_of_int (Z.to_int n)
  | VStr s => s
  | VList _ | VDict _ => repr v
  end.

(** ** State and exceptions *)

Record world : Type := {
  srv : server;
  trace : list event;
  polling_period_attr : option Z
}.

Definition M (A : Type) : Type := world -> outcome A * world.

Definition ret {A} (a : A) : M A := fun w => (Ret a, w).

Definition raise {A} (e : exn) : M A := fun w => (Raise e, w).

Definition out_of_fuel {A} : M A := fun w => (OutOfFuel, w).

Definition bind {A B} (m : M A) (k : A -> M B) : M B :=
  fun w =>
    match m w with
    | (Ret a, w') => k a w'
    | (Raise e, w') => (Raise e, w')
    | (OutOfFuel, w') => (OutOfFuel, w')
    end.

End Hook.

Notation "x <- m ;; k" := (bind m (fun x => k))
  (at level 61, m at next level, right associativity).
Notation "m ;; k" := (bind m (fun _ => k))
  (at level 61, right associativity).

Section Operations.
Context {RT : Runtime}.

(** ** Primitive effects *)

(** The world after the events [evs] have happened and the server has moved
    to [s]. *)
Definition record (evs : list event) (s : server) (w : world) : world :=
  {| srv := s;
     trace := trace w ++ evs;
     polling_period_attr := polling_period_attr w |}.

(** A call to the outside: the request is recorded, the server moves on, and
    the answer is returned or raised. *)
Definition call (r : request) : M value :=
  fun w =>
    let '(a, s') := respond r (srv w) in
    match a with
    | Reply v => (Ret v, record [Call r] s' w)
    | Throws e => (Raise e, record [Call r] s' w)
    end.

Definition logging_info (msg : string) : M unit :=
  fun w => (Ret tt, record [LogInfo msg] (srv w) w).

(** [time.sleep(seconds)]: a negative length is refused with a
    [ValueError]; otherwise time passes.  Lengths that the clock of the
    interpreter cannot hold (from 9223372037 seconds, some 292 years, in
    either direction), which it refuses with an [OverflowError], are not
    told apart here. *)
Definition time_sleep (seconds : Z) : M unit :=
  fun w =>
    if seconds <? 0 then (Raise ValueError, w)
    else (Ret tt, record [Sleep seconds] (elapse seconds (srv w)) w).

(** [self.polling_period_seconds = seconds]. *)
Definition assign_polling_period (seconds : Z) (w : world) : world :=
  {| srv := srv w;
     trace := trace w;
     polling_period_attr := Some seconds |}.

Definition set_polling_period (seconds : Z) : M unit :=
  fun w => (Ret tt, assign_polling_period seconds w).

(** ** Python operations that can raise *)

(** [v[key]] for a string key: only a dictionary can be subscripted by a
    string, and the key must be there. *)
Definition subscript (v : value) (key : string) : M value :=
  match v with
  | VDict m =>
      match lookup key m with
      | Some x => ret x
      | None => raise (KeyError key)
      end
  | _ => raise TypeError
  end.

(** The items a [for] loop takes from [v]: the elements of a list, the keys
    of a dictionary, the characters of a string. *)
Definition py_iter (v : value) : M (list value) :=
  match v with
  | VList l => ret l
  | VDict m => ret (map (fun kv => VStr (fst kv)) m)
  | VStr s => ret (map (fun c => VStr (String c EmptyString)) (list_ascii_of_string s))
  | _ => raise TypeError
  end.

(** [v in s] for a set [s] of strings. *)
Definition py_in (v : value) (s : list string) : M bool :=
  if hashable v then ret (existsb (fun x => py_eq v (VStr x)) s)
  else raise TypeError.

(** [re.match(pattern, name)] as a truth value.  The pattern is compiled
    before the name is looked at: a pattern that is not a string is a
    [TypeError], a string that does not compile is the error of the engine
    whatever the name is, and only then is a name that is not a string a
    [TypeError]. *)
Definition py_re_match (pattern name : value) : M bool :=
  match pattern with
  | VStr p =>
      match name with
      | VStr n =>
          match re_match p n with
          | Some b => ret b
          | None => raise ReError
          end
      | _ =>
          match re_match p "" with
          | Some _ => raise TypeError
          | None => raise ReError
          end
      end
  | _ => raise TypeError
  end.

(** [os.path.join(path, name)]. *)
Definition os_path_join (path : string) (name : value) : M string :=
  match name with
  | VStr n => ret (posix_join path n)
  | _ => raise TypeError
  end.

(** ** Module constants *)

Definition LIST_PROJECTS_ENDPOINT : string := "api/v0/projects/".
Definition LIST_REPOSITORIES_ENDPOINT : string := "api/v0/repositories/".
Definition LIST_COMMITS_ENDPOINT : string := "api/v0/commits/".
Definition SUBMIT_EXECUTION_ENDPOINT : string := "api/v0/executions/".

(** ['api/v0/executions/{execution_id}/'.format(execution_id=...)] *)
Definition GET_EXECUTION_DETAILS_ENDPOINT (execution_id : value) : string :=
  "api/v0/executions/" ++ py_str execution_id ++ "/".

(** ['api/v0/projects/{project_id}/fetch/'.format(project_id=...)] *)
Definition FETCH_REPOSITORY_ENDPOINT (project_id : value) : string :=
  "api/v0/projects/" ++ py_str project_id ++ "/fetch/".

(** ['api/v0/executions/{execution_id}/tags/'.format(execution_id=...)] *)
Definition SET_EXECUTION_TAGS_ENDPOINT (execution_id : value) : string :=
  "api/v0/executions/" ++ py_str execution_id ++ "/tags/".

Definition incomplete_execution_statuses : list string :=
  ["created"; "queued"; "started"; "stopping"].

Definition fail_execution_statuses : list string :=
  ["error"; "crashed"; "stopped"].

Definition success_execution_statuses : list string :=
  ["complete"].

(** ['https://{host}/{endpoint}'.format(host=self.host, endpoint=...)] *)
Definition api_url (h : ValohaiHook) (endpoint : string) : string :=
  "https://" ++ host h ++ "/" ++ endpoint.

(** ** [ValohaiHook.__init__]

    The connection is what [get_connection] hands over. *)
Definition init (valohai_conn : connection) : M ValohaiHook :=
  match lookup "token" (extra_dejson valohai_conn) with
  | Some token =>
      logging_info "Using token authorization.";;
      ret {| host := conn_host valohai_conn;
             headers := Some [("Authorization", "Token " ++ py_str token)] |}
  | None =>
      ret {| host := conn_host valohai_conn; headers := None |}
  end.

(** Reading [self.headers]. *)
Definition self_headers (h : ValohaiHook) : M http_headers :=
  match headers h with
  | Some hdrs => ret hdrs
  | None => raise (AttributeError "headers")
  end.

(** ** Lookups over listings *)

(** The loop of [get_project_id]: the id of the first project whose name is
    the one asked for; falling off the end returns [None]. *)
Fixpoint find_project (project_name : value) (projects : list value) : M value :=
  match projects with
  | [] => ret VNone
  | project :: rest =>
      name <- subscript project "name";;
      if py_eq name project_name then subscript project "id"
      else find_project project_name rest
  end.

Definition get_project_id (h : ValohaiHook) (project_name : value) : M value :=
  let url := api_url h LIST_PROJECTS_ENDPOINT in
  hdrs <- self_headers h;;
  response <- call (Get url hdrs [("limit", VInt 10000)]);;
  results <- subscript response "results";;
  projects <- py_iter results;;
  find_project project_name projects.

Fixpoint find_repository (project_id : value) (repositories : list value) : M value :=
  match repositories with
  | [] => ret VNone
  | repository :: rest =>
      project <- subscript repository "project";;
      id <- subscript project "id";;
      if py_eq id project_id then subscript repository "id"
      else find_repository project_id rest
  end.

Definition get_repository_id (h : ValohaiHook) (project_id : value) : M value :=
  let url := api_url h LIST_REPOSITORIES_ENDPOINT in
  hdrs <- self_headers h;;
  response <- call (Get url hdrs [("limit", VInt 10000)]);;
  results <- subscript response "results";;
  repositories <- py_iter results;;
  find_repository project_id repositories.

Definition fetch_repository (h : ValohaiHook) (project_id : value) : M value :=
  let url := api_url h (FETCH_REPOSITORY_ENDPOINT project_id) in
  hdrs <- self_headers h;;
  call (Post url hdrs None).

(** The test of line 140, with the short circuit of [and]: the ref is only
    read when the repository is the right one. *)
Definition commit_matches (repository_id branch commit : value) : M bool :=
  repository <- subscript commit "repository";;
  if py_eq repository repository_id then
    ref <- subscript commit "ref";;
    ret (py_eq ref branch)
  else ret false.

Fixpoint find_commit (repository_id branch : value) (commits : list value) : M value :=
  match commits with
  | [] => ret VNone
  | commit :: rest =>
      hit <- commit_matches repository_id branch commit;;
      if hit then subscript commit "identifier"
      else find_commit repository_id branch rest
  end.

Definition get_latest_commit (h : ValohaiHook) (project_id branch : value) : M value :=
  repository_id <- get_repository_id h project_id;;
  let url := api_url h LIST_COMMITS_ENDPOINT in
  hdrs <- self_headers h;;
  response <- call (Get url hdrs [("limit", VInt 10000); ("ordering", VStr "-commit_time")]);;
  results <- subscript response "results";;
  commits <- py_iter results;;
  find_commit repository_id branch commits.

Definition get_execution_details (h : ValohaiHook) (execution_id : value) : M value :=
  let url := api_url h (GET_EXECUTION_DETAILS_ENDPOINT execution_id) in
  hdrs <- self_headers h;;
  call (Get url hdrs []).

(** The request [get_execution_details] sends. *)
Definition details_request (h : ValohaiHook) (hdrs : http_headers)
    (execution_id : value) : request :=
  Get (api_url h (GET_EXECUTION_DETAILS_ENDPOINT execution_id)) hdrs [].

Definition add_execution_tags (h : ValohaiHook) (tags execution_id : value) : M value :=
  let url := api_url h (SET_EXECUTION_TAGS_ENDPOINT execution_id) in
  hdrs <- self_headers h;;
  call (Post url hdrs (Some (VDict [("tags", tags)]))).

(** ** [ValohaiHook.submit_execution] *)

(** The [while True] loop of lines 223-237.  [fuel] bounds the number of
    iterations; a run that needs more ends in [OutOfFuel]. *)
Fixpoint poll_loop (fuel : nat) (h : ValohaiHook) (polling_period_seconds : Z)
    (execution_id : value) : M value :=
  match fuel with
  | O => out_of_fuel
  | S fuel' =>
      time_sleep polling_period_seconds;;
      execution_details <- get_execution_details h execution_id;;
      status <- subscript execution_details "status";;
      incomplete <- py_in status incomplete_execution_statuses;;
      if incomplete then
        logging_info ("Incomplete execution with status: " ++ py_str status);;
        poll_loop fuel' h polling_period_seconds execution_id
      else
        failed <- py_in status fail_execution_statuses;;
        if failed then
          raise (AirflowException ("Execution failed with status: " ++ py_str status))
        else
          succeeded <- py_in status success_execution_statuses;;
          if succeeded then
            logging_info "Execution completed sucessfully";;
            ret execution_details
          else
            raise (AirflowException ("Found a not handled status: " ++ py_str status))
  end.

(** The payload of line 199. *)
Definition execution_payload (project_id commit step inputs parameters environment : value)
    : value :=
  VDict [("project", project_id);
         ("commit", commit);
         ("step", step);
         ("inputs", inputs);
         ("parameters", parameters);
         ("environment", environment)].

Definition submit_execution (fuel : nat) (h : ValohaiHook)
    (project_name step inputs parameters environment commit branch tags : value)
    (polling_period_seconds : Z) : M value :=
  set_polling_period polling_period_seconds;;
  project_id <- get_project_id h project_name;;
  commit <- (if py_truthy branch then
               response <- fetch_repository h project_id;;
               logging_info ("Fetched latest commits with response: " ++ py_str response);;
               latest <- get_latest_commit h project_id branch;;
               logging_info ("Using latest " ++ py_str branch ++ " branch commit: "
                             ++ py_str latest);;
               ret latest
             else ret commit);;
  let url := api_url h SUBMIT_EXECUTION_ENDPOINT in
  let payload :=
    execution_payload project_id commit step inputs parameters environment in
  hdrs <- self_headers h;;
  response <- call (Post url hdrs (Some payload));;
  logging_info ("Got response: " ++ py_str response);;
  execution_id <- subscript response "id";;
  urls <- subscript response "urls";;
  execution_url <- subscript urls "display";;
  logging_info ("Started execution: " ++ py_str execution_url);;
  (if py_truthy tags then
     add_execution_tags h tags execution_id;;
     logging_info ("Added execution tags: " ++ py_str tags)
   else ret tt);;
  poll_loop fuel h polling_period_seconds execution_id.

(** ** [download_execution_outputs] *)

Fixpoint for_each {A : Type} (body : A -> M unit) (items : list A) : M unit :=
  match items with
  | [] => ret tt
  | x :: rest => body x;; for_each body rest
  end.

(** The condition of line 57: [pattern and not re.match(pattern, name)]. *)
Definition output_is_ignored (pattern output : value) : M bool :=
  if py_truthy pattern then
    name <- subscript output "name";;
    hit <- py_re_match pattern name;;
    ret (negb hit)
  else ret false.

(** The body of the loop of lines 56-64. *)
Definition download_output (path : string) (pattern output : value) : M unit :=
  ignored <- output_is_ignored pattern output;;
  if ignored then
    name <- subscript output "name";;
    logging_info ("Ignore ouput name " ++ py_str name
                  ++ " because failed to match pattern " ++ py_str pattern)
  else
    url <- subscript output "url";;
    name <- subscript output "name";;
    filename <- os_path_join path name;;
    call (UrlRetrieve url filename);;
    name' <- subscript output "name";;
    logging_info ("Downloaded output: " ++ py_str name').

Definition download_execution_outputs (task_id : value) (path : string)
    (pattern : value) : M unit :=
  execution_details <- call (XComPull task_id);;
  outputs <- subscript execution_details "outputs";;
  items <- py_iter outputs;;
  for_each (download_output path pattern) items.

(** ** Reading a trace *)

(** The files fetched, in order: source URL and local file name. *)
Fixpoint downloads (t : list event) : list (value * string) :=
  match t with
  | [] => []
  | Call (UrlRetrieve url filename) :: t' => (url, filename) :: downloads t'
  | _ :: t' => downloads t'
  end.

(** The requests sent out, in order. *)
Fixpoint requests (t : list event) : list request :=
  match t with
  | [] => []
  | Call r :: t' => r :: requests t'
  | _ :: t' => requests t'
  end.

(** [sub] occurs in [s]. *)
Definition contains (s sub : string) : Prop :=
  exists before after, s = before ++ sub ++ after.

(** ** Vocabulary of the statements *)

(** The execution details [d] carry the status string [status]. *)
Definition carries_status (d : value) (status : string) : Prop :=
  exists m, d = VDict m /\ lookup "status" m = Some (VStr status).

(** The server after one iteration of the poll loop: the client has slept
    and the details request has been answered. *)
Definition poll_answer (h : ValohaiHook) (hdrs : http_headers) (period : Z)
    (execution_id : value) (s : server) : reply * server :=
  respond (details_request h hdrs execution_id) (elapse period s).

Fixpoint after_polls (n : nat) (h : ValohaiHook) (hdrs : http_headers) (period : Z)
    (execution_id : value) (s : server) : server :=
  match n with
  | O => s
  | S k => after_polls k h hdrs period execution_id
             (snd (poll_answer h hdrs period execution_id s))
  end.

(** The answer to the poll number [k] (from 0) has a status of the
    incomplete set. *)
Definition incomplete_at (k : nat) (h : ValohaiHook) (hdrs : http_headers)
    (period : Z) (execution_id : value) (s : server) : Prop :=
  exists d status,
    fst (poll_answer h hdrs period execution_id
           (after_polls k h hdrs period execution_id s)) = Reply d
    /\ carries_status d status
    /\ In status incomplete_execution_statuses.

(** The requests behind the listings. *)
Definition projects_request (h : ValohaiHook) (hdrs : http_headers) : request :=
  Get (api_url h LIST_PROJECTS_ENDPOINT) hdrs [("limit", VInt 10000)].

Definition commits_request (h : ValohaiHook) (hdrs : http_headers) : request :=
  Get (api_url h LIST_COMMITS_ENDPOINT) hdrs
    [("limit", VInt 10000); ("ordering", VStr "-commit_time")].

(** A listing entry with a name that is not [query]. *)
Definition other_project (query : string) (e : value) : Prop :=
  exists m name,
    e = VDict m /\ lookup "name" m = Some name /\ name <> VStr query.

(** A listing entry of another repository, or of another ref. *)
Definition other_commit (repository_id : value) (branch : string) (e : value) : Prop :=
  exists m repository,
    e = VDict m
    /\ lookup "repository" m = Some repository
    /\ (py_eq repository repository_id = false
        \/ exists ref, lookup "ref" m = Some ref /\ ref <> VStr branch).

(** An output of the execution details, with its name and its URL. *)
Definition output_entry (o : value) (spec : string * value) : Prop :=
  exists m,
    o = VDict m
    /\ lookup "name" m = Some (VStr (fst spec))
    /\ lookup "url" m = Some (snd spec).

(** The downloader answers every retrieval. *)
Definition always_retrieves : Prop :=
  forall url filename s, exists v s',
    respond (UrlRetrieve url filename) s = (Reply v, s').

(** [re.match(pattern, name)] finds a match. *)
Definition matched (pattern name : string) : bool :=
  match re_match pattern name with
  | Some b => b
  | None => false
  end.

(** What the log and the downloader see of an output that is fetched, and of
    one that is passed over. *)
Definition download_events (path : string) (spec : string * value) : list event :=
  [Call (UrlRetrieve (snd spec) (posix_join path (fst spec)));
   LogInfo ("Downloaded output: " ++ fst spec)].

Definition ignore_events (pattern : string) (spec : string * value) : list event :=
  [LogInfo ("Ignore ouput name " ++ fst spec
            ++ " because failed to match pattern " ++ pattern)].

Definition saved_as (path : string) (spec : string * value) : value * string :=
  (snd spec, posix_join path (fst spec)).

(** A computation does not depend on fuel: it never ends in [OutOfFuel]. *)
Definition finite {A : Type} (m : M A) : Prop :=
  forall w, fst (m w) <> OutOfFuel.

(** A computation only ever adds events at the end of the trace. *)
Definition grows {A : Type} (m : M A) : Prop :=
  forall w, exists added, trace (snd (m w)) = (trace w ++ added)%list.

(** ** Vocabulary of the further properties *)

Definition repositories_request (h : ValohaiHook) (hdrs : http_headers) : request :=
  Get (api_url h LIST_REPOSITORIES_ENDPOINT) hdrs [("limit", VInt 10000)].

Definition fetch_request (h : ValohaiHook) (hdrs : http_headers)
    (project_id : value) : request :=
  Post (api_url h (FETCH_REPOSITORY_ENDPOINT project_id)) hdrs None.

Definition submit_request (h : ValohaiHook) (hdrs : http_headers)
    (payload : value) : request :=
  Post (api_url h SUBMIT_EXECUTION_ENDPOINT) hdrs (Some payload).

Definition tags_request (h : ValohaiHook) (hdrs : http_headers)
    (tags execution_id : value) : request :=
  Post (api_url h (SET_EXECUTION_TAGS_ENDPOINT execution_id)) hdrs
    (Some (VDict [("tags", tags)])).

(** A repository entry that belongs to another project. *)
Definition other_repository (project_id : value) (e : value) : Prop :=
  exists m project id,
    e = VDict m
    /\ lookup "project" m = Some (VDict project)
    /\ lookup "id" project = Some id
    /\ py_eq id project_id = false.

(** Every event a computation adds to the trace satisfies [P]. *)
Definition adds (P : event -> Prop) {A : Type} (m : M A) : Prop :=
  forall w, exists added,
    trace (snd (m w)) = (trace w ++ added)%list /\ Forall P added.

(** An event the hook may cause: an HTTP request to an endpoint of its own
    host, over https, with its own headers; a sleep; a log line. *)
Definition from_hook (h : ValohaiHook) (hdrs : http_headers) (e : event) : Prop :=
  match e with
  | Call (Get url hd _) | Call (Post url hd _) =>
      hd = hdrs /\ exists endpoint, url = api_url h endpoint
  | Call (UrlRetrieve _ _) | Call (XComPull _) => False
  | Sleep _ | LogInfo _ => True
  end.

(** An event that changes nothing on the server: no POST. *)
Definition read_only (e : event) : Prop :=
  match e with
  | Call (Post _ _ _) => False
  | _ => True
  end.

(** An event of the loop of the downloader: a retrieval or a log line. *)
Definition retrieval_or_log (e : event) : Prop :=
  match e with
  | Call (UrlRetrieve _ _) | LogInfo _ => True
  | _ => False
  end.

(** A log line, or the retrieval of one of the outputs [outs]: from the
    [url] of the output into [os.path.join(path, name)] for its [name]. *)
Definition retrieval_of (path : string) (outs : list value) (e : event) : Prop :=
  match e with
  | LogInfo _ => True
  | Call (UrlRetrieve url filename) =>
      exists m name,
        In (VDict m) outs
        /\ lookup "url" m = Some url
        /\ lookup "name" m = Some (VStr name)
        /\ filename = posix_join path name
  | _ => False
  end.

(** The request that creates an execution: the POST of line 207, with the
    payload of line 199 written out field by field. *)
Definition execution_request (h : ValohaiHook) (hdrs : http_headers)
    (project commit step inputs parameters environment : value) : request :=
  Post (api_url h SUBMIT_EXECUTION_ENDPOINT) hdrs
    (Some (VDict [("project", project);
                  ("commit", commit);
                  ("step", step);
                  ("inputs", inputs);
                  ("parameters", parameters);
                  ("environment", environment)])).

(** What the tagging step of [submit_execution] may add to the trace. *)
Definition tagging_event (h : ValohaiHook) (hdrs : http_headers)
    (tags execution_id : value) (e : event) : Prop :=
  e = Call (tags_request h hdrs tags execution_id) \/ exists msg, e = LogInfo msg.

(** The shape of what the poll loop adds to the trace: rounds of a sleep of
    the polling period followed by the details request, each with at most
    one log line after it. *)
Inductive polling_trace (period : Z) (req : request) : list event -> Prop :=
| polling_done : polling_trace period req []
| polling_round (t : list event) :
    polling_trace period req t ->
    polling_trace period req (Sleep period :: Call req :: t)
| polling_round_logged (msg : string) (t : list event) :
    polling_trace period req t ->
    polling_trace period req (Sleep period :: Call req :: LogInfo msg :: t).

End Operations.

(** ** A small runtime to run the hook on

    A server with two projects, one repository and two commits, whose
    execution goes through the statuses of a script, one per details
    request, and is [complete] once the script is used up. *)

Module Demo.

Definition base : string := "https://app.valohai.test/".

Definition projects : value :=
  VDict [("results",
          VList [VDict [("id", VInt 1); ("name", VStr "a")];
                 VDict [("id", VInt 2); ("name", VStr "b")]])].

Definition repositories : value :=
  VDict [("results",
          VList [VDict [("id", VInt 7); ("project", VDict [("id", VInt 1)])];
                 VDict [("id", VInt 8); ("project", VDict [("id", VInt 2)])]])].

Definition commits : value :=
  VDict [("results",
          VList [VDict [("repository", VInt 7); ("ref", VStr "master");
                        ("identifier", VStr "c3")];
                 VDict [("repository", VInt 8); ("ref", VStr "master");
                        ("identifier", VStr "c2")];
                 VDict [("repository", VInt 8); ("ref", VStr "master");
                        ("identifier", VStr "c1")]])].

Definition outputs : list value :=
  [VDict [("name", VStr "model.pkl"); ("url", VStr "s3://bucket/model.pkl")];
   VDict [("name", VStr "log.txt"); ("url", VStr "s3://bucket/log.txt")]].

Definition details (status : string) : value :=
  VDict [("id", VStr "e1");
         ("status", VStr status);
         ("urls", VDict [("display", VStr "https://app.valohai.test/e1")]);
         ("outputs", VList outputs)].

Definition answer (r : request) (script : list string) : reply * list string :=
  match r with
  | Get url _ _ =>
      if String.eqb url (base ++ "api/v0/projects/") then (Reply projects, script)
      else if String.eqb url (base ++ "api/v0/repositories/") then (Reply repositories, script)
      else if String.eqb url (base ++ "api/v0/commits/") then (Reply commits, script)
      else if String.eqb url (base ++ "api/v0/executions/e1/") then
        match script with
        | [] => (Reply (details "complete"), [])
        | status :: rest => (Reply (details status), rest)
        end
      else (Throws (ExternalError "not found"), script)
  | Post url _ _ =>
      if String.eqb url (base ++ "api/v0/executions/") then (Reply (details "created"), script)
      else (Reply (VDict []), script)
  | UrlRetrieve _ _ => (Reply VNone, script)
  | XComPull _ => (Reply (details "complete"), script)
  end.

(** [re.match] for the patterns that are a literal text after an optional
    [^] anchor. *)
Definition literal_match (pattern s : string) : option bool :=
  match pattern with
  | String "^"%char literal => Some (String.prefix literal s)
  | _ => Some (String.prefix pattern s)
  end.

Definition runtime : Runtime :=
  {| server := list string;
     respond := answer;
     elapse := fun _ script => script;
     repr := fun _ => "<object>";
     re_match := literal_match |}.

Definition start (script : list string) : @world runtime :=
  @Build_world runtime script [] None.

Definition hook : ValohaiHook :=
  {| host := "app.valohai.test";
     headers := Some [("Authorization", "Token secret")] |}.

Definition no_token : connection :=
  {| conn_host := "app.valohai.test"; extra_dejson := [] |}.

End Demo.

(** ** A scripted runtime

    A server that gives the replies of a script, one per call, whatever the
    request, and an engine that refuses the pattern [(]. *)

Module Scripted.

Definition answer (r : request) (script : list reply) : reply * list reply :=
  match script with
  | [] => (Throws (ExternalError "no reply left"), [])
  | a :: rest => (a, rest)
  end.

Definition engine (pattern s : string) : option bool :=
  if String.eqb pattern "(" then None else Demo.literal_match pattern s.

Definition runtime : Runtime :=
  {| server := list reply;
     respond := answer;
     elapse := fun _ script => script;
     repr := fun _ => "<object>";
     re_match := engine |}.

Definition start (script : list reply) : @world runtime :=
  @Build_world runtime script [] None.

Definition hook : ValohaiHook :=
  {| host := "app.valohai.test";
     headers := Some [("Authorization", "Token secret")] |}.

Definition auth : http_headers := [("Authorization", "Token secret")].

Definition listing (entries : list value) : value :=
  VDict [("results", VList entries)].

Definition started : value :=
  VDict [("id", VStr "e1");
         ("urls", VDict [("display", VStr "https://app.valohai.test/e1")])].

Definition status (s : string) : value := VDict [("status", VStr s)].

(** The answers up to the POST of a submission of project [b] on branch
    [master]: the projects, the fetch, the repositories, the commits. *)
Definition resolved_on_branch : list reply :=
  [Reply (listing [VDict [("id", VInt 2); ("name", VStr "b")]]);
   Reply (VDict []);
   Reply (listing [VDict [("id", VInt 8); ("project", VDict [("id", VInt 2)])]]);
   Reply (listing [VDict [("repository", VInt 8); ("ref", VStr "master");
                          ("identifier", VStr "c2")]])].

End Scripted.

(** ** A result store with an output under an absolute name *)

Module Archive.

Definition outputs : list value :=
  [VDict [("name", VStr "/srv/models/model.pkl"); ("url", VStr "s3://bucket/model.pkl")];
   VDict [("name", VStr "log.txt"); ("url", VStr "s3://bucket/log.txt")]].

Definition answer (r : request) (s : unit) : reply * unit :=
  match r with
  | XComPull _ => (Reply (VDict [("outputs", VList outputs)]), s)
  | UrlRetrieve _ _ => (Reply VNone, s)
  | _ => (Throws (ExternalError "no API here"), s)
  end.

Definition runtime : Runtime :=
  {| server := unit;
     respond := answer;
     elapse := fun _ s => s;
     repr := fun _ => "<object>";
     re_match := Demo.literal_match |}.

Definition start : @world runtime := @Build_world runtime tt [] None.

End Archive.


(** * Properties *)

Section Properties.
Context {RT : Runtime}.

(** ** The monad *)

Lemma bind_Ret {A B} (m : M A) (k : A -> M B) (w w' : world) (a : A) :
  m w = (Ret a, w') -> bind m k w = k a w'.
Proof. intros H. unfold bind. now rewrite H. Qed.

Lemma record_record (e1 e2 : list event) (s1 s2 : server) (w : world) :
  record e2 s2 (record e1 s1 w) = record (e1 ++ e2) s2 w.
Proof. unfold record. cbn. now rewrite <- app_assoc. Qed.

Lemma call_Reply (r : request) (w : world) (v : value) (s' : server) :
  respond r (srv w) = (Reply v, s') -> call r w = (Ret v, record [Call r] s' w).
Proof. intros H. unfold call. now rewrite H. Qed.

Lemma self_headers_Some (h : ValohaiHook) (hdrs : http_headers) (w : world) :
  headers h = Some hdrs -> self_headers h w = (Ret hdrs, w).
Proof. intros H. unfold self_headers. now rewrite H. Qed.

Lemma append_empty (s : string) : s ++ "" = s.
Proof. induction s as [| c s IH]; cbn; [reflexivity | now rewrite IH]. Qed.

Lemma contains_suffix (prefix s : string) : contains (prefix ++ s) s.
Proof. exists prefix, "". now rewrite append_empty. Qed.

(** ** Membership in a set of statuses *)

Lemma py_eq_VStr (v : value) (s : string) : py_eq v (VStr s) = true <-> v = VStr s.
Proof.
  destruct v; cbn; try (split; [discriminate | intros H; discriminate H]).
  rewrite String.eqb_eq. split; [intros -> | intros [= ->]]; reflexivity.
Qed.

Lemma existsb_str_In (s : string) (l : list string) :
  existsb (fun x => py_eq (VStr s) (VStr x)) l = true <-> In s l.
Proof.
  rewrite existsb_exists. split.
  - intros [x [Hin Heq]]. cbn in Heq. apply String.eqb_eq in Heq. now subst.
  - intros Hin. exists s. split; [assumption | cbn; apply String.eqb_refl].
Qed.

Lemma py_in_member (s : string) (l : list string) (w : world) :
  In s l -> py_in (VStr s) l w = (Ret true, w).
Proof.
  intros H. unfold py_in. cbn [hashable]. unfold ret.
  apply existsb_str_In in H. now rewrite H.
Qed.

Lemma py_in_stranger (s : string) (l : list string) (w : world) :
  ~ In s l -> py_in (VStr s) l w = (Ret false, w).
Proof.
  intros H. unfold py_in. cbn [hashable]. unfold ret.
  destruct (existsb _ l) eqn:E; [| reflexivity].
  apply existsb_str_In in E. contradiction.
Qed.

(** ** One iteration of the poll loop *)

(** The part of an iteration up to the classification of the status: the
    sleep, the details request and the reading of the status. *)
Lemma poll_loop_fetch (fuel : nat) (h : ValohaiHook) (hdrs : http_headers)
    (period : Z) (eid : value) (w : world) (d : value) (s' : server)
    (status : string) :
  0 <= period ->
  headers h = Some hdrs ->
  poll_answer h hdrs period eid (srv w) = (Reply d, s') ->
  carries_status d status ->
  poll_loop (S fuel) h period eid w =
  (let w1 := record [Sleep period; Call (details_request h hdrs eid)] s' w in
   (incomplete <- py_in (VStr status) incomplete_execution_statuses;;
    if incomplete then
      logging_info ("Incomplete execution with status: " ++ status);;
      poll_loop fuel h period eid
    else
      failed <- py_in (VStr status) fail_execution_statuses;;
      if failed then
        raise (AirflowException ("Execution failed with status: " ++ status))
      else
        succeeded <- py_in (VStr status) success_execution_statuses;;
        if succeeded then
          logging_info "Execution completed sucessfully";;
          ret d
        else
          raise (AirflowException ("Found a not handled status: " ++ status))) w1).
Proof.
  intros Hp Hh Hans [m [-> Hst]].
  cbn [poll_loop].
  assert (Hsleep : time_sleep period w
                   = (Ret tt, record [Sleep period] (elapse period (srv w)) w)).
  { unfold time_sleep. destruct (period <? 0) eqn:E; [lia | reflexivity]. }
  rewrite (bind_Ret _ _ _ _ _ Hsleep).
  assert (Hget : get_execution_details h eid
                   (record [Sleep period] (elapse period (srv w)) w)
                 = (Ret (VDict m),
                    record [Sleep period; Call (details_request h hdrs eid)] s' w)).
  { unfold get_execution_details.
    rewrite (bind_Ret _ _ _ _ _ (self_headers_Some _ _ _ Hh)).
    unfold poll_answer, details_request in Hans.
    rewrite (call_Reply _ (record [Sleep period] (elapse period (srv w)) w) _ _ Hans).
    now rewrite record_record. }
  rewrite (bind_Ret _ _ _ _ _ Hget).
  unfold subscript at 1. rewrite Hst.
  reflexivity.
Qed.

(** C1.  When the poll loop of [submit_execution] fetches execution details
    whose status is one of the fail set (error, crashed, stopped), it raises
    an [AirflowException] whose message contains that status, and returns no
    value; nothing happens after the details request. *)
Theorem poll_loop_fail_status_raises (fuel : nat) (h : ValohaiHook)
    (hdrs : http_headers) (period : Z) (eid : value) (w : world) (d : value)
    (s' : server) (status : string) :
  0 <= period ->
  headers h = Some hdrs ->
  poll_answer h hdrs period eid (srv w) = (Reply d, s') ->
  carries_status d status ->
  In status fail_execution_statuses ->
  exists message,
    poll_loop (S fuel) h period eid w =
      (Raise (AirflowException message),
       record [Sleep period; Call (details_request h hdrs eid)] s' w)
    /\ contains message status.
Proof.
  intros Hp Hh Hans Hd Hin.
  exists ("Execution failed with status: " ++ status). split.
  - rewrite (poll_loop_fetch fuel h hdrs period eid w d s' status Hp Hh Hans Hd).
    cbv zeta.
    assert (Hout : ~ In status incomplete_execution_statuses).
    { cbn in Hin |- *. intuition (subst; discriminate). }
    rewrite (bind_Ret _ _ _ _ _ (py_in_stranger _ _ _ Hout)).
    rewrite (bind_Ret _ _ _ _ _ (py_in_member _ _ _ Hin)).
    reflexivity.
  - apply contains_suffix.
Qed.

(** C2.  When the poll loop of [submit_execution] fetches execution details
    whose status is in the success set (complete), the loop ends and the
    result is that very payload. *)
Theorem poll_loop_success_returns_details (fuel : nat) (h : ValohaiHook)
    (hdrs : http_headers) (period : Z) (eid : value) (w : world) (d : value)
    (s' : server) (status : string) :
  0 <= period ->
  headers h = Some hdrs ->
  poll_answer h hdrs period eid (srv w) = (Reply d, s') ->
  carries_status d status ->
  In status success_execution_statuses ->
  poll_loop (S fuel) h period eid w =
    (Ret d,
     record [Sleep period; Call (details_request h hdrs eid);
             LogInfo "Execution completed sucessfully"] s' w).
Proof.
  intros Hp Hh Hans Hd Hin.
  rewrite (poll_loop_fetch fuel h hdrs period eid w d s' status Hp Hh Hans Hd).
  cbv zeta.
  assert (Hinc : ~ In status incomplete_execution_statuses).
  { cbn in Hin |- *. intuition (subst; discriminate). }
  assert (Hfail : ~ In status fail_execution_statuses).
  { cbn in Hin |- *. intuition (subst; discriminate). }
  rewrite (bind_Ret _ _ _ _ _ (py_in_stranger _ _ _ Hinc)).
  rewrite (bind_Ret _ _ _ _ _ (py_in_stranger _ _ _ Hfail)).
  rewrite (bind_Ret _ _ _ _ _ (py_in_member _ _ _ Hin)).
  unfold bind, logging_info, ret. now rewrite record_record.
Qed.

(** C3.  When the status string fetched by the poll loop is in none of the
    three sets, the loop raises an [AirflowException]; it neither polls
    again nor returns. *)
Theorem poll_loop_unknown_status_raises (fuel : nat) (h : ValohaiHook)
    (hdrs : http_headers) (period : Z) (eid : value) (w : world) (d : value)
    (s' : server) (status : string) :
  0 <= period ->
  headers h = Some hdrs ->
  poll_answer h hdrs period eid (srv w) = (Reply d, s') ->
  carries_status d status ->
  ~ In status incomplete_execution_statuses ->
  ~ In status fail_execution_statuses ->
  ~ In status success_execution_statuses ->
  poll_loop (S fuel) h period eid w =
    (Raise (AirflowException ("Found a not handled status: " ++ status)),
     record [Sleep period; Call (details_request h hdrs eid)] s' w).
Proof.
  intros Hp Hh Hans Hd Hinc Hfail Hok.
  rewrite (poll_loop_fetch fuel h hdrs period eid w d s' status Hp Hh Hans Hd).
  cbv zeta.
  rewrite (bind_Ret _ _ _ _ _ (py_in_stranger _ _ _ Hinc)).
  rewrite (bind_Ret _ _ _ _ _ (py_in_stranger _ _ _ Hfail)).
  rewrite (bind_Ret _ _ _ _ _ (py_in_stranger _ _ _ Hok)).
  reflexivity.
Qed.

(** ** Traces only grow *)

Lemma grows_ret {A} (a : A) : grows (ret a).
Proof. intros w. exists []. cbn. now rewrite app_nil_r. Qed.

Lemma grows_raise {A} (e : exn) : grows (@raise _ A e).
Proof. intros w. exists []. cbn. now rewrite app_nil_r. Qed.

Lemma grows_out_of_fuel {A} : grows (@out_of_fuel _ A).
Proof. intros w. exists []. cbn. now rewrite app_nil_r. Qed.

Lemma grows_bind {A B} (m : M A) (k : A -> M B) :
  grows m -> (forall a, grows (k a)) -> grows (bind m k).
Proof.
  intros Hm Hk w. unfold bind.
  destruct (Hm w) as [l1 H1].
  destruct (m w) as [[a | e |] w1]; cbn in H1.
  - destruct (Hk a w1) as [l2 H2]. exists (l1 ++ l2)%list.
    now rewrite H2, H1, app_assoc.
  - now exists l1.
  - now exists l1.
Qed.

Lemma grows_call (r : request) : grows (call r).
Proof.
  intros w. exists [Call r]. unfold call.
  destruct (respond r (srv w)) as [[v | e] s1]; reflexivity.
Qed.

Lemma grows_logging_info (msg : string) : grows (logging_info msg).
Proof. intros w. now exists [LogInfo msg]. Qed.

Lemma grows_time_sleep (seconds : Z) : grows (time_sleep seconds).
Proof.
  intros w. unfold time_sleep. destruct (seconds <? 0).
  - exists []. cbn. now rewrite app_nil_r.
  - now exists [Sleep seconds].
Qed.

Lemma grows_subscript (v : value) (key : string) : grows (subscript v key).
Proof.
  unfold subscript. destruct v; try apply grows_raise.
  destruct (lookup key entries); [apply grows_ret | apply grows_raise].
Qed.

Lemma grows_py_in (v : value) (l : list string) : grows (py_in v l).
Proof. unfold py_in. destruct (hashable v); [apply grows_ret | apply grows_raise]. Qed.

Lemma grows_self_headers (h : ValohaiHook) : grows (self_headers h).
Proof.
  unfold self_headers. destruct (headers h); [apply grows_ret | apply grows_raise].
Qed.

Lemma grows_get_execution_details (h : ValohaiHook) (eid : value) :
  grows (get_execution_details h eid).
Proof.
  unfold get_execution_details. apply grows_bind.
  - apply grows_self_headers.
  - intros hdrs. apply grows_call.
Qed.

Lemma grows_poll_loop (fuel : nat) (h : ValohaiHook) (period : Z) (eid : value) :
  grows (poll_loop fuel h period eid).
Proof.
  induction fuel as [| fuel IH]; cbn [poll_loop].
  - apply grows_out_of_fuel.
  - apply grows_bind; [apply grows_time_sleep | intros _].
    apply grows_bind; [apply grows_get_execution_details | intros d].
    apply grows_bind; [apply grows_subscript | intros status].
    apply grows_bind; [apply grows_py_in | intros [|]].
    + apply grows_bind; [apply grows_logging_info | intros _; exact IH].
    + apply grows_bind; [apply grows_py_in | intros [|]].
      * apply grows_raise.
      * apply grows_bind; [apply grows_py_in | intros [|]].
        -- apply grows_bind; [apply grows_logging_info | intros _; apply grows_ret].
        -- apply grows_raise.
Qed.

(** Every iteration opens with the sleep and the details request. *)
Lemma poll_loop_opening (fuel : nat) (h : ValohaiHook) (hdrs : http_headers)
    (period : Z) (eid : value) (w : world) :
  0 <= period ->
  headers h = Some hdrs ->
  exists rest,
    trace (snd (poll_loop (S fuel) h period eid w)) =
    (trace w ++ [Sleep period; Call (details_request h hdrs eid)] ++ rest)%list.
Proof.
  intros Hp Hh. cbn [poll_loop].
  assert (Hsleep : time_sleep period w
                   = (Ret tt, record [Sleep period] (elapse period (srv w)) w)).
  { unfold time_sleep. destruct (period <? 0) eqn:E; [lia | reflexivity]. }
  rewrite (bind_Ret _ _ _ _ _ Hsleep).
  unfold get_execution_details.
  unfold bind at 1. unfold bind at 1.
  rewrite (self_headers_Some _ _ _ Hh).
  fold (details_request h hdrs eid).
  unfold call.
  destruct (respond (details_request h hdrs eid)
              (srv (record [Sleep period] (elapse period (srv w)) w)))
    as [[d | e] s1].
  - rewrite record_record.
    match goal with
    | |- context [snd (?k ?w1)] =>
        assert (Hk : exists l, trace (snd (k w1)) = (trace w1 ++ l)%list)
    end.
    { apply grows_bind; [apply grows_subscript | intros status].
      apply grows_bind; [apply grows_py_in | intros [|]].
      - apply grows_bind; [apply grows_logging_info | intros _; apply grows_poll_loop].
      - apply grows_bind; [apply grows_py_in | intros [|]].
        + apply grows_raise.
        + apply grows_bind; [apply grows_py_in | intros [|]].
          * apply grows_bind; [apply grows_logging_info | intros _; apply grows_ret].
          * apply grows_raise. }
    destruct Hk as [l Hl]. exists l. rewrite Hl. cbn. now rewrite <- app_assoc.
  - exists []. cbn. now rewrite <- app_assoc.
Qed.

Lemma requests_app (t1 t2 : list event) :
  requests (t1 ++ t2) = (requests t1 ++ requests t2)%list.
Proof.
  induction t1 as [| [r | z | msg] t1 IH]; cbn; [reflexivity | | assumption | assumption].
  now rewrite IH.
Qed.

(** An iteration that fetches an incomplete status hands over to the next
    iteration, in the world where the status has been logged. *)
Lemma poll_loop_incomplete_step (fuel : nat) (h : ValohaiHook)
    (hdrs : http_headers) (period : Z) (eid : value) (w : world) (d : value)
    (s' : server) (status : string) :
  0 <= period ->
  headers h = Some hdrs ->
  poll_answer h hdrs period eid (srv w) = (Reply d, s') ->
  carries_status d status ->
  In status incomplete_execution_statuses ->
  poll_loop (S fuel) h period eid w =
  poll_loop fuel h period eid
    (record [Sleep period; Call (details_request h hdrs eid);
             LogInfo ("Incomplete execution with status: " ++ status)] s' w).
Proof.
  intros Hp Hh Hans Hd Hin.
  rewrite (poll_loop_fetch fuel h hdrs period eid w d s' status Hp Hh Hans Hd).
  cbv zeta.
  rewrite (bind_Ret _ _ _ _ _ (py_in_member _ _ _ Hin)).
  unfold bind at 1. unfold logging_info. now rewrite record_record.
Qed.

(** C4.  For a status of the incomplete set (created, queued, started,
    stopping): the iteration that fetches it raises nothing and is followed
    by another iteration, which sleeps the polling period and sends the
    details request again; and as long as the answers stay in the incomplete
    set the loop does not end: whatever the number [n] of iterations allowed,
    if the first [n] answers are incomplete the loop is still running after
    them, having sent [n] details requests. *)
Theorem poll_loop_incomplete_polls_again (h : ValohaiHook) (hdrs : http_headers)
    (period : Z) (eid : value) :
  0 <= period ->
  headers h = Some hdrs ->
  (forall (fuel : nat) (w : world) (d : value) (s' : server) (status : string),
      poll_answer h hdrs period eid (srv w) = (Reply d, s') ->
      carries_status d status ->
      In status incomplete_execution_statuses ->
      let w1 := record [Sleep period; Call (details_request h hdrs eid);
                        LogInfo ("Incomplete execution with status: " ++ status)] s' w in
      poll_loop (S fuel) h period eid w = poll_loop fuel h period eid w1
      /\ exists rest,
           trace (snd (poll_loop (S (S fuel)) h period eid w)) =
           (trace w1 ++ [Sleep period; Call (details_request h hdrs eid)] ++ rest)%list)
  /\ (forall (n : nat) (w : world),
         (forall k, (k < n)%nat -> incomplete_at k h hdrs period eid (srv w)) ->
         exists w',
           poll_loop n h period eid w = (OutOfFuel, w')
           /\ requests (trace w') =
              (requests (trace w) ++ repeat (details_request h hdrs eid) n)%list).
Proof.
  intros Hp Hh. split.
  - intros fuel w d s' status Hans Hd Hin w1. split.
    + apply (poll_loop_incomplete_step fuel h hdrs period eid w d s' status); assumption.
    + rewrite (poll_loop_incomplete_step (S fuel) h hdrs period eid w d s' status)
        by assumption.
      apply poll_loop_opening; assumption.
  - induction n as [| n IH]; intros w Hall.
    + exists w. cbn. now rewrite app_nil_r.
    + destruct (Hall O ltac:(lia)) as [d [status [Hfst [Hd Hin]]]].
      cbn [after_polls] in Hfst.
      destruct (poll_answer h hdrs period eid (srv w)) as [a s'] eqn:Hans.
      cbn in Hfst. subst a.
      rewrite (poll_loop_incomplete_step n h hdrs period eid w d s' status)
        by assumption.
      match goal with |- context [poll_loop n h period eid ?w0] => set (w1 := w0) end.
      destruct (IH w1) as [w' [Hrun Hreq]].
      { intros k Hk. specialize (Hall (S k) ltac:(lia)).
        unfold incomplete_at in Hall |- *. cbn [after_polls] in Hall.
        rewrite Hans in Hall. exact Hall. }
      exists w'. split; [exact Hrun |].
      rewrite Hreq. subst w1. cbn [trace record].
      rewrite requests_app. cbn [requests repeat].
      now rewrite <- app_assoc.
Qed.

(** ** Only the loop needs fuel *)

Lemma finite_ret {A} (a : A) : finite (ret a).
Proof. intros w. discriminate. Qed.

Lemma finite_raise {A} (e : exn) : finite (@raise _ A e).
Proof. intros w. discriminate. Qed.

Lemma finite_bind {A B} (m : M A) (k : A -> M B) :
  finite m -> (forall a, finite (k a)) -> finite (bind m k).
Proof.
  intros Hm Hk w. unfold bind. specialize (Hm w).
  destruct (m w) as [[a | e |] w1]; cbn in *; [apply Hk | discriminate | congruence].
Qed.

Lemma finite_call (r : request) : finite (call r).
Proof.
  intros w. unfold call. destruct (respond r (srv w)) as [[v | e] s1]; discriminate.
Qed.

Lemma finite_logging_info (msg : string) : finite (logging_info msg).
Proof. intros w. discriminate. Qed.

Lemma finite_subscript (v : value) (key : string) : finite (subscript v key).
Proof.
  unfold subscript. destruct v; try apply finite_raise.
  destruct (lookup key entries); [apply finite_ret | apply finite_raise].
Qed.

Lemma finite_py_iter (v : value) : finite (py_iter v).
Proof. destruct v; cbn; (apply finite_ret || apply finite_raise). Qed.

Lemma finite_self_headers (h : ValohaiHook) : finite (self_headers h).
Proof.
  unfold self_headers. destruct (headers h); [apply finite_ret | apply finite_raise].
Qed.

Create HintDb finite.
#[local] Hint Resolve finite_ret finite_raise finite_call finite_logging_info
  finite_subscript finite_py_iter finite_self_headers : finite.

Ltac finite_steps :=
  repeat first [ solve [auto with finite] | apply finite_bind; [| intro] ].

Lemma finite_find_project (name : value) (l : list value) : finite (find_project name l).
Proof.
  induction l as [| p l IH]; cbn [find_project]; finite_steps.
  destruct (py_eq _ _); auto with finite.
Qed.

Lemma finite_get_project_id (h : ValohaiHook) (name : value) :
  finite (get_project_id h name).
Proof. unfold get_project_id. finite_steps. apply finite_find_project. Qed.
#[local] Hint Resolve finite_find_project finite_get_project_id : finite.

Lemma finite_find_repository (pid : value) (l : list value) :
  finite (find_repository pid l).
Proof.
  induction l as [| r l IH]; cbn [find_repository]; finite_steps.
  destruct (py_eq _ _); auto with finite.
Qed.

Lemma finite_get_repository_id (h : ValohaiHook) (pid : value) :
  finite (get_repository_id h pid).
Proof. unfold get_repository_id. finite_steps. apply finite_find_repository. Qed.
#[local] Hint Resolve finite_find_repository finite_get_repository_id : finite.

Lemma finite_fetch_repository (h : ValohaiHook) (pid : value) :
  finite (fetch_repository h pid).
Proof. unfold fetch_repository. finite_steps. Qed.

Lemma finite_find_commit (rid branch : value) (l : list value) :
  finite (find_commit rid branch l).
Proof.
  induction l as [| c l IH]; cbn [find_commit]; finite_steps.
  - unfold commit_matches. finite_steps.
    destruct (py_eq _ _); finite_steps.
  - destruct a; auto with finite.
Qed.

Lemma finite_get_latest_commit (h : ValohaiHook) (pid branch : value) :
  finite (get_latest_commit h pid branch).
Proof. unfold get_latest_commit. finite_steps. apply finite_find_commit. Qed.

Lemma finite_add_execution_tags (h : ValohaiHook) (tags eid : value) :
  finite (add_execution_tags h tags eid).
Proof. unfold add_execution_tags. finite_steps. Qed.
#[local] Hint Resolve finite_fetch_repository finite_find_commit
  finite_get_latest_commit finite_add_execution_tags : finite.

(** Whatever [submit_execution] ends with is either an exception of the
    steps before the loop, or what the poll loop ends with. *)
Lemma submit_execution_ends_in_poll_loop (fuel : nat) (h : ValohaiHook)
    (project_name step inputs parameters environment commit branch tags : value)
    (period : Z) (w w' : world) (o : outcome value) :
  submit_execution fuel h project_name step inputs parameters environment commit
    branch tags period w = (o, w') ->
  (exists e, o = Raise e)
  \/ (exists execution_id w0, poll_loop fuel h period execution_id w0 = (o, w')).
Proof.
  unfold submit_execution.
  set (resolve := fun project_id : value =>
         if py_truthy branch then
           response <- fetch_repository h project_id;;
           logging_info ("Fetched latest commits with response: " ++ py_str response);;
           latest <- get_latest_commit h project_id branch;;
           logging_info ("Using latest " ++ py_str branch ++ " branch commit: "
                         ++ py_str latest);;
           ret latest
         else ret commit).
  set (tag := fun execution_id : value =>
         if py_truthy tags then
           add_execution_tags h tags execution_id;;
           logging_info ("Added execution tags: " ++ py_str tags)
         else ret tt).
  assert (Hresolve : forall pid, finite (resolve pid)).
  { intros pid. unfold resolve. destruct (py_truthy branch); finite_steps. }
  assert (Htag : forall eid, finite (tag eid)).
  { intros eid. unfold tag. destruct (py_truthy tags); finite_steps. }
  assert (Hstep : forall (A : Type) (m : M A) (k : A -> M value) (w1 : world),
             finite m ->
             bind m k w1 = (o, w') ->
             (exists e, o = Raise e) \/ (exists a w2, k a w2 = (o, w'))).
  { intros A m k w1 Hm. unfold bind. specialize (Hm w1).
    destruct (m w1) as [[a | e |] w2]; cbn in Hm.
    - intros Hk. right. now exists a, w2.
    - intros [= <- _]. left. now exists e.
    - congruence. }
  intros Hrun.
  apply Hstep in Hrun; [| intros w1; discriminate].
  destruct Hrun as [? | [_ [w1 Hrun]]]; [now left |].
  apply Hstep in Hrun; [| apply finite_get_project_id].
  destruct Hrun as [? | [pid [w2 Hrun]]]; [now left |].
  apply (Hstep _ (resolve pid)) in Hrun; [| apply Hresolve].
  destruct Hrun as [? | [c [w3 Hrun]]]; [now left |].
  apply Hstep in Hrun; [| apply finite_self_headers].
  destruct Hrun as [? | [hdrs [w4 Hrun]]]; [now left |].
  apply Hstep in Hrun; [| apply finite_call].
  destruct Hrun as [? | [response [w5 Hrun]]]; [now left |].
  apply Hstep in Hrun; [| apply finite_logging_info].
  destruct Hrun as [? | [_ [w6 Hrun]]]; [now left |].
  apply Hstep in Hrun; [| apply finite_subscript].
  destruct Hrun as [? | [eid [w7 Hrun]]]; [now left |].
  apply Hstep in Hrun; [| apply finite_subscript].
  destruct Hrun as [? | [urls [w8 Hrun]]]; [now left |].
  apply Hstep in Hrun; [| apply finite_subscript].
  destruct Hrun as [? | [display [w9 Hrun]]]; [now left |].
  apply Hstep in Hrun; [| apply finite_logging_info].
  destruct Hrun as [? | [_ [w10 Hrun]]]; [now left |].
  apply (Hstep _ (tag eid)) in Hrun; [| apply Htag].
  destruct Hrun as [? | [_ [w11 Hrun]]]; [now left |].
  right. now exists eid, w11.
Qed.

(** ** The commit that is submitted *)

Lemma grows_add_execution_tags (h : ValohaiHook) (tags eid : value) :
  grows (add_execution_tags h tags eid).
Proof.
  unfold add_execution_tags. apply grows_bind.
  - apply grows_self_headers.
  - intros hdrs. apply grows_call.
Qed.

Lemma get_project_id_needs_headers (h : ValohaiHook) (name v : value) (w w' : world) :
  get_project_id h name w = (Ret v, w') -> exists hdrs, headers h = Some hdrs.
Proof.
  unfold get_project_id, bind, self_headers.
  destruct (headers h) as [hdrs |]; [now exists hdrs | discriminate].
Qed.

(** From the POST of the execution on: the request is the next event,
    whatever happens afterwards. *)
Lemma submit_execution_posts (fuel : nat) (h : ValohaiHook) (hdrs : http_headers)
    (payload tags : value) (period : Z) (w : world) :
  headers h = Some hdrs ->
  exists rest,
    trace (snd ((hdrs' <- self_headers h;;
                 response <- call (Post (api_url h SUBMIT_EXECUTION_ENDPOINT) hdrs'
                                     (Some payload));;
                 logging_info ("Got response: " ++ py_str response);;
                 execution_id <- subscript response "id";;
                 urls <- subscript response "urls";;
                 execution_url <- subscript urls "display";;
                 logging_info ("Started execution: " ++ py_str execution_url);;
                 (if py_truthy tags then
                    add_execution_tags h tags execution_id;;
                    logging_info ("Added execution tags: " ++ py_str tags)
                  else ret tt);;
                 poll_loop fuel h period execution_id) w)) =
    (trace w ++ [Call (Post (api_url h SUBMIT_EXECUTION_ENDPOINT) hdrs (Some payload))]
       ++ rest)%list.
Proof.
  intros Hh.
  rewrite (bind_Ret _ _ _ _ _ (self_headers_Some _ _ _ Hh)).
  unfold bind at 1. unfold call.
  destruct (respond (Post (api_url h SUBMIT_EXECUTION_ENDPOINT) hdrs (Some payload)) (srv w))
    as [[response | e] s1].
  - match goal with
    | |- context [snd (?k ?w1)] =>
        assert (Hk : exists l, trace (snd (k w1)) = (trace w1 ++ l)%list)
    end.
    { apply grows_bind; [apply grows_logging_info | intros _].
      apply grows_bind; [apply grows_subscript | intros execution_id].
      apply grows_bind; [apply grows_subscript | intros urls].
      apply grows_bind; [apply grows_subscript | intros execution_url].
      apply grows_bind; [apply grows_logging_info | intros _].
      apply grows_bind; [| intros _; apply grows_poll_loop].
      destruct (py_truthy tags); [| apply grows_ret].
      apply grows_bind; [apply grows_add_execution_tags | intros _].
      apply grows_logging_info. }
    destruct Hk as [l Hl]. exists l. rewrite Hl. cbn. now rewrite <- app_assoc.
  - exists []. cbn. reflexivity.
Qed.

(** C5.  With a branch that is given (a true value, such as a non-empty
    string), [submit_execution] first triggers the repository fetch, then
    resolves the latest commit of the branch, and the payload it POSTs right
    after, a dictionary of the six fields project, commit, step, inputs,
    parameters and environment, has that commit as its [commit] field,
    whatever the [commit] argument; with no branch (a false value) the
    [commit] field of the payload is the [commit] argument. *)
Theorem submit_execution_commit_field (fuel : nat) (h : ValohaiHook)
    (project_name step inputs parameters environment commit branch tags : value)
    (period : Z) (w : world) :
  (forall (project_id : value) (w1 : world) (response : value) (w2 : world)
          (latest : value) (w3 : world),
      py_truthy branch = true ->
      get_project_id h project_name (assign_polling_period period w)
        = (Ret project_id, w1) ->
      fetch_repository h project_id w1 = (Ret response, w2) ->
      get_latest_commit h project_id branch
        (record [LogInfo ("Fetched latest commits with response: " ++ py_str response)]
           (srv w2) w2)
        = (Ret latest, w3) ->
      exists hdrs rest,
        headers h = Some hdrs
        /\ trace w2 =
           (trace w1
              ++ [Call (Post (api_url h (FETCH_REPOSITORY_ENDPOINT project_id)) hdrs None)])%list
        /\ trace (snd (submit_execution fuel h project_name step inputs parameters
                         environment commit branch tags period w)) =
           (trace w3
              ++ [LogInfo ("Using latest " ++ py_str branch ++ " branch commit: "
                           ++ py_str latest);
                  Call (Post (api_url h SUBMIT_EXECUTION_ENDPOINT) hdrs
                          (Some (VDict [("project", project_id);
                                        ("commit", latest);
                                        ("step", step);
                                        ("inputs", inputs);
                                        ("parameters", parameters);
                                        ("environment", environment)])))]
              ++ rest)%list)
  /\ (forall (project_id : value) (w1 : world),
         py_truthy branch = false ->
         get_project_id h project_name (assign_polling_period period w)
           = (Ret project_id, w1) ->
         exists hdrs rest,
           headers h = Some hdrs
           /\ trace (snd (submit_execution fuel h project_name step inputs parameters
                            environment commit branch tags period w)) =
              (trace w1
                 ++ [Call (Post (api_url h SUBMIT_EXECUTION_ENDPOINT) hdrs
                             (Some (VDict [("project", project_id);
                                           ("commit", commit);
                                           ("step", step);
                                           ("inputs", inputs);
                                           ("parameters", parameters);
                                           ("environment", environment)])))]
                 ++ rest)%list).
Proof.
  split.
  - intros pid w1 response w2 latest w3 Hb Hpid Hfetch Hlatest.
    destruct (get_project_id_needs_headers _ _ _ _ _ Hpid) as [hdrs Hh].
    exists hdrs.
    unfold submit_execution.
    assert (Hset : set_polling_period period w = (Ret tt, assign_polling_period period w))
      by reflexivity.
    rewrite (bind_Ret _ _ _ _ _ Hset).
    rewrite (bind_Ret _ _ _ _ _ Hpid).
    rewrite Hb.
    set (w4 := record [LogInfo ("Using latest " ++ py_str branch ++ " branch commit: "
                                ++ py_str latest)] (srv w3) w3).
    match goal with
    | |- context [bind ?m _ w1] =>
        assert (Hres : m w1 = (Ret latest, w4))
    end.
    { rewrite (bind_Ret _ _ _ _ _ Hfetch).
      unfold bind at 1. unfold logging_info at 1.
      rewrite (bind_Ret _ _ _ _ _ Hlatest).
      reflexivity. }
    rewrite (bind_Ret _ _ _ _ _ Hres).
    destruct (submit_execution_posts fuel h hdrs
                (execution_payload pid latest step inputs parameters environment)
                tags period w4 Hh) as [rest Hrest].
    exists rest. split; [assumption | split].
    + unfold fetch_repository in Hfetch.
      rewrite (bind_Ret _ _ _ _ _ (self_headers_Some _ _ _ Hh)) in Hfetch.
      unfold call in Hfetch.
      destruct (respond _ (srv w1)) as [[v | e] s1]; inversion Hfetch; reflexivity.
    + rewrite Hrest. subst w4. cbn [trace record]. now rewrite <- app_assoc.
  - intros pid w1 Hb Hpid.
    destruct (get_project_id_needs_headers _ _ _ _ _ Hpid) as [hdrs Hh].
    exists hdrs.
    unfold submit_execution.
    assert (Hset : set_polling_period period w = (Ret tt, assign_polling_period period w))
      by reflexivity.
    rewrite (bind_Ret _ _ _ _ _ Hset).
    rewrite (bind_Ret _ _ _ _ _ Hpid).
    rewrite Hb.
    assert (Hres : ret commit w1 = (Ret commit, w1)) by reflexivity.
    rewrite (bind_Ret _ _ _ _ _ Hres).
    destruct (submit_execution_posts fuel h hdrs
                (execution_payload pid commit step inputs parameters environment)
                tags period w1 Hh) as [rest Hrest].
    exists rest. split; assumption.
Qed.

(** ** Lookups over listings *)

Lemma py_eq_VStr_false (v : value) (s : string) :
  v <> VStr s -> py_eq v (VStr s) = false.
Proof.
  intros H. destruct (py_eq v (VStr s)) eqn:E; [| reflexivity].
  apply py_eq_VStr in E. contradiction.
Qed.

Lemma find_project_skips (query : string) (before rest : list value) (w : world) :
  Forall (other_project query) before ->
  find_project (VStr query) (before ++ rest) w = find_project (VStr query) rest w.
Proof.
  induction 1 as [| e before [m [name [-> [Hname Hneq]]]] _ IH]; [reflexivity |].
  cbn [app find_project]. unfold bind at 1. unfold subscript at 1.
  rewrite Hname. unfold ret at 1.
  now rewrite (py_eq_VStr_false _ _ Hneq).
Qed.

(** C6.  [get_project_id] returns the id of the first entry of the listing
    whose name is exactly the name asked for, and [None] when no entry has
    that name. *)
Theorem get_project_id_first_match (h : ValohaiHook) (hdrs : http_headers)
    (query : string) (w : world) (response : list (string * value))
    (listing : list value) (s' : server) :
  headers h = Some hdrs ->
  respond (projects_request h hdrs) (srv w) = (Reply (VDict response), s') ->
  lookup "results" response = Some (VList listing) ->
  (forall (before after : list value) (m : list (string * value)) (id : value),
      listing = (before ++ VDict m :: after)%list ->
      Forall (other_project query) before ->
      lookup "name" m = Some (VStr query) ->
      lookup "id" m = Some id ->
      get_project_id h (VStr query) w
      = (Ret id, record [Call (projects_request h hdrs)] s' w))
  /\ (Forall (other_project query) listing ->
      get_project_id h (VStr query) w
      = (Ret VNone, record [Call (projects_request h hdrs)] s' w)).
Proof.
  intros Hh Hans Hres.
  assert (Hrun : get_project_id h (VStr query) w
                 = find_project (VStr query) listing
                     (record [Call (projects_request h hdrs)] s' w)).
  { unfold get_project_id.
    rewrite (bind_Ret _ _ _ _ _ (self_headers_Some _ _ _ Hh)).
    rewrite (bind_Ret _ _ _ _ _ (call_Reply _ _ _ _ Hans)).
    unfold bind at 1. unfold subscript at 1. rewrite Hres.
    reflexivity. }
  rewrite Hrun. split.
  - intros before after m id -> Hbefore Hname Hid.
    rewrite (find_project_skips _ _ _ _ Hbefore).
    cbn [find_project]. unfold bind, subscript. rewrite Hname. unfold ret at 1.
    replace (py_eq (VStr query) (VStr query)) with true
      by (symmetry; now apply py_eq_VStr).
    now rewrite Hid.
  - intros Hall.
    rewrite <- (app_nil_r listing).
    now rewrite (find_project_skips _ _ _ _ Hall).
Qed.

Lemma commit_matches_other (rid : value) (branch : string) (e : value) (w : world) :
  other_commit rid branch e ->
  commit_matches rid (VStr branch) e w = (Ret false, w).
Proof.
  intros [m [r [-> [Hr Hno]]]].
  unfold commit_matches, bind, subscript. rewrite Hr. unfold ret at 1.
  destruct (py_eq r rid) eqn:E; [| reflexivity].
  destruct Hno as [Hno | [ref [Href Hneq]]]; [discriminate |].
  rewrite Href. unfold ret. now rewrite (py_eq_VStr_false _ _ Hneq).
Qed.

Lemma find_commit_skips (rid : value) (branch : string) (before rest : list value)
    (w : world) :
  Forall (other_commit rid branch) before ->
  find_commit rid (VStr branch) (before ++ rest) w
  = find_commit rid (VStr branch) rest w.
Proof.
  induction 1 as [| e before He _ IH]; [reflexivity |].
  cbn [app find_commit].
  now rewrite (bind_Ret _ _ _ _ _ (commit_matches_other _ _ _ _ He)).
Qed.

(** C7.  [get_latest_commit] resolves the repository of the project, asks
    for the commits ordered by commit time, newest first, and returns the
    identifier of the first commit of the listing whose repository equals
    that repository id and whose ref is the branch; it returns [None] when
    no commit of the listing has both. *)
Theorem get_latest_commit_first_match (h : ValohaiHook) (hdrs : http_headers)
    (project_id repository_id : value) (branch : string) (w w1 : world)
    (response : list (string * value)) (listing : list value) (s' : server) :
  headers h = Some hdrs ->
  get_repository_id h project_id w = (Ret repository_id, w1) ->
  respond (commits_request h hdrs) (srv w1) = (Reply (VDict response), s') ->
  lookup "results" response = Some (VList listing) ->
  (forall (before after : list value) (m : list (string * value))
          (repository identifier : value),
      listing = (before ++ VDict m :: after)%list ->
      Forall (other_commit repository_id branch) before ->
      lookup "repository" m = Some repository ->
      py_eq repository repository_id = true ->
      lookup "ref" m = Some (VStr branch) ->
      lookup "identifier" m = Some identifier ->
      get_latest_commit h project_id (VStr branch) w
      = (Ret identifier, record [Call (commits_request h hdrs)] s' w1))
  /\ (Forall (other_commit repository_id branch) listing ->
      get_latest_commit h project_id (VStr branch) w
      = (Ret VNone, record [Call (commits_request h hdrs)] s' w1)).
Proof.
  intros Hh Hrepo Hans Hres.
  assert (Hrun : get_latest_commit h project_id (VStr branch) w
                 = find_commit repository_id (VStr branch) listing
                     (record [Call (commits_request h hdrs)] s' w1)).
  { unfold get_latest_commit.
    rewrite (bind_Ret _ _ _ _ _ Hrepo).
    rewrite (bind_Ret _ _ _ _ _ (self_headers_Some _ _ _ Hh)).
    rewrite (bind_Ret _ _ _ _ _ (call_Reply _ _ _ _ Hans)).
    unfold bind at 1. unfold subscript at 1. rewrite Hres.
    reflexivity. }
  rewrite Hrun. split.
  - intros before after m repository identifier -> Hbefore Hr Heq Href Hid.
    rewrite (find_commit_skips _ _ _ _ _ Hbefore).
    cbn [find_commit]. unfold commit_matches, bind, subscript.
    rewrite Hr. unfold ret at 1. rewrite Heq, Href. unfold ret at 1.
    replace (py_eq (VStr branch) (VStr branch)) with true
      by (symmetry; now apply py_eq_VStr).
    now rewrite Hid.
  - intros Hall.
    rewrite <- (app_nil_r listing).
    now rewrite (find_commit_skips _ _ _ _ _ Hall).
Qed.

(** ** Downloading outputs *)

Lemma downloads_app (t1 t2 : list event) :
  downloads (t1 ++ t2) = (downloads t1 ++ downloads t2)%list.
Proof.
  induction t1 as [| [[| | u f |] | z | msg] t1 IH]; cbn; try assumption;
    [reflexivity | now rewrite IH].
Qed.

Lemma downloads_of_outputs (path pattern : string) (keep : string -> bool)
    (specs : list (string * value)) :
  downloads (flat_map (fun spec => if keep (fst spec)
                                   then download_events path spec
                                   else ignore_events pattern spec) specs)
  = map (saved_as path) (filter (fun spec => keep (fst spec)) specs).
Proof.
  induction specs as [| spec specs IH]; [reflexivity |].
  cbn [flat_map filter]. rewrite downloads_app, IH.
  destruct (keep (fst spec)); reflexivity.
Qed.

(** The loop over the outputs, for any way [keep] of telling which names
    pass the test of line 57. *)
Lemma for_each_download_output (path : string) (pattern : value)
    (keep : string -> bool) (outs : list value) (specs : list (string * value)) :
  always_retrieves ->
  Forall2 output_entry outs specs ->
  (forall o spec w, output_entry o spec -> In spec specs ->
     output_is_ignored pattern o w = (Ret (negb (keep (fst spec))), w)) ->
  forall w, exists w',
    for_each (download_output path pattern) outs w = (Ret tt, w')
    /\ trace w' =
       (trace w ++ flat_map (fun spec => if keep (fst spec)
                                         then download_events path spec
                                         else ignore_events (py_str pattern) spec)
                     specs)%list.
Proof.
  intros Hret Hall. induction Hall as [| o spec outs specs Ho _ IH]; intros Hkeep w.
  - exists w. cbn. now rewrite app_nil_r.
  - cbn [for_each flat_map].
    pose proof (Hkeep o spec w Ho (or_introl eq_refl)) as Hign.
    destruct Ho as [m [-> [Hname Hurl]]].
    assert (Hbody : exists w1,
               download_output path pattern (VDict m) w = (Ret tt, w1)
               /\ trace w1 = (trace w ++ (if keep (fst spec)
                                          then download_events path spec
                                          else ignore_events (py_str pattern) spec))%list).
    { unfold download_output. rewrite (bind_Ret _ _ _ _ _ Hign).
      destruct (keep (fst spec)); cbn [negb].
      - unfold bind at 1. unfold subscript at 1. rewrite Hurl. unfold ret at 1.
        unfold bind at 1. unfold subscript at 1. rewrite Hname. unfold ret at 1.
        unfold bind at 1. cbn [os_path_join]. unfold ret at 1.
        destruct (Hret (snd spec) (posix_join path (fst spec)) (srv w)) as [v [s1 Hr]].
        rewrite (bind_Ret _ _ _ _ _ (call_Reply _ _ _ _ Hr)).
        unfold bind at 1. unfold subscript at 1. rewrite Hname. unfold ret at 1.
        eexists. split; [reflexivity |].
        cbn [trace record py_str]. now rewrite <- app_assoc.
      - unfold bind at 1. unfold subscript at 1. rewrite Hname. unfold ret at 1.
        eexists. split; reflexivity. }
    destruct Hbody as [w1 [Hrun1 Htr1]].
    rewrite (bind_Ret _ _ _ _ _ Hrun1).
    destruct (IH (fun o' spec' w' Ho' Hin' => Hkeep o' spec' w' Ho' (or_intror Hin')) w1)
      as [w' [Hrun Htr]].
    exists w'. split; [assumption |].
    now rewrite Htr, Htr1, <- app_assoc.
Qed.

Lemma download_execution_outputs_run (task : value) (path : string) (pattern : value)
    (keep : string -> bool) (w : world) (details : list (string * value))
    (outs : list value) (specs : list (string * value)) (s1 : server) :
  respond (XComPull task) (srv w) = (Reply (VDict details), s1) ->
  lookup "outputs" details = Some (VList outs) ->
  Forall2 output_entry outs specs ->
  always_retrieves ->
  (forall o spec w, output_entry o spec -> In spec specs ->
     output_is_ignored pattern o w = (Ret (negb (keep (fst spec))), w)) ->
  exists w',
    download_execution_outputs task path pattern w = (Ret tt, w')
    /\ trace w' =
       (trace w ++ Call (XComPull task)
          :: flat_map (fun spec => if keep (fst spec)
                                   then download_events path spec
                                   else ignore_events (py_str pattern) spec) specs)%list
    /\ downloads (trace w') =
       (downloads (trace w)
          ++ map (saved_as path) (filter (fun spec => keep (fst spec)) specs))%list.
Proof.
  intros Hans Hout Hall Hret Hkeep.
  unfold download_execution_outputs.
  rewrite (bind_Ret _ _ _ _ _ (call_Reply _ _ _ _ Hans)).
  unfold bind at 1. unfold subscript at 1. rewrite Hout. unfold ret at 1.
  unfold bind at 1. cbn [py_iter]. unfold ret at 1.
  destruct (for_each_download_output path pattern keep outs specs Hret Hall Hkeep
              (record [Call (XComPull task)] s1 w)) as [w' [Hrun Htr]].
  exists w'. split; [assumption |].
  assert (Htrace : trace w' =
            (trace w ++ Call (XComPull task)
               :: flat_map (fun spec => if keep (fst spec)
                                        then download_events path spec
                                        else ignore_events (py_str pattern) spec) specs)%list).
  { rewrite Htr. cbn [trace record]. now rewrite <- app_assoc. }
  split; [assumption |].
  rewrite Htrace, downloads_app. cbn [downloads].
  now rewrite downloads_of_outputs.
Qed.

Lemma output_is_ignored_pattern (pattern : string) (o : value)
    (spec : string * value) (w : world) :
  pattern <> "" ->
  re_match pattern (fst spec) <> None ->
  output_entry o spec ->
  output_is_ignored (VStr pattern) o w = (Ret (negb (matched pattern (fst spec))), w).
Proof.
  intros Hp Hre [m [-> [Hname _]]].
  unfold output_is_ignored. cbn [py_truthy].
  destruct (String.eqb pattern "") eqn:E; [apply String.eqb_eq in E; contradiction |].
  cbn [negb]. unfold bind at 1. unfold subscript at 1. rewrite Hname. unfold ret at 1.
  unfold bind, py_re_match, matched.
  destruct (re_match pattern (fst spec)) as [b |]; [reflexivity | contradiction].
Qed.

Lemma output_is_ignored_no_pattern (pattern o : value) (w : world) :
  py_truthy pattern = false ->
  output_is_ignored pattern o w = (Ret (negb true), w).
Proof. intros H. unfold output_is_ignored. now rewrite H. Qed.

Lemma filter_all {A} (l : list A) : filter (fun _ => true) l = l.
Proof. induction l as [| x l IH]; cbn; [reflexivity | now rewrite IH]. Qed.

(** C8.  Given the outputs of the execution details and a retrieval that
    always answers: with a non-empty pattern that the engine accepts,
    [download_execution_outputs] downloads exactly the outputs whose name
    [re.match] matches, in order, and logs each of the others as ignored;
    with no pattern it downloads every output; and with the pattern
    [^model] against the outputs model.pkl and log.txt, of which the engine
    matches the first only, model.pkl alone is downloaded. *)
Theorem download_execution_outputs_filters (task : value) (path : string)
    (w : world) (details : list (string * value)) (outs : list value)
    (specs : list (string * value)) (s1 : server) :
  respond (XComPull task) (srv w) = (Reply (VDict details), s1) ->
  lookup "outputs" details = Some (VList outs) ->
  Forall2 output_entry outs specs ->
  always_retrieves ->
  (forall pattern : string,
      pattern <> "" ->
      (forall spec, In spec specs -> re_match pattern (fst spec) <> None) ->
      exists w',
        download_execution_outputs task path (VStr pattern) w = (Ret tt, w')
        /\ trace w' =
           (trace w ++ Call (XComPull task)
              :: flat_map (fun spec => if matched pattern (fst spec)
                                       then download_events path spec
                                       else ignore_events pattern spec) specs)%list
        /\ downloads (trace w') =
           (downloads (trace w)
              ++ map (saved_as path)
                   (filter (fun spec => matched pattern (fst spec)) specs))%list)
  /\ (exists w',
        download_execution_outputs task path VNone w = (Ret tt, w')
        /\ trace w' =
           (trace w ++ Call (XComPull task) :: flat_map (download_events path) specs)%list
        /\ downloads (trace w') =
           (downloads (trace w) ++ map (saved_as path) specs)%list)
  /\ (forall url_model url_log : value,
        specs = [("model.pkl", url_model); ("log.txt", url_log)] ->
        re_match "^model" "model.pkl" = Some true ->
        re_match "^model" "log.txt" = Some false ->
        exists w',
          download_execution_outputs task path (VStr "^model") w = (Ret tt, w')
          /\ downloads (trace w') =
             (downloads (trace w) ++ [(url_model, posix_join path "model.pkl")])%list).
Proof.
  intros Hans Hout Hall Hret. split; [| split].
  - intros pattern Hp Hre.
    apply (download_execution_outputs_run task path (VStr pattern) (matched pattern)
             w details outs specs s1); try assumption.
    intros o spec w0 Ho Hin.
    apply output_is_ignored_pattern; [assumption | now apply Hre | assumption].
  - destruct (download_execution_outputs_run task path VNone (fun _ => true)
                w details outs specs s1 Hans Hout Hall Hret) as [w' [Hrun [Htr Hdl]]].
    { intros o spec w0 _ _. now apply output_is_ignored_no_pattern. }
    exists w'. split; [assumption |]. split.
    + exact Htr.
    + now rewrite filter_all in Hdl.
  - intros url_model url_log Hspecs Hyes Hno.
    destruct (download_execution_outputs_run task path (VStr "^model") (matched "^model")
                w details outs specs s1 Hans Hout Hall Hret) as [w' [Hrun [_ Hdl]]].
    { intros o spec w0 Ho Hin.
      apply output_is_ignored_pattern; [discriminate | | assumption].
      subst specs. destruct Hin as [<- | [<- | []]]; cbn [fst].
      - now rewrite Hyes.
      - now rewrite Hno. }
    exists w'. split; [assumption |].
    rewrite Hdl. subst specs. cbn [filter fst]. unfold matched.
    now rewrite Hyes, Hno.
Qed.

Lemma for_each_ext {A} (f g : A -> M unit) (l : list A) :
  (forall x w, f x w = g x w) -> forall w, for_each f l w = for_each g l w.
Proof.
  intros Hfg. induction l as [| x l IH]; intros w; [reflexivity |].
  cbn [for_each]. unfold bind. rewrite Hfg.
  destruct (g x w) as [[[] | e |] w1]; [apply IH | reflexivity | reflexivity].
Qed.

(** C10.  The empty string as pattern is the same call as no pattern: the
    two runs are equal, and on outputs that can be fetched every output is
    downloaded and none is logged as ignored. *)
Theorem download_execution_outputs_empty_pattern :
  (forall (task : value) (path : string) (w : world),
      download_execution_outputs task path (VStr "") w
      = download_execution_outputs task path VNone w)
  /\ (forall (task : value) (path : string) (w : world)
             (details : list (string * value)) (outs : list value)
             (specs : list (string * value)) (s1 : server),
         respond (XComPull task) (srv w) = (Reply (VDict details), s1) ->
         lookup "outputs" details = Some (VList outs) ->
         Forall2 output_entry outs specs ->
         always_retrieves ->
         exists w',
           download_execution_outputs task path (VStr "") w = (Ret tt, w')
           /\ trace w' =
              (trace w ++ Call (XComPull task)
                 :: flat_map (download_events path) specs)%list
           /\ downloads (trace w') =
              (downloads (trace w) ++ map (saved_as path) specs)%list).
Proof.
  split.
  - intros task path w. unfold download_execution_outputs.
    (* both patterns are false values: the two loop bodies are the same *)
    assert (Hbody : forall o w0,
               download_output path (VStr "") o w0 = download_output path VNone o w0)
      by reflexivity.
    unfold bind.
    destruct (call (XComPull task) w) as [[details | e |] w1]; [| reflexivity ..].
    destruct (subscript details "outputs" w1) as [[outputs | e |] w2]; [| reflexivity ..].
    destruct (py_iter outputs w2) as [[items | e |] w3]; [| reflexivity ..].
    now apply for_each_ext.
  - intros task path w details outs specs s1 Hans Hout Hall Hret.
    destruct (download_execution_outputs_run task path (VStr "") (fun _ => true)
                w details outs specs s1 Hans Hout Hall Hret) as [w' [Hrun [Htr Hdl]]].
    { intros o spec w0 _ _. now apply output_is_ignored_no_pattern. }
    exists w'. split; [assumption |]. split.
    + exact Htr.
    + now rewrite filter_all in Hdl.
Qed.

(** ** A hook without a token *)

(** C9.  When the extra data of the connection has no [token] key, the
    constructor leaves [headers] unassigned, and every API method of the
    hook then fails with an [AttributeError] on [headers] before any request
    is sent: the server is not contacted and the trace is as it was. *)
Theorem no_token_no_request (conn : connection) (w : world) :
  lookup "token" (extra_dejson conn) = None ->
  exists h,
    init conn w = (Ret h, w)
    /\ headers h = None
    /\ (forall name w0,
          get_project_id h name w0 = (Raise (AttributeError "headers"), w0))
    /\ (forall project_id w0,
          get_repository_id h project_id w0 = (Raise (AttributeError "headers"), w0))
    /\ (forall project_id w0,
          fetch_repository h project_id w0 = (Raise (AttributeError "headers"), w0))
    /\ (forall project_id branch w0,
          get_latest_commit h project_id branch w0
          = (Raise (AttributeError "headers"), w0))
    /\ (forall execution_id w0,
          get_execution_details h execution_id w0
          = (Raise (AttributeError "headers"), w0))
    /\ (forall tags execution_id w0,
          add_execution_tags h tags execution_id w0
          = (Raise (AttributeError "headers"), w0))
    /\ (forall fuel project_name step inputs parameters environment commit branch
               tags period w0,
          submit_execution fuel h project_name step inputs parameters environment
            commit branch tags period w0
          = (Raise (AttributeError "headers"), assign_polling_period period w0)
          /\ trace (assign_polling_period period w0) = trace w0
          /\ srv (assign_polling_period period w0) = srv w0).
Proof.
  intros Hno.
  exists {| host := conn_host conn; headers := None |}.
  split; [unfold init; now rewrite Hno |].
  split; [reflexivity |].
  repeat split; reflexivity.
Qed.

(** * Further properties *)

(** ** Listings: repositories, missing keys *)

Lemma get_project_id_run (h : ValohaiHook) (hdrs : http_headers) (name : value)
    (w : world) (response : list (string * value)) (listing : list value)
    (s' : server) :
  headers h = Some hdrs ->
  respond (projects_request h hdrs) (srv w) = (Reply (VDict response), s') ->
  lookup "results" response = Some (VList listing) ->
  get_project_id h name w
  = find_project name listing (record [Call (projects_request h hdrs)] s' w).
Proof.
  intros Hh Hans Hres. unfold get_project_id.
  rewrite (bind_Ret _ _ _ _ _ (self_headers_Some _ _ _ Hh)).
  rewrite (bind_Ret _ _ _ _ _ (call_Reply _ _ _ _ Hans)).
  unfold bind at 1. unfold subscript at 1. rewrite Hres.
  reflexivity.
Qed.

Lemma get_repository_id_run (h : ValohaiHook) (hdrs : http_headers)
    (project_id : value) (w : world) (response : list (string * value))
    (listing : list value) (s' : server) :
  headers h = Some hdrs ->
  respond (repositories_request h hdrs) (srv w) = (Reply (VDict response), s') ->
  lookup "results" response = Some (VList listing) ->
  get_repository_id h project_id w
  = find_repository project_id listing
      (record [Call (repositories_request h hdrs)] s' w).
Proof.
  intros Hh Hans Hres. unfold get_repository_id.
  rewrite (bind_Ret _ _ _ _ _ (self_headers_Some _ _ _ Hh)).
  rewrite (bind_Ret _ _ _ _ _ (call_Reply _ _ _ _ Hans)).
  unfold bind at 1. unfold subscript at 1. rewrite Hres.
  reflexivity.
Qed.

Lemma find_repository_skips (project_id : value) (before rest : list value)
    (w : world) :
  Forall (other_repository project_id) before ->
  find_repository project_id (before ++ rest) w = find_repository project_id rest w.
Proof.
  induction 1 as [| e before [m [project [id [-> [Hp [Hid Hneq]]]]]] _ IH];
    [reflexivity |].
  cbn [app find_repository]. unfold bind at 1. unfold subscript at 1.
  rewrite Hp. unfold ret at 1.
  unfold bind at 1. unfold subscript at 1. rewrite Hid. unfold ret at 1.
  now rewrite Hneq.
Qed.

(** X1.  [get_repository_id] returns the id of the first repository of the
    listing whose embedded project id equals the project id given, and
    [None] when the listing has no repository of that project. *)
Theorem get_repository_id_first_match (h : ValohaiHook) (hdrs : http_headers)
    (project_id : value) (w : world) (response : list (string * value))
    (listing : list value) (s' : server) :
  headers h = Some hdrs ->
  respond (repositories_request h hdrs) (srv w) = (Reply (VDict response), s') ->
  lookup "results" response = Some (VList listing) ->
  (forall (before after : list value) (m project : list (string * value))
          (id repository_id : value),
      listing = (before ++ VDict m :: after)%list ->
      Forall (other_repository project_id) before ->
      lookup "project" m = Some (VDict project) ->
      lookup "id" project = Some id ->
      py_eq id project_id = true ->
      lookup "id" m = Some repository_id ->
      get_repository_id h project_id w
      = (Ret repository_id, record [Call (repositories_request h hdrs)] s' w))
  /\ (Forall (other_repository project_id) listing ->
      get_repository_id h project_id w
      = (Ret VNone, record [Call (repositories_request h hdrs)] s' w)).
Proof.
  intros Hh Hans Hres.
  rewrite (get_repository_id_run h hdrs project_id w response listing s' Hh Hans Hres).
  split.
  - intros before after m project id rid -> Hbefore Hp Hid Heq Hrid.
    rewrite (find_repository_skips _ _ _ _ Hbefore).
    cbn [find_repository]. unfold bind, subscript.
    rewrite Hp. unfold ret at 1. rewrite Hid. unfold ret at 1.
    now rewrite Heq, Hrid.
  - intros Hall. rewrite <- (app_nil_r listing).
    now rewrite (find_repository_skips _ _ _ _ Hall).
Qed.

(** X2.  An entry without a [name] that comes before any project of the
    name asked for makes [get_project_id] fail with [KeyError('name')],
    whatever follows it in the listing; a matching entry without an [id]
    fails with [KeyError('id')]. *)
Theorem get_project_id_missing_key (h : ValohaiHook) (hdrs : http_headers)
    (query : string) (w : world) (response : list (string * value))
    (before after : list value) (m : list (string * value)) (s' : server) :
  headers h = Some hdrs ->
  respond (projects_request h hdrs) (srv w) = (Reply (VDict response), s') ->
  lookup "results" response = Some (VList (before ++ VDict m :: after)) ->
  Forall (other_project query) before ->
  (lookup "name" m = None ->
   get_project_id h (VStr query) w
   = (Raise (KeyError "name"), record [Call (projects_request h hdrs)] s' w))
  /\ (lookup "name" m = Some (VStr query) ->
      lookup "id" m = None ->
      get_project_id h (VStr query) w
      = (Raise (KeyError "id"), record [Call (projects_request h hdrs)] s' w)).
Proof.
  intros Hh Hans Hres Hbefore.
  rewrite (get_project_id_run h hdrs (VStr query) w response _ s' Hh Hans Hres).
  rewrite (find_project_skips _ _ _ _ Hbefore).
  cbn [find_project]. unfold bind, subscript. split.
  - intros Hname. now rewrite Hname.
  - intros Hname Hid. rewrite Hname. unfold ret at 1.
    replace (py_eq (VStr query) (VStr query)) with true
      by (symmetry; now apply py_eq_VStr).
    now rewrite Hid.
Qed.

(** X3.  When the body of the answer has no [results] key (an error body of
    the API, for one), the three lookups fail with [KeyError('results')]
    right after their request. *)
Theorem listing_without_results (h : ValohaiHook) (hdrs : http_headers)
    (response : list (string * value)) :
  headers h = Some hdrs ->
  lookup "results" response = None ->
  (forall (name : value) (w : world) (s' : server),
      respond (projects_request h hdrs) (srv w) = (Reply (VDict response), s') ->
      get_project_id h name w
      = (Raise (KeyError "results"), record [Call (projects_request h hdrs)] s' w))
  /\ (forall (project_id : value) (w : world) (s' : server),
         respond (repositories_request h hdrs) (srv w) = (Reply (VDict response), s') ->
         get_repository_id h project_id w
         = (Raise (KeyError "results"),
            record [Call (repositories_request h hdrs)] s' w))
  /\ (forall (project_id branch repository_id : value) (w w1 : world) (s' : server),
         get_repository_id h project_id w = (Ret repository_id, w1) ->
         respond (commits_request h hdrs) (srv w1) = (Reply (VDict response), s') ->
         get_latest_commit h project_id branch w
         = (Raise (KeyError "results"), record [Call (commits_request h hdrs)] s' w1)).
Proof.
  intros Hh Hres. split; [| split].
  - intros name w s' Hans. unfold get_project_id.
    rewrite (bind_Ret _ _ _ _ _ (self_headers_Some _ _ _ Hh)).
    rewrite (bind_Ret _ _ _ _ _ (call_Reply _ _ _ _ Hans)).
    unfold bind at 1. unfold subscript at 1. now rewrite Hres.
  - intros pid w s' Hans. unfold get_repository_id.
    rewrite (bind_Ret _ _ _ _ _ (self_headers_Some _ _ _ Hh)).
    rewrite (bind_Ret _ _ _ _ _ (call_Reply _ _ _ _ Hans)).
    unfold bind at 1. unfold subscript at 1. now rewrite Hres.
  - intros pid branch rid w w1 s' Hrepo Hans. unfold get_latest_commit.
    rewrite (bind_Ret _ _ _ _ _ Hrepo).
    rewrite (bind_Ret _ _ _ _ _ (self_headers_Some _ _ _ Hh)).
    rewrite (bind_Ret _ _ _ _ _ (call_Reply _ _ _ _ Hans)).
    unfold bind at 1. unfold subscript at 1. now rewrite Hres.
Qed.

(** ** Submission without a branch, step by step *)

Section Submission.
Variables (fuel : nat) (h : ValohaiHook) (hdrs : http_headers).
Variables (project_name step inputs parameters environment commit branch tags : value).
Variables (period : Z) (w w1 : world) (project_id : value).
Hypothesis has_headers : headers h = Some hdrs.
Hypothesis no_branch : py_truthy branch = false.
Hypothesis project_resolved :
  get_project_id h project_name (assign_polling_period period w) = (Ret project_id, w1).

Lemma submit_execution_after_post (response : value) (s2 : server) :
  respond (submit_request h hdrs
             (execution_payload project_id commit step inputs parameters environment))
    (srv w1) = (Reply response, s2) ->
  submit_execution fuel h project_name step inputs parameters environment commit
    branch tags period w
  = (logging_info ("Got response: " ++ py_str response);;
     execution_id <- subscript response "id";;
     urls <- subscript response "urls";;
     execution_url <- subscript urls "display";;
     logging_info ("Started execution: " ++ py_str execution_url);;
     (if py_truthy tags then
        add_execution_tags h tags execution_id;;
        logging_info ("Added execution tags: " ++ py_str tags)
      else ret tt);;
     poll_loop fuel h period execution_id)
      (record [Call (submit_request h hdrs
                       (execution_payload project_id commit step inputs parameters
                          environment))] s2 w1).
Proof.
  intros Hans. unfold submit_execution.
  assert (Hset : set_polling_period period w = (Ret tt, assign_polling_period period w))
    by reflexivity.
  rewrite (bind_Ret _ _ _ _ _ Hset).
  rewrite (bind_Ret _ _ _ _ _ project_resolved).
  rewrite no_branch.
  assert (Hres : ret commit w1 = (Ret commit, w1)) by reflexivity.
  rewrite (bind_Ret _ _ _ _ _ Hres).
  rewrite (bind_Ret _ _ _ _ _ (self_headers_Some _ _ _ has_headers)).
  unfold submit_request in Hans.
  now rewrite (bind_Ret _ _ _ _ _ (call_Reply _ _ _ _ Hans)).
Qed.

Lemma submit_execution_started (response urls : list (string * value))
    (execution_id display : value) (s2 : server) :
  respond (submit_request h hdrs
             (execution_payload project_id commit step inputs parameters environment))
    (srv w1) = (Reply (VDict response), s2) ->
  lookup "id" response = Some execution_id ->
  lookup "urls" response = Some (VDict urls) ->
  lookup "display" urls = Some display ->
  submit_execution fuel h project_name step inputs parameters environment commit
    branch tags period w
  = ((if py_truthy tags then
        add_execution_tags h tags execution_id;;
        logging_info ("Added execution tags: " ++ py_str tags)
      else ret tt);;
     poll_loop fuel h period execution_id)
      (record [Call (submit_request h hdrs
                       (execution_payload project_id commit step inputs parameters
                          environment));
               LogInfo ("Got response: " ++ py_str (VDict response));
               LogInfo ("Started execution: " ++ py_str display)] s2 w1).
Proof.
  intros Hans Hid Hurls Hdisplay.
  rewrite (submit_execution_after_post _ _ Hans).
  unfold bind at 1. unfold logging_info at 1.
  unfold bind at 1. unfold subscript at 1. rewrite Hid. unfold ret at 1.
  unfold bind at 1. unfold subscript at 1. rewrite Hurls. unfold ret at 1.
  unfold bind at 1. unfold subscript at 1. rewrite Hdisplay. unfold ret at 1.
  unfold bind at 1. unfold logging_info at 1.
  now rewrite !record_record.
Qed.

(** X4.  Without tags, once the execution is created [submit_execution] goes
    on as the poll loop on the [id] of the answer to the POST, in the world
    where the answer and the display URL have been logged: the execution
    that is polled is the one that was created. *)
Theorem submit_execution_polls_created_execution
    (response urls : list (string * value)) (execution_id display : value)
    (s2 : server) :
  py_truthy tags = false ->
  respond (submit_request h hdrs
             (execution_payload project_id commit step inputs parameters environment))
    (srv w1) = (Reply (VDict response), s2) ->
  lookup "id" response = Some execution_id ->
  lookup "urls" response = Some (VDict urls) ->
  lookup "display" urls = Some display ->
  submit_execution fuel h project_name step inputs parameters environment commit
    branch tags period w
  = poll_loop fuel h period execution_id
      (record [Call (submit_request h hdrs
                       (execution_payload project_id commit step inputs parameters
                          environment));
               LogInfo ("Got response: " ++ py_str (VDict response));
               LogInfo ("Started execution: " ++ py_str display)] s2 w1).
Proof.
  intros Htags Hans Hid Hurls Hdisplay.
  rewrite (submit_execution_started _ _ _ _ _ Hans Hid Hurls Hdisplay).
  now rewrite Htags.
Qed.

End Submission.

(** ** Submission with or without a branch, from the POST on *)

Section SubmissionSteps.
Variables (h : ValohaiHook) (hdrs : http_headers).
Variables (project_name step inputs parameters environment commit branch tags : value).
Variables (period : Z) (w w1 w2 : world) (project_id submitted : value).
Hypothesis has_headers : headers h = Some hdrs.
Hypothesis project_found :
  get_project_id h project_name (assign_polling_period period w) = (Ret project_id, w1).
(** Lines 189-193, as they stand in [submit_execution]: they end with the
    commit [submitted], resolved from the branch or taken from the
    arguments. *)
Hypothesis commit_chosen :
  (if py_truthy branch then
     response <- fetch_repository h project_id;;
     logging_info ("Fetched latest commits with response: " ++ py_str response);;
     latest <- get_latest_commit h project_id branch;;
     logging_info ("Using latest " ++ py_str branch ++ " branch commit: "
                   ++ py_str latest);;
     ret latest
   else ret commit) w1 = (Ret submitted, w2).

Lemma submit_execution_from_post (fuel : nat) (response : value) (s3 : server) :
  respond (execution_request h hdrs project_id submitted step inputs parameters
             environment) (srv w2) = (Reply response, s3) ->
  submit_execution fuel h project_name step inputs parameters environment commit
    branch tags period w
  = (logging_info ("Got response: " ++ py_str response);;
     execution_id <- subscript response "id";;
     urls <- subscript response "urls";;
     execution_url <- subscript urls "display";;
     logging_info ("Started execution: " ++ py_str execution_url);;
     (if py_truthy tags then
        add_execution_tags h tags execution_id;;
        logging_info ("Added execution tags: " ++ py_str tags)
      else ret tt);;
     poll_loop fuel h period execution_id)
      (record [Call (execution_request h hdrs project_id submitted step inputs
                       parameters environment)] s3 w2).
Proof.
  intros Hans. unfold submit_execution.
  assert (Hset : set_polling_period period w = (Ret tt, assign_polling_period period w))
    by reflexivity.
  rewrite (bind_Ret _ _ _ _ _ Hset).
  rewrite (bind_Ret _ _ _ _ _ project_found).
  rewrite (bind_Ret _ _ _ _ _ commit_chosen).
  rewrite (bind_Ret _ _ _ _ _ (self_headers_Some _ _ _ has_headers)).
  unfold execution_request in Hans.
  exact (bind_Ret _ _ _ _ _ (call_Reply _ _ _ _ Hans)).
Qed.

Lemma submit_execution_from_start (fuel : nat)
    (response urls : list (string * value)) (execution_id display : value)
    (s3 : server) :
  respond (execution_request h hdrs project_id submitted step inputs parameters
             environment) (srv w2) = (Reply (VDict response), s3) ->
  lookup "id" response = Some execution_id ->
  lookup "urls" response = Some (VDict urls) ->
  lookup "display" urls = Some display ->
  submit_execution fuel h project_name step inputs parameters environment commit
    branch tags period w
  = ((if py_truthy tags then
        add_execution_tags h tags execution_id;;
        logging_info ("Added execution tags: " ++ py_str tags)
      else ret tt);;
     poll_loop fuel h period execution_id)
      (record [Call (execution_request h hdrs project_id submitted step inputs
                       parameters environment);
               LogInfo ("Got response: " ++ py_str (VDict response));
               LogInfo ("Started execution: " ++ py_str display)] s3 w2).
Proof.
  intros Hans Hid Hurls Hdisplay.
  rewrite (submit_execution_from_post fuel _ _ Hans).
  unfold bind at 1. unfold logging_info at 1.
  unfold bind at 1. unfold subscript at 1. rewrite Hid. unfold ret at 1.
  unfold bind at 1. unfold subscript at 1. rewrite Hurls. unfold ret at 1.
  unfold bind at 1. unfold subscript at 1. rewrite Hdisplay. unfold ret at 1.
  unfold bind at 1. unfold logging_info at 1.
  now rewrite !record_record.
Qed.

(** X5.  With tags, and with or without a branch, the tags are POSTed to
    the tags endpoint of the created execution, in a body [{'tags': tags}],
    before the first poll; the answer to that request is not looked at.  When
    the request raises, the exception leaves [submit_execution] and the
    execution is never polled. *)
Theorem submit_execution_tags_before_polling (fuel : nat)
    (response urls : list (string * value)) (execution_id display : value)
    (s3 : server) :
  py_truthy tags = true ->
  respond (execution_request h hdrs project_id submitted step inputs parameters
             environment) (srv w2) = (Reply (VDict response), s3) ->
  lookup "id" response = Some execution_id ->
  lookup "urls" response = Some (VDict urls) ->
  lookup "display" urls = Some display ->
  (forall (answer : value) (s4 : server),
      respond (tags_request h hdrs tags execution_id) s3 = (Reply answer, s4) ->
      submit_execution fuel h project_name step inputs parameters environment commit
        branch tags period w
      = poll_loop fuel h period execution_id
          (record [Call (execution_request h hdrs project_id submitted step inputs
                           parameters environment);
                   LogInfo ("Got response: " ++ py_str (VDict response));
                   LogInfo ("Started execution: " ++ py_str display);
                   Call (tags_request h hdrs tags execution_id);
                   LogInfo ("Added execution tags: " ++ py_str tags)] s4 w2))
  /\ (forall (e : exn) (s4 : server),
         respond (tags_request h hdrs tags execution_id) s3 = (Throws e, s4) ->
         submit_execution fuel h project_name step inputs parameters environment
           commit branch tags period w
         = (Raise e,
            record [Call (execution_request h hdrs project_id submitted step inputs
                            parameters environment);
                    LogInfo ("Got response: " ++ py_str (VDict response));
                    LogInfo ("Started execution: " ++ py_str display);
                    Call (tags_request h hdrs tags execution_id)] s4 w2)).
Proof.
  intros Htags Hans Hid Hurls Hdisplay.
  rewrite (submit_execution_from_start fuel _ _ _ _ _ Hans Hid Hurls Hdisplay).
  rewrite Htags. split.
  - intros answer s4 Htag.
    unfold bind at 1. unfold bind at 1. unfold add_execution_tags.
    rewrite (bind_Ret _ _ _ _ _ (self_headers_Some _ _ _ has_headers)).
    unfold tags_request in Htag. unfold call. cbn [srv record]. rewrite Htag.
    unfold logging_info. now rewrite !record_record.
  - intros e s4 Htag.
    unfold bind at 1. unfold bind at 1. unfold add_execution_tags.
    rewrite (bind_Ret _ _ _ _ _ (self_headers_Some _ _ _ has_headers)).
    unfold tags_request in Htag. unfold call. cbn [srv record]. rewrite Htag.
    now rewrite !record_record.
Qed.

(** X6.  With or without a branch, when the answer to the POST has no [id],
    [submit_execution] fails with [KeyError('id')] after the request has been
    sent and the answer logged; when it has an [id] but no [urls], with
    [KeyError('urls')].  In both cases nothing is tagged and nothing is
    polled. *)
Theorem submit_execution_incomplete_answer (fuel : nat)
    (response : list (string * value)) (s3 : server) :
  respond (execution_request h hdrs project_id submitted step inputs parameters
             environment) (srv w2) = (Reply (VDict response), s3) ->
  (lookup "id" response = None ->
   submit_execution fuel h project_name step inputs parameters environment commit
     branch tags period w
   = (Raise (KeyError "id"),
      record [Call (execution_request h hdrs project_id submitted step inputs
                      parameters environment);
              LogInfo ("Got response: " ++ py_str (VDict response))] s3 w2))
  /\ (forall execution_id,
         lookup "id" response = Some execution_id ->
         lookup "urls" response = None ->
         submit_execution fuel h project_name step inputs parameters environment
           commit branch tags period w
         = (Raise (KeyError "urls"),
            record [Call (execution_request h hdrs project_id submitted step inputs
                            parameters environment);
                    LogInfo ("Got response: " ++ py_str (VDict response))] s3 w2)).
Proof.
  intros Hans. rewrite (submit_execution_from_post fuel _ _ Hans). split.
  - intros Hid.
    unfold bind at 1. unfold logging_info at 1.
    unfold bind at 1. unfold subscript at 1. rewrite Hid.
    unfold raise. now rewrite record_record.
  - intros eid Hid Hurls.
    unfold bind at 1. unfold logging_info at 1.
    unfold bind at 1. unfold subscript at 1. rewrite Hid. unfold ret at 1.
    unfold bind at 1. unfold subscript at 1. rewrite Hurls.
    unfold raise. now rewrite record_record.
Qed.

(** X7.  A negative polling period (one that the clock can hold, above
    -9223372037 seconds) is only found out by the first sleep of the loop,
    with or without a branch and tags: the execution has been created, and
    tagged if tags were given, and [submit_execution] fails with [ValueError]
    without ever asking for its status. *)
Theorem submit_execution_negative_period (fuel : nat)
    (response urls : list (string * value)) (execution_id display : value)
    (s3 : server) (w4 : world) :
  -9223372037 < period < 0 ->
  respond (execution_request h hdrs project_id submitted step inputs parameters
             environment) (srv w2) = (Reply (VDict response), s3) ->
  lookup "id" response = Some execution_id ->
  lookup "urls" response = Some (VDict urls) ->
  lookup "display" urls = Some display ->
  (if py_truthy tags then
     add_execution_tags h tags execution_id;;
     logging_info ("Added execution tags: " ++ py_str tags)
   else ret tt)
    (record [Call (execution_request h hdrs project_id submitted step inputs
                     parameters environment);
             LogInfo ("Got response: " ++ py_str (VDict response));
             LogInfo ("Started execution: " ++ py_str display)] s3 w2)
  = (Ret tt, w4) ->
  submit_execution (S fuel) h project_name step inputs parameters environment commit
    branch tags period w
  = (Raise ValueError, w4)
  /\ exists added,
       trace w4 =
       (trace w2
          ++ Call (execution_request h hdrs project_id submitted step inputs
                     parameters environment)
          :: LogInfo ("Got response: " ++ py_str (VDict response))
          :: LogInfo ("Started execution: " ++ py_str display)
          :: added)%list
       /\ Forall (tagging_event h hdrs tags execution_id) added.
Proof.
  intros Hneg Hans Hid Hurls Hdisplay Htagged. split.
  - rewrite (submit_execution_from_start (S fuel) _ _ _ _ _ Hans Hid Hurls Hdisplay).
    rewrite (bind_Ret _ _ _ _ _ Htagged).
    cbn [poll_loop]. unfold bind at 1. unfold time_sleep.
    destruct (period <? 0) eqn:E; [reflexivity | lia].
  - destruct (py_truthy tags).
    + unfold bind at 1 in Htagged. unfold add_execution_tags in Htagged.
      rewrite (bind_Ret _ _ _ _ _ (self_headers_Some _ _ _ has_headers)) in Htagged.
      unfold call in Htagged. cbn [srv record] in Htagged.
      fold (tags_request h hdrs tags execution_id) in Htagged.
      destruct (respond (tags_request h hdrs tags execution_id) s3)
        as [[answer | e] s4]; [| discriminate].
      unfold logging_info in Htagged. injection Htagged as <-.
      exists [Call (tags_request h hdrs tags execution_id);
              LogInfo ("Added execution tags: " ++ py_str tags)].
      split.
      * cbn [trace record]. now rewrite <- !app_assoc.
      * constructor; [now left |]. constructor; [right; now eexists | constructor].
    + injection Htagged as <-. exists []. split; [reflexivity | constructor].
Qed.

End SubmissionSteps.

(** ** Lookups that find nothing, and what is submitted then *)

Lemma get_latest_commit_run (h : ValohaiHook) (hdrs : http_headers)
    (project_id branch repository_id : value) (w w1 : world)
    (response : list (string * value)) (listing : list value) (s' : server) :
  headers h = Some hdrs ->
  get_repository_id h project_id w = (Ret repository_id, w1) ->
  respond (commits_request h hdrs) (srv w1) = (Reply (VDict response), s') ->
  lookup "results" response = Some (VList listing) ->
  get_latest_commit h project_id branch w
  = find_commit repository_id branch listing
      (record [Call (commits_request h hdrs)] s' w1).
Proof.
  intros Hh Hrepo Hans Hres. unfold get_latest_commit.
  rewrite (bind_Ret _ _ _ _ _ Hrepo).
  rewrite (bind_Ret _ _ _ _ _ (self_headers_Some _ _ _ Hh)).
  rewrite (bind_Ret _ _ _ _ _ (call_Reply _ _ _ _ Hans)).
  unfold bind at 1. unfold subscript at 1. rewrite Hres.
  reflexivity.
Qed.

(** X8.  A project name that the listing does not have is not an error for
    [submit_execution]: [get_project_id] gives [None], and (with no branch)
    the very next request is the POST of the execution, whose payload has
    [None] as its [project] field, next to the commit, step, inputs,
    parameters and environment given. *)
Theorem submit_execution_unknown_project_posts_none (fuel : nat) (h : ValohaiHook)
    (hdrs : http_headers) (query : string)
    (step inputs parameters environment commit branch tags : value) (period : Z)
    (w : world) (response : list (string * value)) (listing : list value)
    (s1 : server) :
  headers h = Some hdrs ->
  py_truthy branch = false ->
  respond (projects_request h hdrs) (srv w) = (Reply (VDict response), s1) ->
  lookup "results" response = Some (VList listing) ->
  Forall (other_project query) listing ->
  exists rest,
    trace (snd (submit_execution fuel h (VStr query) step inputs parameters
                  environment commit branch tags period w)) =
    (trace w
       ++ [Call (projects_request h hdrs);
           Call (Post (api_url h SUBMIT_EXECUTION_ENDPOINT) hdrs
                   (Some (VDict [("project", VNone);
                                 ("commit", commit);
                                 ("step", step);
                                 ("inputs", inputs);
                                 ("parameters", parameters);
                                 ("environment", environment)])))]
       ++ rest)%list.
Proof.
  intros Hh Hb Hans Hres Hall.
  assert (Hpid : get_project_id h (VStr query) (assign_polling_period period w)
                 = (Ret VNone,
                    record [Call (projects_request h hdrs)] s1
                      (assign_polling_period period w))).
  { rewrite (get_project_id_run h hdrs (VStr query) (assign_polling_period period w)
               response listing s1 Hh Hans Hres).
    rewrite <- (app_nil_r listing).
    now rewrite (find_project_skips _ _ _ _ Hall). }
  unfold submit_execution.
  assert (Hset : set_polling_period period w = (Ret tt, assign_polling_period period w))
    by reflexivity.
  rewrite (bind_Ret _ _ _ _ _ Hset).
  rewrite (bind_Ret _ _ _ _ _ Hpid).
  rewrite Hb.
  match goal with
  | |- context [bind (ret commit) _ ?w0] =>
      assert (Hres' : ret commit w0 = (Ret commit, w0)) by reflexivity;
      rewrite (bind_Ret _ _ _ _ _ Hres')
  end.
  destruct (submit_execution_posts fuel h hdrs
              (execution_payload VNone commit step inputs parameters environment)
              tags period
              (record [Call (projects_request h hdrs)] s1
                 (assign_polling_period period w)) Hh) as [rest Hrest].
  exists rest. rewrite Hrest. cbn [trace record assign_polling_period].
  unfold submit_request. now rewrite <- app_assoc.
Qed.

(** X9.  With a branch that has no commit in the listing, the [commit]
    field of the payload that is POSTed is [None]: the [commit] argument is
    dropped all the same. *)
Theorem submit_execution_branch_without_commit (fuel : nat) (h : ValohaiHook)
    (hdrs : http_headers) (project_name step inputs parameters environment commit
                           tags : value)
    (branch : string) (period : Z) (w w1 w3 : world) (project_id answer
                                                       repository_id : value)
    (s2 s4 : server) (response : list (string * value)) (listing : list value) :
  headers h = Some hdrs ->
  branch <> "" ->
  get_project_id h project_name (assign_polling_period period w)
    = (Ret project_id, w1) ->
  respond (fetch_request h hdrs project_id) (srv w1) = (Reply answer, s2) ->
  get_repository_id h project_id
    (record [Call (fetch_request h hdrs project_id);
             LogInfo ("Fetched latest commits with response: " ++ py_str answer)]
       s2 w1)
    = (Ret repository_id, w3) ->
  respond (commits_request h hdrs) (srv w3) = (Reply (VDict response), s4) ->
  lookup "results" response = Some (VList listing) ->
  Forall (other_commit repository_id branch) listing ->
  exists rest,
    trace (snd (submit_execution fuel h project_name step inputs parameters
                  environment commit (VStr branch) tags period w)) =
    (trace w3
       ++ [Call (commits_request h hdrs);
           LogInfo ("Using latest " ++ branch ++ " branch commit: None");
           Call (Post (api_url h SUBMIT_EXECUTION_ENDPOINT) hdrs
                   (Some (VDict [("project", project_id);
                                 ("commit", VNone);
                                 ("step", step);
                                 ("inputs", inputs);
                                 ("parameters", parameters);
                                 ("environment", environment)])))]
       ++ rest)%list.
Proof.
  intros Hh Hb Hpid Hfetch Hrepo Hans Hres Hall.
  assert (Hlatest : get_latest_commit h project_id (VStr branch)
                      (record [Call (fetch_request h hdrs project_id);
                               LogInfo ("Fetched latest commits with response: "
                                        ++ py_str answer)] s2 w1)
                    = (Ret VNone, record [Call (commits_request h hdrs)] s4 w3)).
  { rewrite (get_latest_commit_run h hdrs project_id (VStr branch) repository_id
               _ w3 response listing s4 Hh Hrepo Hans Hres).
    rewrite <- (app_nil_r listing).
    now rewrite (find_commit_skips _ _ _ _ _ Hall). }
  unfold submit_execution.
  assert (Hset : set_polling_period period w = (Ret tt, assign_polling_period period w))
    by reflexivity.
  rewrite (bind_Ret _ _ _ _ _ Hset).
  rewrite (bind_Ret _ _ _ _ _ Hpid).
  assert (Htruthy : py_truthy (VStr branch) = true).
  { cbn. destruct (String.eqb branch "") eqn:E; [| reflexivity].
    apply String.eqb_eq in E. contradiction. }
  rewrite Htruthy.
  set (w5 := record [Call (commits_request h hdrs);
                     LogInfo ("Using latest " ++ branch ++ " branch commit: None")]
               s4 w3).
  match goal with
  | |- context [bind ?m _ w1] => assert (Hstage : m w1 = (Ret VNone, w5))
  end.
  { unfold fetch_repository.
    unfold bind at 1. unfold bind at 1.
    rewrite (self_headers_Some _ _ _ Hh).
    unfold fetch_request in Hfetch. unfold call. rewrite Hfetch.
    unfold bind at 1. unfold logging_info at 1. rewrite record_record.
    cbn [app]. unfold fetch_request in Hlatest.
    rewrite (bind_Ret _ _ _ _ _ Hlatest).
    unfold bind, logging_info, ret. subst w5. now rewrite record_record. }
  rewrite (bind_Ret _ _ _ _ _ Hstage).
  destruct (submit_execution_posts fuel h hdrs
              (execution_payload project_id VNone step inputs parameters environment)
              tags period w5 Hh) as [rest Hrest].
  exists rest. rewrite Hrest. subst w5. cbn [trace record].
  unfold submit_request. now rewrite <- app_assoc.
Qed.

(** ** The poll loop over several rounds *)

Lemma poll_loop_skips_incomplete (h : ValohaiHook) (hdrs : http_headers)
    (period : Z) (eid : value) :
  0 <= period ->
  headers h = Some hdrs ->
  forall (n : nat) (w : world),
    (forall k, (k < n)%nat -> incomplete_at k h hdrs period eid (srv w)) ->
    exists wn,
      srv wn = after_polls n h hdrs period eid (srv w)
      /\ requests (trace wn) =
         (requests (trace w) ++ repeat (details_request h hdrs eid) n)%list
      /\ forall fuel,
           poll_loop (n + fuel) h period eid w = poll_loop fuel h period eid wn.
Proof.
  intros Hp Hh. induction n as [| n IH]; intros w Hall.
  - exists w. cbn. rewrite app_nil_r. auto.
  - destruct (Hall O ltac:(lia)) as [d [status [Hfst [Hd Hin]]]].
    cbn [after_polls] in Hfst.
    destruct (poll_answer h hdrs period eid (srv w)) as [a s'] eqn:Hans.
    cbn in Hfst. subst a.
    set (w1 := record [Sleep period; Call (details_request h hdrs eid);
                       LogInfo ("Incomplete execution with status: " ++ status)] s' w).
    destruct (IH w1) as [wn [Hsrv [Hreq Hrun]]].
    { intros k Hk. specialize (Hall (S k) ltac:(lia)).
      unfold incomplete_at in Hall |- *. cbn [after_polls] in Hall.
      rewrite Hans in Hall. exact Hall. }
    exists wn. split; [| split].
    + rewrite Hsrv. cbn [after_polls]. now rewrite Hans.
    + rewrite Hreq. subst w1. cbn [trace record].
      rewrite requests_app. cbn [requests repeat]. now rewrite <- app_assoc.
    + intros fuel. cbn [Nat.add].
      rewrite (poll_loop_incomplete_step (n + fuel) h hdrs period eid w d s' status)
        by assumption.
      apply Hrun.
Qed.

(** X10.  When the execution is incomplete for [n] polls and complete at the
    next one, the loop returns the details of that last answer after exactly
    [n + 1] details requests; any number of iterations above [n] gives this
    same result. *)
Theorem poll_loop_returns_once_complete (h : ValohaiHook) (hdrs : http_headers)
    (period : Z) (eid : value) (n : nat) (w : world) (d : value) (s' : server)
    (status : string) :
  0 <= period ->
  headers h = Some hdrs ->
  (forall k, (k < n)%nat -> incomplete_at k h hdrs period eid (srv w)) ->
  poll_answer h hdrs period eid (after_polls n h hdrs period eid (srv w))
    = (Reply d, s') ->
  carries_status d status ->
  In status success_execution_statuses ->
  forall fuel, (n < fuel)%nat ->
    exists w',
      poll_loop fuel h period eid w = (Ret d, w')
      /\ srv w' = s'
      /\ requests (trace w') =
         (requests (trace w) ++ repeat (details_request h hdrs eid) (S n))%list.
Proof.
  intros Hp Hh Hall Hans Hd Hin fuel Hfuel.
  destruct (poll_loop_skips_incomplete h hdrs period eid Hp Hh n w Hall)
    as [wn [Hsrv [Hreq Hrun]]].
  replace fuel with (n + S (fuel - S n))%nat by lia.
  rewrite Hrun. rewrite <- Hsrv in Hans.
  rewrite (poll_loop_fetch _ h hdrs period eid wn d s' status Hp Hh Hans Hd).
  cbv zeta.
  assert (Hinc : ~ In status incomplete_execution_statuses).
  { cbn in Hin |- *. intuition (subst; discriminate). }
  assert (Hfail : ~ In status fail_execution_statuses).
  { cbn in Hin |- *. intuition (subst; discriminate). }
  rewrite (bind_Ret _ _ _ _ _ (py_in_stranger _ _ _ Hinc)).
  rewrite (bind_Ret _ _ _ _ _ (py_in_stranger _ _ _ Hfail)).
  rewrite (bind_Ret _ _ _ _ _ (py_in_member _ _ _ Hin)).
  eexists. split; [reflexivity |]. split; [reflexivity |].
  cbn [trace record logging_info snd fst]. rewrite !requests_app, Hreq.
  cbn [requests app].
  cbn [repeat]. rewrite repeat_cons.
  rewrite ?app_nil_r, <- ?app_assoc. reflexivity.
Qed.

(** X11.  When the execution is incomplete for [n] polls and has a fail
    status at the next one, the loop raises the [AirflowException] of that
    status after exactly [n + 1] details requests, for any number of
    iterations above [n]. *)
Theorem poll_loop_raises_once_failed (h : ValohaiHook) (hdrs : http_headers)
    (period : Z) (eid : value) (n : nat) (w : world) (d : value) (s' : server)
    (status : string) :
  0 <= period ->
  headers h = Some hdrs ->
  (forall k, (k < n)%nat -> incomplete_at k h hdrs period eid (srv w)) ->
  poll_answer h hdrs period eid (after_polls n h hdrs period eid (srv w))
    = (Reply d, s') ->
  carries_status d status ->
  In status fail_execution_statuses ->
  forall fuel, (n < fuel)%nat ->
    exists w',
      poll_loop fuel h period eid w
      = (Raise (AirflowException ("Execution failed with status: " ++ status)), w')
      /\ srv w' = s'
      /\ requests (trace w') =
         (requests (trace w) ++ repeat (details_request h hdrs eid) (S n))%list.
Proof.
  intros Hp Hh Hall Hans Hd Hin fuel Hfuel.
  destruct (poll_loop_skips_incomplete h hdrs period eid Hp Hh n w Hall)
    as [wn [Hsrv [Hreq Hrun]]].
  replace fuel with (n + S (fuel - S n))%nat by lia.
  rewrite Hrun. rewrite <- Hsrv in Hans.
  rewrite (poll_loop_fetch _ h hdrs period eid wn d s' status Hp Hh Hans Hd).
  cbv zeta.
  assert (Hinc : ~ In status incomplete_execution_statuses).
  { cbn in Hin |- *. intuition (subst; discriminate). }
  rewrite (bind_Ret _ _ _ _ _ (py_in_stranger _ _ _ Hinc)).
  rewrite (bind_Ret _ _ _ _ _ (py_in_member _ _ _ Hin)).
  eexists. split; [reflexivity |]. split; [reflexivity |].
  cbn [trace record]. rewrite !requests_app, Hreq.
  cbn [requests app].
  cbn [repeat]. rewrite repeat_cons.
  rewrite ?app_nil_r, <- ?app_assoc. reflexivity.
Qed.

(** ** Statuses that are not what the loop expects *)

Lemma poll_loop_fetched (fuel : nat) (h : ValohaiHook) (hdrs : http_headers)
    (period : Z) (eid : value) (w : world) (d : value) (s' : server) :
  0 <= period ->
  headers h = Some hdrs ->
  poll_answer h hdrs period eid (srv w) = (Reply d, s') ->
  poll_loop (S fuel) h period eid w =
  (status <- subscript d "status";;
   incomplete <- py_in status incomplete_execution_statuses;;
   if incomplete then
     logging_info ("Incomplete execution with status: " ++ py_str status);;
     poll_loop fuel h period eid
   else
     failed <- py_in status fail_execution_statuses;;
     if failed then
       raise (AirflowException ("Execution failed with status: " ++ py_str status))
     else
       succeeded <- py_in status success_execution_statuses;;
       if succeeded then
         logging_info "Execution completed sucessfully";;
         ret d
       else
         raise (AirflowException ("Found a not handled status: " ++ py_str status)))
    (record [Sleep period; Call (details_request h hdrs eid)] s' w).
Proof.
  intros Hp Hh Hans. cbn [poll_loop].
  assert (Hsleep : time_sleep period w
                   = (Ret tt, record [Sleep period] (elapse period (srv w)) w)).
  { unfold time_sleep. destruct (period <? 0) eqn:E; [lia | reflexivity]. }
  rewrite (bind_Ret _ _ _ _ _ Hsleep).
  assert (Hget : get_execution_details h eid
                   (record [Sleep period] (elapse period (srv w)) w)
                 = (Ret d, record [Sleep period; Call (details_request h hdrs eid)] s' w)).
  { unfold get_execution_details.
    rewrite (bind_Ret _ _ _ _ _ (self_headers_Some _ _ _ Hh)).
    unfold poll_answer, details_request in Hans.
    rewrite (call_Reply _ (record [Sleep period] (elapse period (srv w)) w) _ _ Hans).
    now rewrite record_record. }
  now rewrite (bind_Ret _ _ _ _ _ Hget).
Qed.

Lemma py_in_not_a_string (v : value) (l : list string) (w : world) :
  hashable v = true ->
  (forall s, v <> VStr s) ->
  py_in v l w = (Ret false, w).
Proof.
  intros Hhash Hns. unfold py_in. rewrite Hhash. unfold ret.
  replace (existsb (fun x => py_eq v (VStr x)) l) with false; [reflexivity |].
  symmetry. induction l as [| x l IH]; [reflexivity |].
  cbn [existsb]. rewrite IH. now rewrite (py_eq_VStr_false _ _ (Hns x)).
Qed.

(** X13.  Details without a [status] make the loop fail with
    [KeyError('status')], and details that are not a dictionary (a list,
    [None]) with [TypeError], right after the details request. *)
Theorem poll_loop_details_without_status (fuel : nat) (h : ValohaiHook)
    (hdrs : http_headers) (period : Z) (eid : value) (w : world) (d : value)
    (s' : server) :
  0 <= period ->
  headers h = Some hdrs ->
  poll_answer h hdrs period eid (srv w) = (Reply d, s') ->
  (forall m, d = VDict m -> lookup "status" m = None ->
     poll_loop (S fuel) h period eid w
     = (Raise (KeyError "status"),
        record [Sleep period; Call (details_request h hdrs eid)] s' w))
  /\ ((forall m, d <> VDict m) ->
      poll_loop (S fuel) h period eid w
      = (Raise TypeError,
         record [Sleep period; Call (details_request h hdrs eid)] s' w)).
Proof.
  intros Hp Hh Hans.
  rewrite (poll_loop_fetched fuel h hdrs period eid w d s' Hp Hh Hans).
  split.
  - intros m -> Hst. unfold bind at 1. unfold subscript. now rewrite Hst.
  - intros Hnd. unfold bind at 1.
    destruct d; try reflexivity. now destruct (Hnd entries).
Qed.

(** X14.  A status that is not a string is never taken for a known one:
    [None], a boolean or a number end in the [AirflowException] of the not
    handled status, with the text of the value; a list or a dictionary, which
    cannot be looked up in a set, ends in [TypeError]. *)
Theorem poll_loop_status_not_a_string (fuel : nat) (h : ValohaiHook)
    (hdrs : http_headers) (period : Z) (eid : value) (w : world)
    (m : list (string * value)) (s' : server) (status : value) :
  0 <= period ->
  headers h = Some hdrs ->
  poll_answer h hdrs period eid (srv w) = (Reply (VDict m), s') ->
  lookup "status" m = Some status ->
  (forall s, status <> VStr s) ->
  poll_loop (S fuel) h period eid w
  = (Raise (if hashable status
            then AirflowException ("Found a not handled status: " ++ py_str status)
            else TypeError),
     record [Sleep period; Call (details_request h hdrs eid)] s' w).
Proof.
  intros Hp Hh Hans Hst Hns.
  rewrite (poll_loop_fetched fuel h hdrs period eid w (VDict m) s' Hp Hh Hans).
  unfold bind at 1. unfold subscript. rewrite Hst. unfold ret at 1.
  destruct (hashable status) eqn:Hhash.
  - rewrite (bind_Ret _ _ _ _ _ (py_in_not_a_string _ _ _ Hhash Hns)).
    rewrite (bind_Ret _ _ _ _ _ (py_in_not_a_string _ _ _ Hhash Hns)).
    rewrite (bind_Ret _ _ _ _ _ (py_in_not_a_string _ _ _ Hhash Hns)).
    reflexivity.
  - unfold bind, py_in. now rewrite Hhash.
Qed.

(** ** What the methods add to the trace *)

Lemma adds_ret P {A} (a : A) : adds P (ret a).
Proof. intros w. exists []. cbn. now rewrite app_nil_r. Qed.

Lemma adds_raise P {A} (e : exn) : adds P (@raise _ A e).
Proof. intros w. exists []. cbn. now rewrite app_nil_r. Qed.

Lemma adds_out_of_fuel P {A} : adds P (@out_of_fuel _ A).
Proof. intros w. exists []. cbn. now rewrite app_nil_r. Qed.

Lemma adds_bind P {A B} (m : M A) (k : A -> M B) :
  adds P m -> (forall a, adds P (k a)) -> adds P (bind m k).
Proof.
  intros Hm Hk w. unfold bind.
  destruct (Hm w) as [l1 [H1 HP1]].
  destruct (m w) as [[a | e |] w1]; cbn in H1.
  - destruct (Hk a w1) as [l2 [H2 HP2]]. exists (l1 ++ l2)%list. split.
    + now rewrite H2, H1, app_assoc.
    + apply Forall_app. now split.
  - now exists l1.
  - now exists l1.
Qed.

Lemma adds_call (P : event -> Prop) (r : request) : P (Call r) -> adds P (call r).
Proof.
  intros HP w. exists [Call r]. unfold call.
  destruct (respond r (srv w)) as [[v | e] s1]; split; (reflexivity || now constructor).
Qed.

Lemma adds_logging_info (P : event -> Prop) (msg : string) :
  P (LogInfo msg) -> adds P (logging_info msg).
Proof. intros HP w. exists [LogInfo msg]. split; [reflexivity | now constructor]. Qed.

Lemma adds_time_sleep (P : event -> Prop) (seconds : Z) :
  P (Sleep seconds) -> adds P (time_sleep seconds).
Proof.
  intros HP w. unfold time_sleep. destruct (seconds <? 0).
  - exists []. cbn. now rewrite app_nil_r.
  - exists [Sleep seconds]. split; [reflexivity | now constructor].
Qed.

Lemma adds_set_polling_period P (seconds : Z) : adds P (set_polling_period seconds).
Proof. intros w. exists []. cbn. now rewrite app_nil_r. Qed.

Lemma adds_subscript P (v : value) (key : string) : adds P (subscript v key).
Proof.
  unfold subscript. destruct v; try apply adds_raise.
  destruct (lookup key entries); [apply adds_ret | apply adds_raise].
Qed.

Lemma adds_py_iter P (v : value) : adds P (py_iter v).
Proof. destruct v; cbn; (apply adds_ret || apply adds_raise). Qed.

Lemma adds_py_in P (v : value) (l : list string) : adds P (py_in v l).
Proof. unfold py_in. destruct (hashable v); [apply adds_ret | apply adds_raise]. Qed.

Lemma adds_py_re_match P (pattern name : value) : adds P (py_re_match pattern name).
Proof.
  unfold py_re_match. destruct pattern as [| b | z | p | l | d]; try apply adds_raise.
  destruct name as [| b | z | n | l | d];
    try (destruct (re_match p ""); apply adds_raise).
  destruct (re_match p n); [apply adds_ret | apply adds_raise].
Qed.

Lemma adds_os_path_join P (path : string) (name : value) :
  adds P (os_path_join path name).
Proof. destruct name; cbn; (apply adds_ret || apply adds_raise). Qed.

(** Reading [self.headers] gives the headers of the hook, or nothing goes
    on. *)
Lemma adds_with_headers P {A} (h : ValohaiHook) (k : http_headers -> M A) :
  (forall hdrs, headers h = Some hdrs -> adds P (k hdrs)) ->
  adds P (bind (self_headers h) k).
Proof.
  intros Hk w. unfold bind, self_headers.
  destruct (headers h) as [hdrs |] eqn:Hh.
  - unfold ret. now apply Hk.
  - exists []. cbn. now rewrite app_nil_r.
Qed.

Create HintDb adds.
#[local] Hint Resolve adds_ret adds_raise adds_out_of_fuel adds_set_polling_period
  adds_subscript adds_py_iter adds_py_in adds_py_re_match adds_os_path_join : adds.

Ltac adds_steps :=
  repeat first
    [ solve [auto with adds]
    | apply adds_with_headers; intros ? ?
    | apply adds_bind; [| intro] ].

(** The steps that every method is made of, for a property [P] that holds of
    the requests of the hook, of the sleeps and of the log lines. *)
Section Added.
Variable P : event -> Prop.
Variable h : ValohaiHook.
Hypothesis P_get :
  forall hdrs endpoint params,
    headers h = Some hdrs -> P (Call (Get (api_url h endpoint) hdrs params)).
Hypothesis P_sleep : forall seconds, P (Sleep seconds).
Hypothesis P_log : forall msg, P (LogInfo msg).

Lemma adds_find_project (name : value) (l : list value) : adds P (find_project name l).
Proof.
  induction l as [| p l IH]; cbn [find_project]; adds_steps.
  destruct (py_eq _ _); auto with adds.
Qed.

Lemma adds_find_repository (pid : value) (l : list value) :
  adds P (find_repository pid l).
Proof.
  induction l as [| r l IH]; cbn [find_repository]; adds_steps.
  destruct (py_eq _ _); auto with adds.
Qed.

Lemma adds_find_commit (rid branch : value) (l : list value) :
  adds P (find_commit rid branch l).
Proof.
  induction l as [| c l IH]; cbn [find_commit]; adds_steps.
  - unfold commit_matches. adds_steps. destruct (py_eq _ _); adds_steps.
  - destruct a; auto with adds.
Qed.

Lemma adds_get_project_id (name : value) : adds P (get_project_id h name).
Proof.
  unfold get_project_id. adds_steps.
  - apply adds_call. now apply P_get.
  - apply adds_find_project.
Qed.

Lemma adds_get_repository_id (pid : value) : adds P (get_repository_id h pid).
Proof.
  unfold get_repository_id. adds_steps.
  - apply adds_call. now apply P_get.
  - apply adds_find_repository.
Qed.

Lemma adds_get_latest_commit (pid branch : value) :
  adds P (get_latest_commit h pid branch).
Proof.
  unfold get_latest_commit.
  apply adds_bind; [apply adds_get_repository_id | intros rid].
  adds_steps.
  - apply adds_call. now apply P_get.
  - apply adds_find_commit.
Qed.

Lemma adds_get_execution_details (eid : value) : adds P (get_execution_details h eid).
Proof.
  unfold get_execution_details. adds_steps. apply adds_call. now apply P_get.
Qed.

Lemma adds_poll_loop (fuel : nat) (period : Z) (eid : value) :
  adds P (poll_loop fuel h period eid).
Proof.
  induction fuel as [| fuel IH]; cbn [poll_loop]; [apply adds_out_of_fuel |].
  apply adds_bind; [apply adds_time_sleep, P_sleep | intros _].
  apply adds_bind; [apply adds_get_execution_details | intros d].
  apply adds_bind; [apply adds_subscript | intros status].
  apply adds_bind; [apply adds_py_in | intros [|]].
  - apply adds_bind; [apply adds_logging_info, P_log | intros _; exact IH].
  - apply adds_bind; [apply adds_py_in | intros [|]]; [apply adds_raise |].
    apply adds_bind; [apply adds_py_in | intros [|]]; [| apply adds_raise].
    apply adds_bind; [apply adds_logging_info, P_log | intros _; apply adds_ret].
Qed.

Hypothesis P_post :
  forall hdrs endpoint body,
    headers h = Some hdrs -> P (Call (Post (api_url h endpoint) hdrs body)).

Lemma adds_submit_execution (fuel : nat)
    (project_name step inputs parameters environment commit branch tags : value)
    (period : Z) :
  adds P (submit_execution fuel h project_name step inputs parameters environment
            commit branch tags period).
Proof.
  unfold submit_execution.
  apply adds_bind; [apply adds_set_polling_period | intros _].
  apply adds_bind; [apply adds_get_project_id | intros pid].
  apply adds_bind.
  { destruct (py_truthy branch); [| apply adds_ret].
    apply adds_bind.
    { unfold fetch_repository. apply adds_with_headers. intros hdrs Hh.
      apply adds_call. now apply P_post. }
    intros response.
    apply adds_bind; [apply adds_logging_info, P_log | intros _].
    apply adds_bind; [apply adds_get_latest_commit | intros latest].
    apply adds_bind; [apply adds_logging_info, P_log | intros _; apply adds_ret]. }
  intros c.
  apply adds_with_headers. intros hdrs Hh.
  apply adds_bind; [apply adds_call; now apply P_post | intros response].
  apply adds_bind; [apply adds_logging_info, P_log | intros _].
  apply adds_bind; [apply adds_subscript | intros eid].
  apply adds_bind; [apply adds_subscript | intros urls].
  apply adds_bind; [apply adds_subscript | intros display].
  apply adds_bind; [apply adds_logging_info, P_log | intros _].
  apply adds_bind; [| intros _; apply adds_poll_loop].
  destruct (py_truthy tags); [| apply adds_ret].
  apply adds_bind; [| intros _; apply adds_logging_info, P_log].
  unfold add_execution_tags. apply adds_with_headers. intros hdrs' Hh'.
  apply adds_call. now apply P_post.
Qed.

End Added.

(** X15.  Every HTTP request that [submit_execution] sends, from the
    project lookup to the last poll, goes to an endpoint under
    [https://<host>/] of the hook and carries the headers of the hook;
    [submit_execution] pulls nothing from the result store and downloads
    nothing. *)
Theorem submit_execution_requests_from_hook (fuel : nat) (h : ValohaiHook)
    (hdrs : http_headers)
    (project_name step inputs parameters environment commit branch tags : value)
    (period : Z) :
  headers h = Some hdrs ->
  adds (from_hook h hdrs)
    (submit_execution fuel h project_name step inputs parameters environment
       commit branch tags period).
Proof.
  intros Hh. apply adds_submit_execution.
  - intros hdrs' endpoint params Hh'. cbn. split; [congruence | now exists endpoint].
  - intros seconds. exact I.
  - intros msg. exact I.
  - intros hdrs' endpoint body Hh'. cbn. split; [congruence | now exists endpoint].
Qed.

(** X16.  The lookups and the poll loop only read: [get_project_id],
    [get_repository_id], [get_latest_commit], [get_execution_details] and
    the poll loop never send a POST. *)
Theorem lookups_are_read_only (h : ValohaiHook) :
  (forall name, adds read_only (get_project_id h name))
  /\ (forall project_id, adds read_only (get_repository_id h project_id))
  /\ (forall project_id branch, adds read_only (get_latest_commit h project_id branch))
  /\ (forall execution_id, adds read_only (get_execution_details h execution_id))
  /\ (forall fuel period execution_id,
        adds read_only (poll_loop fuel h period execution_id)).
Proof.
  assert (Hget : forall hdrs endpoint params,
             headers h = Some hdrs ->
             read_only (Call (Get (api_url h endpoint) hdrs params)))
    by (intros; exact I).
  assert (Hsleep : forall seconds, read_only (Sleep seconds)) by (intros; exact I).
  assert (Hlog : forall msg, read_only (LogInfo msg)) by (intros; exact I).
  repeat split; intros.
  - now apply adds_get_project_id.
  - now apply adds_get_repository_id.
  - now apply adds_get_latest_commit.
  - now apply adds_get_execution_details.
  - now apply adds_poll_loop.
Qed.

(** ** What the downloader does to the outside *)

Lemma adds_ret_bind P {A B} (a : A) (k : A -> M B) :
  adds P (k a) -> adds P (bind (ret a) k).
Proof. intros H w. exact (H w). Qed.

Lemma adds_raise_bind P {A B} (e : exn) (k : A -> M B) :
  adds P (bind (raise e) k).
Proof. intros w. exists []. cbn. now rewrite app_nil_r. Qed.

Lemma adds_output_is_ignored P (pattern output : value) :
  adds P (output_is_ignored pattern output).
Proof. unfold output_is_ignored. destruct (py_truthy pattern); adds_steps. Qed.

(** One pass of the loop over an output of the list [outs]. *)
Lemma adds_download_output (path : string) (pattern : value) (outs : list value)
    (o : value) :
  In o outs -> adds (retrieval_of path outs) (download_output path pattern o).
Proof.
  intros Hin. unfold download_output.
  apply adds_bind; [apply adds_output_is_ignored | intros [|]].
  - apply adds_bind; [apply adds_subscript | intros name].
    apply adds_logging_info. exact I.
  - destruct o as [| b | z | t | l | m]; try apply adds_raise_bind.
    unfold subscript at 1.
    destruct (lookup "url" m) as [url |] eqn:Hurl; [| apply adds_raise_bind].
    apply adds_ret_bind. unfold subscript at 1.
    destruct (lookup "name" m) as [name |] eqn:Hname; [| apply adds_raise_bind].
    apply adds_ret_bind.
    destruct name as [| b | z | n | l | d]; try apply adds_raise_bind.
    cbn [os_path_join]. apply adds_ret_bind.
    apply adds_bind.
    { apply adds_call. cbn. exists m, n. repeat split; assumption. }
    intros _. apply adds_bind; [apply adds_subscript | intros name'].
    apply adds_logging_info. exact I.
Qed.

Lemma adds_download_loop (path : string) (pattern : value) (outs items : list value) :
  (forall o, In o items -> In o outs) ->
  adds (retrieval_of path outs) (for_each (download_output path pattern) items).
Proof.
  induction items as [| o items IH]; intros Hsub; cbn [for_each]; [apply adds_ret |].
  apply adds_bind.
  - apply adds_download_output. apply Hsub. now left.
  - intros _. apply IH. intros o' Hin. apply Hsub. now right.
Qed.

Lemma retrieval_of_is_retrieval_or_log (path : string) (outs : list value) (e : event) :
  retrieval_of path outs e -> retrieval_or_log e.
Proof. destruct e as [[| | |] | |]; cbn; tauto. Qed.

(** X17.  [download_execution_outputs] pulls from the result store once,
    before anything else, and after that it only retrieves and logs: it never
    calls [requests.get] or [requests.post] and never sleeps, whatever the
    pattern and the answer of the store are.  When the details that are
    pulled hold a list of outputs, every retrieval is the one of an output of
    that list: from its [url], into [os.path.join(path, name)] for its
    [name]. *)
Theorem download_execution_outputs_only_retrieves_outputs (task : value)
    (path : string) (pattern : value) (w : world) :
  exists rest,
    trace (snd (download_execution_outputs task path pattern w))
    = (trace w ++ Call (XComPull task) :: rest)%list
    /\ Forall retrieval_or_log rest
    /\ forall (details : list (string * value)) (outs : list value) (s1 : server),
         respond (XComPull task) (srv w) = (Reply (VDict details), s1) ->
         lookup "outputs" details = Some (VList outs) ->
         Forall (retrieval_of path outs) rest.
Proof.
  unfold download_execution_outputs. unfold bind at 1. unfold call.
  destruct (respond (XComPull task) (srv w)) as [[pulled | e] s0] eqn:Hans.
  2:{ exists []. split; [reflexivity |]. split; [constructor |].
      intros details outs s1 Hpulled. discriminate. }
  set (w1 := record [Call (XComPull task)] s0 w).
  destruct pulled as [| b | z | t | l | details];
    try (exists []; split; [reflexivity |]; split; [constructor |];
         intros details outs s1 Hpulled; discriminate).
  unfold bind at 1. unfold subscript at 1.
  destruct (lookup "outputs" details) as [outputs |] eqn:Hout.
  2:{ exists []. split; [reflexivity |]. split; [constructor |].
      intros details' outs s1 Hpulled Hout'.
      injection Hpulled as <- _. congruence. }
  unfold ret at 1.
  assert (Hlist : forall items,
             (outputs = VList items \/ forall outs, outputs <> VList outs) ->
             exists rest,
               trace (snd (for_each (download_output path pattern) items w1))
               = (trace w ++ Call (XComPull task) :: rest)%list
               /\ Forall retrieval_or_log rest
               /\ forall (details' : list (string * value)) (outs : list value)
                         (s1 : server),
                    (Reply (VDict details), s0) = (Reply (VDict details'), s1) ->
                    lookup "outputs" details' = Some (VList outs) ->
                    Forall (retrieval_of path outs) rest).
  { intros items Hitems.
    destruct (adds_download_loop path pattern items items (fun o H => H) w1)
      as [rest [Htrace Hrest]].
    exists rest. split; [| split].
    - rewrite Htrace. subst w1. cbn [trace record]. now rewrite <- app_assoc.
    - eapply Forall_impl; [| exact Hrest].
      intros e. apply retrieval_of_is_retrieval_or_log.
    - intros details' outs s1 Hpulled Hout'.
      injection Hpulled as <- _. rewrite Hout in Hout'. injection Hout' as Houts.
      destruct Hitems as [Hitems | Hitems]; [| now destruct (Hitems outs)].
      rewrite Hitems in Houts. injection Houts as <-. exact Hrest. }
  destruct outputs as [| b | z | t | items | entries]; unfold bind at 1; cbn [py_iter].
  - exists []. split; [reflexivity |]. split; [constructor |].
    intros details' outs s1 Hpulled Hout'.
    injection Hpulled as <- _. congruence.
  - exists []. split; [reflexivity |]. split; [constructor |].
    intros details' outs s1 Hpulled Hout'.
    injection Hpulled as <- _. congruence.
  - exists []. split; [reflexivity |]. split; [constructor |].
    intros details' outs s1 Hpulled Hout'.
    injection Hpulled as <- _. congruence.
  - unfold ret at 1. apply Hlist. right. intros outs. discriminate.
  - unfold ret at 1. apply Hlist. now left.
  - unfold ret at 1. apply Hlist. right. intros outs. discriminate.
Qed.

(** ** The rhythm of the poll loop *)

Lemma subscript_same_world (v : value) (key : string) (w : world) :
  subscript v key w = (fst (subscript v key w), w).
Proof.
  unfold subscript. destruct v; try reflexivity.
  destruct (lookup key entries); reflexivity.
Qed.

Lemma py_in_same_world (v : value) (l : list string) (w : world) :
  py_in v l w = (fst (py_in v l w), w).
Proof. unfold py_in. destruct (hashable v); reflexivity. Qed.

(** X18.  The loop never asks for the status without having slept the
    polling period first, and asks for nothing else: what it adds to the
    trace is a sequence of rounds, each one a sleep of the period followed
    by the details request of the execution and at most one log line. *)
Theorem poll_loop_sleeps_before_each_request (h : ValohaiHook)
    (hdrs : http_headers) (period : Z) (eid : value) :
  headers h = Some hdrs ->
  forall (fuel : nat) (w : world),
  exists added,
    trace (snd (poll_loop fuel h period eid w)) = (trace w ++ added)%list
    /\ polling_trace period (details_request h hdrs eid) added.
Proof.
  intros Hh. induction fuel as [| fuel IH]; intros w.
  - exists []. split; [cbn; now rewrite app_nil_r | constructor].
  - cbn [poll_loop]. unfold bind at 1. unfold time_sleep.
    destruct (period <? 0).
    { exists []. split; [cbn; now rewrite app_nil_r | constructor]. }
    unfold get_execution_details. unfold bind at 1. unfold bind at 1.
    rewrite (self_headers_Some _ _ _ Hh).
    fold (details_request h hdrs eid). unfold call.
    destruct (respond (details_request h hdrs eid)
                (srv (record [Sleep period] (elapse period (srv w)) w)))
      as [[d | e] s1]; rewrite record_record; cbn [app].
    2:{ exists [Sleep period; Call (details_request h hdrs eid)].
        split; [reflexivity | repeat constructor]. }
    set (w1 := record [Sleep period; Call (details_request h hdrs eid)] s1 w).
    assert (Hquiet : exists added,
               trace w1 = (trace w ++ added)%list
               /\ polling_trace period (details_request h hdrs eid) added).
    { exists [Sleep period; Call (details_request h hdrs eid)].
      split; [reflexivity | repeat constructor]. }
    unfold bind at 1. rewrite subscript_same_world.
    destruct (fst (subscript d "status" w1)) as [status | e |]; [| exact Hquiet ..].
    unfold bind at 1. rewrite py_in_same_world.
    destruct (fst (py_in status incomplete_execution_statuses w1))
      as [[|] | e |]; [| | exact Hquiet ..].
    + unfold bind at 1. unfold logging_info at 1.
      destruct (IH (record [LogInfo ("Incomplete execution with status: "
                                     ++ py_str status)] (srv w1) w1))
        as [added [Htr Hshape]].
      exists (Sleep period :: Call (details_request h hdrs eid)
                :: LogInfo ("Incomplete execution with status: " ++ py_str status)
                :: added).
      split; [| now constructor].
      rewrite Htr. subst w1. cbn [trace record]. now rewrite <- !app_assoc.
    + unfold bind at 1. rewrite py_in_same_world.
      destruct (fst (py_in status fail_execution_statuses w1))
        as [[|] | e |]; [exact Hquiet | | exact Hquiet ..].
      unfold bind at 1. rewrite py_in_same_world.
      destruct (fst (py_in status success_execution_statuses w1))
        as [[|] | e |]; [| exact Hquiet ..].
      exists [Sleep period; Call (details_request h hdrs eid);
              LogInfo "Execution completed sucessfully"].
      split; [| apply polling_round_logged, polling_done].
      unfold bind, logging_info, ret. subst w1. cbn [snd trace record].
      now rewrite <- app_assoc.
Qed.

(** ** The downloader at its edges *)

Lemma for_each_app {A} (body : A -> M unit) (xs ys : list A) (w w1 : world) :
  for_each body xs w = (Ret tt, w1) ->
  for_each body (xs ++ ys) w = for_each body ys w1.
Proof.
  revert w. induction xs as [| x xs IH]; intros w Hrun.
  - cbn in Hrun. now injection Hrun as <-.
  - cbn [app for_each] in *. unfold bind in *.
    destruct (body x w) as [[[] | e |] w0]; [now apply IH | discriminate ..].
Qed.

(** X19.  Nothing is downloaded when there is nothing to go through: a
    pull that gives [None] (the task has pushed no result) ends in
    [TypeError], details without [outputs] in [KeyError('outputs')], and an
    empty list of outputs in a normal return, whatever the pattern is. *)
Theorem download_execution_outputs_nothing_to_do (task : value) (path : string)
    (pattern : value) (w : world) (pulled : value) (s1 : server) :
  respond (XComPull task) (srv w) = (Reply pulled, s1) ->
  (pulled = VNone ->
   download_execution_outputs task path pattern w
   = (Raise TypeError, record [Call (XComPull task)] s1 w))
  /\ (forall details,
         pulled = VDict details ->
         lookup "outputs" details = None ->
         download_execution_outputs task path pattern w
         = (Raise (KeyError "outputs"), record [Call (XComPull task)] s1 w))
  /\ (forall details,
         pulled = VDict details ->
         lookup "outputs" details = Some (VList []) ->
         download_execution_outputs task path pattern w
         = (Ret tt, record [Call (XComPull task)] s1 w)).
Proof.
  intros Hans. unfold download_execution_outputs.
  rewrite (bind_Ret _ _ _ _ _ (call_Reply _ _ _ _ Hans)).
  split; [| split].
  - intros ->. reflexivity.
  - intros details -> Hout. unfold bind, subscript. now rewrite Hout.
  - intros details -> Hout. unfold bind, subscript. now rewrite Hout.
Qed.

(** X20.  A retrieval that raises, for an output that is to be downloaded
    (there is no pattern, or the pattern matches its name), ends the whole
    call with that exception: the outputs after the failing one are not
    attempted, and what was downloaded before stays downloaded. *)
Theorem download_execution_outputs_stops_at_failure (task : value) (path : string)
    (pattern : value) (w w1 : world) (details : list (string * value))
    (done rest : list value) (m : list (string * value)) (url : value)
    (name : string) (e : exn) (s1 s2 : server) :
  respond (XComPull task) (srv w) = (Reply (VDict details), s1) ->
  lookup "outputs" details = Some (VList (done ++ VDict m :: rest)) ->
  for_each (download_output path pattern) done (record [Call (XComPull task)] s1 w)
    = (Ret tt, w1) ->
  py_truthy pattern = false
  \/ (exists p, pattern = VStr p /\ re_match p name = Some true) ->
  lookup "url" m = Some url ->
  lookup "name" m = Some (VStr name) ->
  respond (UrlRetrieve url (posix_join path name)) (srv w1) = (Throws e, s2) ->
  download_execution_outputs task path pattern w
  = (Raise e, record [Call (UrlRetrieve url (posix_join path name))] s2 w1).
Proof.
  intros Hans Hout Hdone Hp Hurl Hname Hfail.
  assert (Hkept : output_is_ignored pattern (VDict m) w1 = (Ret false, w1)).
  { unfold output_is_ignored.
    destruct (py_truthy pattern) eqn:Htruthy; [| reflexivity].
    destruct Hp as [Hp | [p [-> Hre]]]; [discriminate |].
    unfold bind at 1. unfold subscript at 1. rewrite Hname. unfold ret at 1.
    unfold bind. cbn [py_re_match]. now rewrite Hre. }
  unfold download_execution_outputs.
  rewrite (bind_Ret _ _ _ _ _ (call_Reply _ _ _ _ Hans)).
  unfold bind at 1. unfold subscript at 1. rewrite Hout. unfold ret at 1.
  unfold bind at 1. cbn [py_iter]. unfold ret at 1.
  rewrite (for_each_app _ _ _ _ _ Hdone).
  cbn [for_each]. unfold bind at 1. unfold download_output.
  rewrite (bind_Ret _ _ _ _ _ Hkept).
  unfold bind at 1. unfold subscript at 1. rewrite Hurl. unfold ret at 1.
  unfold bind at 1. unfold subscript at 1. rewrite Hname. unfold ret at 1.
  unfold bind at 1. cbn [os_path_join]. unfold ret at 1.
  unfold bind at 1. unfold call. now rewrite Hfail.
Qed.

(** X21.  A pattern is only looked at when there is an output to test: at
    the first output, a pattern that the engine does not compile ends the
    call in the error of the engine, and a pattern that is a true value but
    not a string in [TypeError]; nothing has been downloaded by then. *)
Theorem download_execution_outputs_bad_pattern (task : value) (path : string)
    (pattern : value) (w : world) (details m : list (string * value))
    (rest : list value) (name : string) (s1 : server) :
  respond (XComPull task) (srv w) = (Reply (VDict details), s1) ->
  lookup "outputs" details = Some (VList (VDict m :: rest)) ->
  lookup "name" m = Some (VStr name) ->
  py_truthy pattern = true ->
  (forall p, pattern = VStr p -> re_match p name = None ->
     download_execution_outputs task path pattern w
     = (Raise ReError, record [Call (XComPull task)] s1 w))
  /\ ((forall p, pattern <> VStr p) ->
      download_execution_outputs task path pattern w
      = (Raise TypeError, record [Call (XComPull task)] s1 w)).
Proof.
  intros Hans Hout Hname Hp.
  assert (Hrun : forall e w1,
             py_re_match pattern (VStr name) (record [Call (XComPull task)] s1 w)
             = (Raise e, w1) ->
             download_execution_outputs task path pattern w = (Raise e, w1)).
  { intros e w1 Hre. unfold download_execution_outputs.
    rewrite (bind_Ret _ _ _ _ _ (call_Reply _ _ _ _ Hans)).
    unfold bind at 1. unfold subscript at 1. rewrite Hout. unfold ret at 1.
    unfold bind at 1. cbn [py_iter]. unfold ret at 1.
    cbn [for_each]. unfold bind at 1. unfold download_output.
    unfold bind at 1. unfold output_is_ignored. rewrite Hp.
    unfold bind at 1. unfold subscript at 1. rewrite Hname. unfold ret at 1.
    unfold bind at 1. now rewrite Hre. }
  split.
  - intros p -> Hre. apply Hrun. cbn [py_re_match]. now rewrite Hre.
  - intros Hns. apply Hrun.
    destruct pattern as [| b | z | p | l | d]; try reflexivity.
    now destruct (Hns p).
Qed.

Lemma In_saved_as (path : string) (spec : string * value)
    (specs : list (string * value)) :
  In spec specs -> In (saved_as path spec) (map (saved_as path) specs).
Proof. apply in_map. Qed.

(** X22.  Without a pattern every output is saved, and where it is saved
    is decided by its name: a name that starts with [/] is used as the file
    name as it is, outside the target directory; any other name is put
    under the target directory, with a [/] in between unless the directory
    is empty or ends with one. *)
Theorem download_execution_outputs_file_names (task : value) (path : string)
    (w : world) (details : list (string * value)) (outs : list value)
    (specs : list (string * value)) (s1 : server) :
  respond (XComPull task) (srv w) = (Reply (VDict details), s1) ->
  lookup "outputs" details = Some (VList outs) ->
  Forall2 output_entry outs specs ->
  always_retrieves ->
  exists w',
    download_execution_outputs task path VNone w = (Ret tt, w')
    /\ forall name url,
         In (name, url) specs ->
         (starts_with_slash name = true -> In (url, name) (downloads (trace w')))
         /\ (starts_with_slash name = false ->
             In (url, path ++ name) (downloads (trace w'))
             \/ In (url, path ++ "/" ++ name) (downloads (trace w'))).
Proof.
  intros Hans Hout Hall Hret.
  destruct (download_execution_outputs_run task path VNone (fun _ => true)
              w details outs specs s1 Hans Hout Hall Hret) as [w' [Hrun [_ Hdl]]].
  { intros o spec w0 _ _. now apply output_is_ignored_no_pattern. }
  exists w'. split; [assumption |].
  intros name url Hin.
  rewrite filter_all in Hdl.
  assert (Hsaved : In (saved_as path (name, url)) (downloads (trace w'))).
  { rewrite Hdl. apply in_or_app. right. now apply In_saved_as. }
  unfold saved_as, posix_join in Hsaved. cbn [fst snd] in Hsaved.
  split; intros Hslash; rewrite Hslash in Hsaved; [assumption |].
  destruct (String.eqb path "" || ends_with_slash path); [now left | now right].
Qed.

(** ** Transport errors *)

(** X23.  The poll loop does not retry a details request that raises: the
    exception ends the loop, and [submit_execution] with it, right after the
    request. *)
Theorem poll_loop_request_error (fuel : nat) (h : ValohaiHook) (hdrs : http_headers)
    (period : Z) (eid : value) (w : world) (e : exn) (s' : server) :
  0 <= period ->
  headers h = Some hdrs ->
  poll_answer h hdrs period eid (srv w) = (Throws e, s') ->
  poll_loop (S fuel) h period eid w
  = (Raise e, record [Sleep period; Call (details_request h hdrs eid)] s' w).
Proof.
  intros Hp Hh Hans. cbn [poll_loop].
  assert (Hsleep : time_sleep period w
                   = (Ret tt, record [Sleep period] (elapse period (srv w)) w)).
  { unfold time_sleep. destruct (period <? 0) eqn:E; [lia | reflexivity]. }
  rewrite (bind_Ret _ _ _ _ _ Hsleep).
  unfold bind at 1. unfold get_execution_details.
  rewrite (bind_Ret _ _ _ _ _ (self_headers_Some _ _ _ Hh)).
  unfold poll_answer, details_request in Hans. unfold call.
  cbn [srv record]. rewrite Hans. now rewrite record_record.
Qed.

(** ** A hook with a token *)

(** X24.  With a [token] in the extra data of the connection, the
    constructor logs that it uses token authorization and sets the headers
    to the single header [Authorization: Token <token>]; every request of a
    later [submit_execution] carries exactly that header, to the host of the
    connection. *)
Theorem token_authorizes_every_request (conn : connection) (token : value)
    (w : world) :
  lookup "token" (extra_dejson conn) = Some token ->
  exists h,
    init conn w = (Ret h, record [LogInfo "Using token authorization."] (srv w) w)
    /\ host h = conn_host conn
    /\ headers h = Some [("Authorization", "Token " ++ py_str token)]
    /\ forall fuel project_name step inputs parameters environment commit branch
              tags period,
         adds (from_hook h [("Authorization", "Token " ++ py_str token)])
           (submit_execution fuel h project_name step inputs parameters environment
              commit branch tags period).
Proof.
  intros Htok.
  exists {| host := conn_host conn;
            headers := Some [("Authorization", "Token " ++ py_str token)] |}.
  split; [unfold init; now rewrite Htok |].
  split; [reflexivity |]. split; [reflexivity |].
  intros. apply adds_submit_execution.
  - intros hdrs' endpoint params Hh'. cbn in Hh' |- *.
    split; [congruence | now exists endpoint].
  - intros seconds. exact I.
  - intros msg. exact I.
  - intros hdrs' endpoint body Hh'. cbn in Hh' |- *.
    split; [congruence | now exists endpoint].
Qed.

(** ** Commits with missing fields *)

(** X25.  The [ref] of a commit is only read when its repository is the one
    looked for: the first commit of that repository that has no [ref] makes
    [get_latest_commit] fail with [KeyError('ref')], whereas commits of other
    repositories pass without one; a commit without [repository] fails with
    [KeyError('repository')], and a matching commit without [identifier] with
    [KeyError('identifier')]. *)
Theorem get_latest_commit_missing_key (h : ValohaiHook) (hdrs : http_headers)
    (project_id repository_id : value) (branch : string) (w w1 : world)
    (response : list (string * value)) (before after : list value)
    (m : list (string * value)) (s' : server) :
  headers h = Some hdrs ->
  get_repository_id h project_id w = (Ret repository_id, w1) ->
  respond (commits_request h hdrs) (srv w1) = (Reply (VDict response), s') ->
  lookup "results" response = Some (VList (before ++ VDict m :: after)) ->
  Forall (other_commit repository_id branch) before ->
  (lookup "repository" m = None ->
   get_latest_commit h project_id (VStr branch) w
   = (Raise (KeyError "repository"), record [Call (commits_request h hdrs)] s' w1))
  /\ (forall repository,
         lookup "repository" m = Some repository ->
         py_eq repository repository_id = true ->
         lookup "ref" m = None ->
         get_latest_commit h project_id (VStr branch) w
         = (Raise (KeyError "ref"), record [Call (commits_request h hdrs)] s' w1))
  /\ (forall repository,
         lookup "repository" m = Some repository ->
         py_eq repository repository_id = true ->
         lookup "ref" m = Some (VStr branch) ->
         lookup "identifier" m = None ->
         get_latest_commit h project_id (VStr branch) w
         = (Raise (KeyError "identifier"),
            record [Call (commits_request h hdrs)] s' w1)).
Proof.
  intros Hh Hrepo Hans Hres Hbefore.
  rewrite (get_latest_commit_run h hdrs project_id (VStr branch) repository_id
             w w1 response _ s' Hh Hrepo Hans Hres).
  rewrite (find_commit_skips _ _ _ _ _ Hbefore).
  cbn [find_commit]. unfold commit_matches, bind, subscript.
  split; [| split].
  - intros Hr. now rewrite Hr.
  - intros r Hr Heq Href. rewrite Hr. unfold ret at 1. now rewrite Heq, Href.
  - intros r Hr Heq Href Hid. rewrite Hr. unfold ret at 1. rewrite Heq, Href.
    unfold ret at 1.
    replace (py_eq (VStr branch) (VStr branch)) with true
      by (symmetry; now apply py_eq_VStr).
    now rewrite Hid.
Qed.

End Properties.

(** * The theorems at work on the demo runtime *)

Section Witnesses.
#[local] Existing Instance Demo.runtime.

Lemma demo_status (status : string) : carries_status (Demo.details status) status.
Proof. eexists. split; reflexivity. Defined.

Lemma poll_loop_fail_status_raises_witness :
  exists message,
    poll_loop 1 Demo.hook 30 (VStr "e1") (Demo.start ["crashed"]) =
      (Raise (AirflowException message),
       record [Sleep 30;
               Call (details_request Demo.hook [("Authorization", "Token secret")]
                       (VStr "e1"))]
         [] (Demo.start ["crashed"]))
    /\ contains message "crashed".
Proof.
  apply (poll_loop_fail_status_raises 0 Demo.hook [("Authorization", "Token secret")]
           30 (VStr "e1") (Demo.start ["crashed"]) (Demo.details "crashed") []
           "crashed").
  - lia.
  - reflexivity.
  - reflexivity.
  - apply demo_status.
  - cbn. tauto.
Defined.

Lemma poll_loop_success_returns_details_witness :
  poll_loop 1 Demo.hook 30 (VStr "e1") (Demo.start []) =
    (Ret (Demo.details "complete"),
     record [Sleep 30;
             Call (details_request Demo.hook [("Authorization", "Token secret")]
                     (VStr "e1"));
             LogInfo "Execution completed sucessfully"]
       [] (Demo.start [])).
Proof.
  apply (poll_loop_success_returns_details 0 Demo.hook
           [("Authorization", "Token secret")] 30 (VStr "e1") (Demo.start [])
           (Demo.details "complete") [] "complete").
  - lia.
  - reflexivity.
  - reflexivity.
  - apply demo_status.
  - cbn. tauto.
Defined.

Lemma poll_loop_unknown_status_raises_witness :
  poll_loop 1 Demo.hook 30 (VStr "e1") (Demo.start ["unknown"]) =
    (Raise (AirflowException "Found a not handled status: unknown"),
     record [Sleep 30;
             Call (details_request Demo.hook [("Authorization", "Token secret")]
                     (VStr "e1"))]
       [] (Demo.start ["unknown"])).
Proof.
  apply (poll_loop_unknown_status_raises 0 Demo.hook
           [("Authorization", "Token secret")] 30 (VStr "e1")
           (Demo.start ["unknown"]) (Demo.details "unknown") [] "unknown").
  - lia.
  - reflexivity.
  - reflexivity.
  - apply demo_status.
  - cbn. intuition discriminate.
  - cbn. intuition discriminate.
  - cbn. intuition discriminate.
Defined.

Lemma poll_loop_incomplete_polls_again_witness :
  (poll_loop 2 Demo.hook 30 (VStr "e1") (Demo.start ["queued"]) =
   poll_loop 1 Demo.hook 30 (VStr "e1")
     (record [Sleep 30;
              Call (details_request Demo.hook [("Authorization", "Token secret")]
                      (VStr "e1"));
              LogInfo "Incomplete execution with status: queued"]
        [] (Demo.start ["queued"])))
  /\ (exists w',
        poll_loop 3 Demo.hook 30 (VStr "e1")
          (Demo.start ["created"; "queued"; "started"; "stopping"]) = (OutOfFuel, w')
        /\ requests (trace w') =
           repeat (details_request Demo.hook [("Authorization", "Token secret")]
                     (VStr "e1")) 3).
Proof.
  destruct (poll_loop_incomplete_polls_again Demo.hook
              [("Authorization", "Token secret")] 30 (VStr "e1"))
    as [Hstep Hrun]; [lia | reflexivity |].
  split.
  - apply (Hstep 1%nat (Demo.start ["queued"]) (Demo.details "queued") [] "queued").
    + reflexivity.
    + apply demo_status.
    + cbn. tauto.
  - apply (Hrun 3%nat (Demo.start ["created"; "queued"; "started"; "stopping"])).
    intros k Hk.
    destruct k as [| [| [| k]]]; [| | | lia].
    + exists (Demo.details "created"), "created".
      split; [reflexivity | split; [apply demo_status | cbn; tauto]].
    + exists (Demo.details "queued"), "queued".
      split; [reflexivity | split; [apply demo_status | cbn; tauto]].
    + exists (Demo.details "started"), "started".
      split; [reflexivity | split; [apply demo_status | cbn; tauto]].
Defined.

Lemma submit_execution_commit_field_witness :
  (exists before rest,
      trace (snd (submit_execution 1 Demo.hook (VStr "b") (VStr "train") (VDict [])
                    (VDict []) VNone (VStr "c0") (VStr "master") VNone 30
                    (Demo.start []))) =
      (before
         ++ [Call (Post "https://app.valohai.test/api/v0/executions/"
                     [("Authorization", "Token secret")]
                     (Some (VDict [("project", VInt 2);
                                   ("commit", VStr "c2");
                                   ("step", VStr "train");
                                   ("inputs", VDict []);
                                   ("parameters", VDict []);
                                   ("environment", VNone)])))]
         ++ rest)%list)
  /\ (exists before rest,
         trace (snd (submit_execution 1 Demo.hook (VStr "b") (VStr "train") (VDict [])
                       (VDict []) VNone (VStr "c0") (VStr "") VNone 30
                       (Demo.start []))) =
         (before
            ++ [Call (Post "https://app.valohai.test/api/v0/executions/"
                        [("Authorization", "Token secret")]
                        (Some (VDict [("project", VInt 2);
                                      ("commit", VStr "c0");
                                      ("step", VStr "train");
                                      ("inputs", VDict []);
                                      ("parameters", VDict []);
                                      ("environment", VNone)])))]
            ++ rest)%list).
Proof.
  split.
  - destruct (proj1 (submit_execution_commit_field 1 Demo.hook (VStr "b") (VStr "train")
                       (VDict []) (VDict []) VNone (VStr "c0") (VStr "master") VNone 30
                       (Demo.start []))
                (VInt 2) _ _ _ (VStr "c2") _ eq_refl eq_refl eq_refl eq_refl)
      as [hdrs [rest [Hh [_ Htrace]]]].
    injection Hh as <-.
    eexists (_ ++ [_])%list. exists rest. rewrite Htrace.
    rewrite <- app_assoc. reflexivity.
  - destruct (proj2 (submit_execution_commit_field 1 Demo.hook (VStr "b") (VStr "train")
                       (VDict []) (VDict []) VNone (VStr "c0") (VStr "") VNone 30
                       (Demo.start []))
                (VInt 2) _ eq_refl eq_refl)
      as [hdrs [rest [Hh Htrace]]].
    injection Hh as <-.
    eexists. exists rest. rewrite Htrace. reflexivity.
Defined.

Lemma get_project_id_first_match_witness :
  get_project_id Demo.hook (VStr "b") (Demo.start []) =
    (Ret (VInt 2),
     record [Call (projects_request Demo.hook [("Authorization", "Token secret")])]
       [] (Demo.start []))
  /\ get_project_id Demo.hook (VStr "c") (Demo.start []) =
       (Ret VNone,
        record [Call (projects_request Demo.hook [("Authorization", "Token secret")])]
          [] (Demo.start [])).
Proof.
  split.
  - apply (proj1 (get_project_id_first_match Demo.hook
                    [("Authorization", "Token secret")] "b" (Demo.start []) _ _ []
                    eq_refl eq_refl eq_refl)
             [VDict [("id", VInt 1); ("name", VStr "a")]] []
             [("id", VInt 2); ("name", VStr "b")] (VInt 2)).
    + reflexivity.
    + constructor; [| constructor].
      eexists; eexists. split; [reflexivity | split; [reflexivity | discriminate]].
    + reflexivity.
    + reflexivity.
  - apply (proj2 (get_project_id_first_match Demo.hook
                    [("Authorization", "Token secret")] "c" (Demo.start []) _ _ []
                    eq_refl eq_refl eq_refl)).
    repeat constructor;
      (eexists; eexists; split; [reflexivity | split; [reflexivity | discriminate]]).
Defined.

Lemma get_latest_commit_first_match_witness :
  get_latest_commit Demo.hook (VInt 2) (VStr "master") (Demo.start []) =
    (Ret (VStr "c2"),
     record [Call (commits_request Demo.hook [("Authorization", "Token secret")])] []
       (record [Call (Get "https://app.valohai.test/api/v0/repositories/"
                        [("Authorization", "Token secret")] [("limit", VInt 10000)])]
          [] (Demo.start [])))
  /\ get_latest_commit Demo.hook (VInt 2) (VStr "develop") (Demo.start []) =
       (Ret VNone,
        record [Call (commits_request Demo.hook [("Authorization", "Token secret")])] []
          (record [Call (Get "https://app.valohai.test/api/v0/repositories/"
                           [("Authorization", "Token secret")] [("limit", VInt 10000)])]
             [] (Demo.start []))).
Proof.
  split.
  - apply (proj1 (get_latest_commit_first_match Demo.hook
                    [("Authorization", "Token secret")] (VInt 2) (VInt 8) "master"
                    (Demo.start []) _ _ _ [] eq_refl eq_refl eq_refl eq_refl)
             [VDict [("repository", VInt 7); ("ref", VStr "master");
                     ("identifier", VStr "c3")]]
             [VDict [("repository", VInt 8); ("ref", VStr "master");
                     ("identifier", VStr "c1")]]
             [("repository", VInt 8); ("ref", VStr "master"); ("identifier", VStr "c2")]
             (VInt 8) (VStr "c2")).
    + reflexivity.
    + constructor; [| constructor].
      eexists; eexists. split; [reflexivity | split; [reflexivity | now left]].
    + reflexivity.
    + reflexivity.
    + reflexivity.
    + reflexivity.
  - apply (proj2 (get_latest_commit_first_match Demo.hook
                    [("Authorization", "Token secret")] (VInt 2) (VInt 8) "develop"
                    (Demo.start []) _ _ _ [] eq_refl eq_refl eq_refl eq_refl)).
    constructor; [| constructor; [| constructor; [| constructor]]].
    + eexists; eexists. split; [reflexivity | split; [reflexivity | now left]].
    + eexists; eexists. split; [reflexivity | split; [reflexivity | right]].
      eexists. split; [reflexivity | discriminate].
    + eexists; eexists. split; [reflexivity | split; [reflexivity | right]].
      eexists. split; [reflexivity | discriminate].
Defined.

Lemma demo_outputs :
  Forall2 output_entry Demo.outputs
    [("model.pkl", VStr "s3://bucket/model.pkl"); ("log.txt", VStr "s3://bucket/log.txt")].
Proof.
  repeat constructor; (eexists; split; [reflexivity | split; reflexivity]).
Defined.

Lemma demo_always_retrieves : always_retrieves.
Proof. intros url filename s. exists VNone, s. reflexivity. Defined.

Lemma download_execution_outputs_filters_witness :
  exists w',
    download_execution_outputs (VStr "train") "/tmp" (VStr "^model") (Demo.start [])
    = (Ret tt, w')
    /\ downloads (trace w') = [(VStr "s3://bucket/model.pkl", "/tmp/model.pkl")].
Proof.
  apply (proj2 (proj2 (download_execution_outputs_filters (VStr "train") "/tmp"
                         (Demo.start []) _ Demo.outputs _ [] eq_refl eq_refl
                         demo_outputs demo_always_retrieves))
           (VStr "s3://bucket/model.pkl") (VStr "s3://bucket/log.txt")).
  - reflexivity.
  - reflexivity.
  - reflexivity.
Defined.

Lemma download_execution_outputs_empty_pattern_witness :
  exists w',
    download_execution_outputs (VStr "train") "/tmp" (VStr "") (Demo.start [])
    = (Ret tt, w')
    /\ trace w' =
       [Call (XComPull (VStr "train"));
        Call (UrlRetrieve (VStr "s3://bucket/model.pkl") "/tmp/model.pkl");
        LogInfo "Downloaded output: model.pkl";
        Call (UrlRetrieve (VStr "s3://bucket/log.txt") "/tmp/log.txt");
        LogInfo "Downloaded output: log.txt"]
    /\ downloads (trace w') =
       [(VStr "s3://bucket/model.pkl", "/tmp/model.pkl");
        (VStr "s3://bucket/log.txt", "/tmp/log.txt")].
Proof.
  apply (proj2 download_execution_outputs_empty_pattern (VStr "train") "/tmp"
           (Demo.start []) _ Demo.outputs _ [] eq_refl eq_refl
           demo_outputs demo_always_retrieves).
Defined.

Lemma no_token_no_request_witness :
  exists h,
    init Demo.no_token (Demo.start []) = (Ret h, Demo.start [])
    /\ headers h = None
    /\ get_project_id h (VStr "b") (Demo.start [])
       = (Raise (AttributeError "headers"), Demo.start [])
    /\ fst (submit_execution 5 h (VStr "b") (VStr "train") (VDict []) (VDict []) VNone
              (VStr "c0") (VStr "master") VNone 30 (Demo.start []))
       = Raise (AttributeError "headers").
Proof.
  destruct (no_token_no_request Demo.no_token (Demo.start []) eq_refl)
    as [h [Hinit [Hh [Hproject [_ [_ [_ [_ [_ Hsubmit]]]]]]]]].
  exists h. split; [exact Hinit |]. split; [exact Hh |]. split; [apply Hproject |].
  destruct (Hsubmit 5%nat (VStr "b") (VStr "train") (VDict []) (VDict []) VNone
              (VStr "c0") (VStr "master") VNone 30 (Demo.start [])) as [Hrun _].
  now rewrite Hrun.
Defined.

(** Whole runs of [submit_execution] against the demo server. *)

Example submit_execution_completes :
  fst (submit_execution 3 Demo.hook (VStr "b") (VStr "train") (VDict []) (VDict [])
         VNone VNone (VStr "master") (VList [VStr "nightly"]) 30
         (Demo.start ["queued"; "started"]))
  = Ret (Demo.details "complete").
Proof. vm_compute. reflexivity. Qed.

Example submit_execution_fails :
  fst (submit_execution 3 Demo.hook (VStr "b") (VStr "train") (VDict []) (VDict [])
         VNone (VStr "c0") VNone VNone 30 (Demo.start ["queued"; "crashed"]))
  = Raise (AirflowException "Execution failed with status: crashed").
Proof. vm_compute. reflexivity. Qed.

Example submit_execution_still_polling :
  fst (submit_execution 2 Demo.hook (VStr "b") (VStr "train") (VDict []) (VDict [])
         VNone (VStr "c0") VNone VNone 30
         (Demo.start ["created"; "queued"; "started"]))
  = OutOfFuel.
Proof. vm_compute. reflexivity. Qed.

Example submit_execution_unknown_project :
  requests (trace (snd (submit_execution 1 Demo.hook (VStr "c") (VStr "train")
                          (VDict []) (VDict []) VNone (VStr "c0") VNone VNone 30
                          (Demo.start []))))
  = [projects_request Demo.hook [("Authorization", "Token secret")];
     Post "https://app.valohai.test/api/v0/executions/"
       [("Authorization", "Token secret")]
       (Some (execution_payload VNone (VStr "c0") (VStr "train") (VDict [])
                (VDict []) VNone));
     details_request Demo.hook [("Authorization", "Token secret")] (VStr "e1")].
Proof. vm_compute. reflexivity. Qed.

(** Witnesses of the further properties on the demo server. *)

Lemma get_repository_id_first_match_witness :
  get_repository_id Demo.hook (VInt 2) (Demo.start []) =
    (Ret (VInt 8),
     record [Call (repositories_request Demo.hook [("Authorization", "Token secret")])]
       [] (Demo.start []))
  /\ get_repository_id Demo.hook (VInt 3) (Demo.start []) =
       (Ret VNone,
        record [Call (repositories_request Demo.hook
                        [("Authorization", "Token secret")])]
          [] (Demo.start [])).
Proof.
  split.
  - apply (proj1 (get_repository_id_first_match Demo.hook
                    [("Authorization", "Token secret")] (VInt 2) (Demo.start [])
                    _ _ [] eq_refl eq_refl eq_refl)
             [VDict [("id", VInt 7); ("project", VDict [("id", VInt 1)])]] []
             [("id", VInt 8); ("project", VDict [("id", VInt 2)])]
             [("id", VInt 2)] (VInt 2) (VInt 8)).
    + reflexivity.
    + constructor; [| constructor].
      do 3 eexists. split; [reflexivity | split; [reflexivity | split; reflexivity]].
    + reflexivity.
    + reflexivity.
    + reflexivity.
    + reflexivity.
  - apply (proj2 (get_repository_id_first_match Demo.hook
                    [("Authorization", "Token secret")] (VInt 3) (Demo.start [])
                    _ _ [] eq_refl eq_refl eq_refl)).
    repeat constructor;
      (do 3 eexists; split; [reflexivity | split; [reflexivity | split; reflexivity]]).
Defined.

Lemma demo_no_project_c :
  Forall (other_project "c")
    [VDict [("id", VInt 1); ("name", VStr "a")];
     VDict [("id", VInt 2); ("name", VStr "b")]].
Proof.
  repeat constructor;
    (eexists; eexists; split; [reflexivity | split; [reflexivity | discriminate]]).
Defined.

Lemma submit_execution_unknown_project_posts_none_witness :
  exists rest,
    trace (snd (submit_execution 1 Demo.hook (VStr "c") (VStr "train") (VDict [])
                  (VDict []) VNone (VStr "c0") VNone VNone 30 (Demo.start []))) =
    ([Call (projects_request Demo.hook [("Authorization", "Token secret")]);
      Call (Post "https://app.valohai.test/api/v0/executions/"
              [("Authorization", "Token secret")]
              (Some (VDict [("project", VNone);
                            ("commit", VStr "c0");
                            ("step", VStr "train");
                            ("inputs", VDict []);
                            ("parameters", VDict []);
                            ("environment", VNone)])))]
       ++ rest)%list.
Proof.
  apply (submit_execution_unknown_project_posts_none 1 Demo.hook
           [("Authorization", "Token secret")] "c" (VStr "train") (VDict [])
           (VDict []) VNone (VStr "c0") VNone VNone 30 (Demo.start []) _ _ []
           eq_refl eq_refl eq_refl eq_refl demo_no_project_c).
Defined.

Lemma demo_no_commit_on_develop :
  Forall (other_commit (VInt 8) "develop")
    [VDict [("repository", VInt 7); ("ref", VStr "master"); ("identifier", VStr "c3")];
     VDict [("repository", VInt 8); ("ref", VStr "master"); ("identifier", VStr "c2")];
     VDict [("repository", VInt 8); ("ref", VStr "master"); ("identifier", VStr "c1")]].
Proof.
  constructor; [| constructor; [| constructor; [| constructor]]].
  - eexists; eexists. split; [reflexivity | split; [reflexivity | now left]].
  - eexists; eexists. split; [reflexivity | split; [reflexivity | right]].
    eexists. split; [reflexivity | discriminate].
  - eexists; eexists. split; [reflexivity | split; [reflexivity | right]].
    eexists. split; [reflexivity | discriminate].
Defined.

Lemma submit_execution_branch_without_commit_witness :
  exists before rest,
    trace (snd (submit_execution 1 Demo.hook (VStr "b") (VStr "train") (VDict [])
                  (VDict []) VNone (VStr "c0") (VStr "develop") VNone 30
                  (Demo.start []))) =
    (before
       ++ [Call (Post "https://app.valohai.test/api/v0/executions/"
                   [("Authorization", "Token secret")]
                   (Some (VDict [("project", VInt 2);
                                 ("commit", VNone);
                                 ("step", VStr "train");
                                 ("inputs", VDict []);
                                 ("parameters", VDict []);
                                 ("environment", VNone)])))]
       ++ rest)%list.
Proof.
  assert (Hbranch : "develop" <> "") by discriminate.
  destruct (submit_execution_branch_without_commit 1 Demo.hook
              [("Authorization", "Token secret")] (VStr "b") (VStr "train") (VDict [])
              (VDict []) VNone (VStr "c0") VNone "develop" 30 (Demo.start []) _ _
              (VInt 2) _ (VInt 8) [] [] _ _
              eq_refl Hbranch eq_refl eq_refl eq_refl eq_refl eq_refl
              demo_no_commit_on_develop) as [rest Htrace].
  eexists (_ ++ [_; _])%list. exists rest. rewrite Htrace.
  rewrite <- app_assoc. reflexivity.
Defined.

Lemma demo_incomplete_at (k : nat) (script : list string) (status : string) :
  nth_error script k = Some status ->
  In status incomplete_execution_statuses ->
  incomplete_at k Demo.hook [("Authorization", "Token secret")] 30 (VStr "e1") script.
Proof.
  revert script. induction k as [| k IH]; intros [| s script] Hnth Hin;
    try discriminate.
  - injection Hnth as ->. exists (Demo.details status), status.
    split; [reflexivity | split; [apply demo_status | assumption]].
  - apply (IH script Hnth Hin).
Defined.

Lemma poll_loop_returns_once_complete_witness :
  exists w',
    poll_loop 5 Demo.hook 30 (VStr "e1") (Demo.start ["queued"; "started"])
    = (Ret (Demo.details "complete"), w')
    /\ srv w' = []
    /\ requests (trace w') =
       repeat (details_request Demo.hook [("Authorization", "Token secret")]
                 (VStr "e1")) 3.
Proof.
  apply (poll_loop_returns_once_complete Demo.hook [("Authorization", "Token secret")]
           30 (VStr "e1") 2 (Demo.start ["queued"; "started"])
           (Demo.details "complete") [] "complete").
  - lia.
  - reflexivity.
  - intros k Hk. destruct k as [| [| k]]; [| | lia].
    + apply (demo_incomplete_at 0 _ "queued"); [reflexivity | cbn; tauto].
    + apply (demo_incomplete_at 1 _ "started"); [reflexivity | cbn; tauto].
  - reflexivity.
  - apply demo_status.
  - cbn. tauto.
  - lia.
Defined.

Lemma poll_loop_raises_once_failed_witness :
  exists w',
    poll_loop 2 Demo.hook 30 (VStr "e1") (Demo.start ["queued"; "crashed"; "queued"])
    = (Raise (AirflowException "Execution failed with status: crashed"), w')
    /\ srv w' = ["queued"]
    /\ requests (trace w') =
       repeat (details_request Demo.hook [("Authorization", "Token secret")]
                 (VStr "e1")) 2.
Proof.
  apply (poll_loop_raises_once_failed Demo.hook [("Authorization", "Token secret")]
           30 (VStr "e1") 1 (Demo.start ["queued"; "crashed"; "queued"])
           (Demo.details "crashed") ["queued"] "crashed").
  - lia.
  - reflexivity.
  - intros k Hk. destruct k as [| k]; [| lia].
    apply (demo_incomplete_at 0 _ "queued"); [reflexivity | cbn; tauto].
  - reflexivity.
  - apply demo_status.
  - cbn. tauto.
  - lia.
Defined.

Lemma submit_execution_requests_from_hook_witness :
  exists added,
    trace (snd (submit_execution 3 Demo.hook (VStr "b") (VStr "train") (VDict [])
                  (VDict []) VNone VNone (VStr "master") (VList [VStr "nightly"]) 30
                  (Demo.start ["queued"]))) = ([] ++ added)%list
    /\ Forall (from_hook Demo.hook [("Authorization", "Token secret")]) added.
Proof.
  apply (submit_execution_requests_from_hook 3 Demo.hook
           [("Authorization", "Token secret")] (VStr "b") (VStr "train") (VDict [])
           (VDict []) VNone VNone (VStr "master") (VList [VStr "nightly"]) 30 eq_refl
           (Demo.start ["queued"])).
Defined.

Lemma poll_loop_sleeps_before_each_request_witness :
  exists added,
    trace (snd (poll_loop 3 Demo.hook 30 (VStr "e1") (Demo.start ["queued"])))
    = ([] ++ added)%list
    /\ polling_trace 30
         (details_request Demo.hook [("Authorization", "Token secret")] (VStr "e1"))
         added.
Proof.
  apply (poll_loop_sleeps_before_each_request Demo.hook
           [("Authorization", "Token secret")] 30 (VStr "e1") eq_refl 3
           (Demo.start ["queued"])).
Defined.

Lemma token_authorizes_every_request_witness :
  exists h,
    init {| conn_host := "app.valohai.test";
            extra_dejson := [("token", VStr "secret")] |} (Demo.start [])
    = (Ret h, record [LogInfo "Using token authorization."] [] (Demo.start []))
    /\ headers h = Some [("Authorization", "Token secret")].
Proof.
  destruct (token_authorizes_every_request
              {| conn_host := "app.valohai.test";
                 extra_dejson := [("token", VStr "secret")] |}
              (VStr "secret") (Demo.start []) eq_refl)
    as [h [Hinit [_ [Hh _]]]].
  exists h. split; assumption.
Defined.

Lemma download_execution_outputs_only_retrieves_outputs_witness :
  exists rest,
    trace (snd (download_execution_outputs (VStr "train") "/tmp" (VStr "^model")
                  (Demo.start [])))
    = ([] ++ Call (XComPull (VStr "train")) :: rest)%list
    /\ Forall (retrieval_of "/tmp" Demo.outputs) rest.
Proof.
  destruct (download_execution_outputs_only_retrieves_outputs (VStr "train") "/tmp"
              (VStr "^model") (Demo.start [])) as [rest [Htrace [_ Hlisted]]].
  exists rest. split; [exact Htrace |].
  apply (Hlisted _ Demo.outputs [] eq_refl eq_refl).
Defined.

End Witnesses.

Section ScriptedWitnesses.
#[local] Existing Instance Scripted.runtime.

Lemma get_project_id_missing_key_witness :
  fst (get_project_id Scripted.hook (VStr "b")
         (Scripted.start
            [Reply (Scripted.listing
                      [VDict [("id", VInt 1); ("name", VStr "a")];
                       VDict [("id", VInt 2)];
                       VDict [("id", VInt 3); ("name", VStr "b")]])]))
  = Raise (KeyError "name").
Proof.
  assert (Hbefore : Forall (other_project "b")
                      [VDict [("id", VInt 1); ("name", VStr "a")]]).
  { repeat constructor.
    eexists; eexists. split; [reflexivity | split; [reflexivity | discriminate]]. }
  now rewrite (proj1 (get_project_id_missing_key Scripted.hook Scripted.auth "b"
            (Scripted.start
               [Reply (Scripted.listing [VDict [("id", VInt 1); ("name", VStr "a")];
                        VDict [("id", VInt 2)];
                        VDict [("id", VInt 3); ("name", VStr "b")]])])
            _
                        [VDict [("id", VInt 1); ("name", VStr "a")]]
                        [VDict [("id", VInt 3); ("name", VStr "b")]]
                        [("id", VInt 2)] []
                        eq_refl eq_refl eq_refl Hbefore) eq_refl).
Defined.

Lemma listing_without_results_witness :
  get_project_id Scripted.hook (VStr "b")
    (Scripted.start [Reply (VDict [("detail", VStr "Invalid token.")])])
  = (Raise (KeyError "results"),
     record [Call (projects_request Scripted.hook Scripted.auth)] []
       (Scripted.start [Reply (VDict [("detail", VStr "Invalid token.")])])).
Proof.
  apply (proj1 (listing_without_results Scripted.hook Scripted.auth
                  [("detail", VStr "Invalid token.")] eq_refl eq_refl)
           (VStr "b")
            (Scripted.start
               [Reply (VDict [("detail", VStr "Invalid token.")])]) [] eq_refl).
Defined.

Lemma submit_execution_polls_created_execution_witness :
  exists w',
    submit_execution 2 Scripted.hook (VStr "b") (VStr "train") (VDict []) (VDict [])
      VNone (VStr "c0") VNone VNone 30
      (Scripted.start [Reply (Scripted.listing [VDict [("id", VInt 2); ("name", VStr "b")]]);
                       Reply Scripted.started;
                       Reply (Scripted.status "complete")])
    = poll_loop 2 Scripted.hook 30 (VStr "e1") w'.
Proof.
  eexists.
  apply (submit_execution_polls_created_execution 2 Scripted.hook Scripted.auth
           (VStr "b") (VStr "train") (VDict []) (VDict []) VNone (VStr "c0") VNone
           VNone 30
            (Scripted.start
               [Reply (Scripted.listing [VDict [("id", VInt 2); ("name", VStr "b")]]);
                Reply Scripted.started;
                Reply (Scripted.status "complete")]) _ (VInt 2) eq_refl eq_refl eq_refl
           _ _ (VStr "e1") _ _ eq_refl eq_refl eq_refl eq_refl eq_refl).
Defined.

Lemma poll_loop_details_without_status_witness :
  fst (poll_loop 1 Scripted.hook 30 (VStr "e1")
         (Scripted.start [Reply (VDict [("id", VStr "e1")])]))
  = Raise (KeyError "status")
  /\ fst (poll_loop 1 Scripted.hook 30 (VStr "e1") (Scripted.start [Reply VNone]))
     = Raise TypeError.
Proof.
  assert (Hp : 0 <= 30) by lia.
  split.
  - now rewrite (proj1 (poll_loop_details_without_status 0 Scripted.hook Scripted.auth
                          30 (VStr "e1")
            (Scripted.start
               [Reply (VDict [("id", VStr "e1")])]) _ [] Hp eq_refl eq_refl)
                   [("id", VStr "e1")] eq_refl eq_refl).
  - assert (Hnd : forall m, VNone <> VDict m) by (intros m; discriminate).
    now rewrite (proj2 (poll_loop_details_without_status 0 Scripted.hook Scripted.auth
                          30 (VStr "e1") (Scripted.start [Reply VNone]) _ [] Hp eq_refl eq_refl)
                   Hnd).
Defined.

Lemma poll_loop_status_not_a_string_witness :
  fst (poll_loop 1 Scripted.hook 30 (VStr "e1")
         (Scripted.start [Reply (VDict [("status", VNone)])]))
  = Raise (AirflowException "Found a not handled status: None")
  /\ fst (poll_loop 1 Scripted.hook 30 (VStr "e1")
            (Scripted.start [Reply (VDict [("status", VList [VStr "complete"])])]))
     = Raise TypeError.
Proof.
  assert (Hp : 0 <= 30) by lia.
  split.
  - assert (Hns : forall s, VNone <> VStr s) by (intros s; discriminate).
    now rewrite (poll_loop_status_not_a_string 0 Scripted.hook Scripted.auth 30
                   (VStr "e1") (Scripted.start [Reply (VDict [("status", VNone)])]) _ [] VNone
                   Hp eq_refl eq_refl eq_refl Hns).
  - assert (Hns : forall s, VList [VStr "complete"] <> VStr s)
      by (intros s; discriminate).
    now rewrite (poll_loop_status_not_a_string 0 Scripted.hook Scripted.auth 30
                   (VStr "e1")
            (Scripted.start
               [Reply (VDict [("status", VList [VStr "complete"])])])
                       _ [] (VList [VStr "complete"])
                   Hp eq_refl eq_refl eq_refl Hns).
Defined.

Lemma download_execution_outputs_nothing_to_do_witness :
  download_execution_outputs (VStr "train") "/tmp" (VInt 5)
    (Scripted.start [Reply VNone])
  = (Raise TypeError,
     record [Call (XComPull (VStr "train"))] [] (Scripted.start [Reply VNone]))
  /\ download_execution_outputs (VStr "train") "/tmp" (VInt 5)
       (Scripted.start [Reply (VDict [("outputs", VList [])])])
     = (Ret tt,
        record [Call (XComPull (VStr "train"))] []
          (Scripted.start [Reply (VDict [("outputs", VList [])])])).
Proof.
  split.
  - apply (proj1 (download_execution_outputs_nothing_to_do (VStr "train") "/tmp"
                    (VInt 5) (Scripted.start [Reply VNone]) VNone [] eq_refl) eq_refl).
  - apply (proj2 (proj2 (download_execution_outputs_nothing_to_do (VStr "train")
                           "/tmp" (VInt 5)
            (Scripted.start
               [Reply (VDict [("outputs", VList [])])]) _ [] eq_refl))
             [("outputs", VList [])] eq_refl eq_refl).
Defined.

Lemma download_execution_outputs_bad_pattern_witness :
  download_execution_outputs (VStr "train") "/tmp" (VStr "(")
    (Scripted.start
       [Reply (VDict [("outputs",
                       VList [VDict [("name", VStr "a.txt"); ("url", VStr "u1")]])])])
  = (Raise ReError,
     record [Call (XComPull (VStr "train"))] []
       (Scripted.start
          [Reply (VDict [("outputs",
                          VList [VDict [("name", VStr "a.txt");
                                        ("url", VStr "u1")]])])])).
Proof.
  apply (proj1 (download_execution_outputs_bad_pattern (VStr "train") "/tmp" (VStr "(")
            (Scripted.start
               [Reply (VDict [("outputs", VList
                   [VDict [("name", VStr "a.txt"); ("url", VStr "u1")]])])])
                      _ [("name", VStr "a.txt"); ("url", VStr "u1")]
                  [] "a.txt" [] eq_refl eq_refl eq_refl eq_refl)
           "(" eq_refl eq_refl).
Defined.

Lemma poll_loop_request_error_witness :
  poll_loop 4 Scripted.hook 30 (VStr "e1")
    (Scripted.start [Throws (ExternalError "connection reset")])
  = (Raise (ExternalError "connection reset"),
     record [Sleep 30; Call (details_request Scripted.hook Scripted.auth (VStr "e1"))]
       [] (Scripted.start [Throws (ExternalError "connection reset")])).
Proof.
  assert (Hp : 0 <= 30) by lia.
  apply (poll_loop_request_error 3 Scripted.hook Scripted.auth 30 (VStr "e1")
            (Scripted.start
               [Throws (ExternalError "connection reset")])
               (ExternalError "connection reset") [] Hp eq_refl eq_refl).
Defined.

Lemma get_latest_commit_missing_key_witness :
  fst (get_latest_commit Scripted.hook (VInt 2) (VStr "master")
         (Scripted.start
            [Reply (Scripted.listing
                      [VDict [("id", VInt 8); ("project", VDict [("id", VInt 2)])]]);
             Reply (Scripted.listing
                      [VDict [("repository", VInt 7)];
                       VDict [("repository", VInt 8); ("identifier", VStr "c2")]])]))
  = Raise (KeyError "ref").
Proof.
  assert (Hbefore : Forall (other_commit (VInt 8) "master")
                      [VDict [("repository", VInt 7)]]).
  { repeat constructor.
    eexists; eexists. split; [reflexivity | split; [reflexivity | now left]]. }
  now rewrite (proj1 (proj2 (get_latest_commit_missing_key Scripted.hook Scripted.auth
                               (VInt 2) (VInt 8) "master"
            (Scripted.start
               [Reply (Scripted.listing
                   [VDict [("id", VInt 8); ("project", VDict [("id", VInt 2)])]]);
                Reply (Scripted.listing [VDict [("repository", VInt 7)];
                        VDict [("repository", VInt 8); ("identifier", VStr "c2")]])])
                                   _ _
                               [VDict [("repository", VInt 7)]] []
                               [("repository", VInt 8); ("identifier", VStr "c2")] []
                               eq_refl eq_refl eq_refl eq_refl Hbefore))
                 (VInt 8) eq_refl eq_refl eq_refl).
Defined.

Lemma submit_execution_tags_before_polling_witness :
  (exists w',
      submit_execution 2 Scripted.hook (VStr "b") (VStr "train") (VDict []) (VDict [])
        VNone (VStr "c0") (VStr "master") (VList [VStr "nightly"]) 30
        (Scripted.start
           (Scripted.resolved_on_branch
              ++ [Reply Scripted.started; Reply (VDict []);
                  Reply (Scripted.status "complete")]))
      = poll_loop 2 Scripted.hook 30 (VStr "e1") w')
  /\ fst (submit_execution 2 Scripted.hook (VStr "b") (VStr "train") (VDict [])
            (VDict []) VNone (VStr "c0") (VStr "master") (VList [VStr "nightly"]) 30
            (Scripted.start
               (Scripted.resolved_on_branch
                  ++ [Reply Scripted.started; Throws (ExternalError "timeout")])))
     = Raise (ExternalError "timeout").
Proof.
  split.
  - eexists.
    apply (proj1 (submit_execution_tags_before_polling Scripted.hook Scripted.auth
                    (VStr "b") (VStr "train") (VDict []) (VDict []) VNone (VStr "c0")
                    (VStr "master") (VList [VStr "nightly"]) 30
                    (Scripted.start
                       (Scripted.resolved_on_branch
                          ++ [Reply Scripted.started; Reply (VDict []);
                              Reply (Scripted.status "complete")]))
                    _ _ (VInt 2) (VStr "c2") eq_refl eq_refl eq_refl
                    2%nat _ _ (VStr "e1") _ _
                    eq_refl eq_refl eq_refl eq_refl eq_refl)
             (VDict []) _ eq_refl).
  - now rewrite (proj2 (submit_execution_tags_before_polling Scripted.hook
                          Scripted.auth (VStr "b") (VStr "train") (VDict [])
                          (VDict []) VNone (VStr "c0") (VStr "master")
                          (VList [VStr "nightly"]) 30
                          (Scripted.start
                             (Scripted.resolved_on_branch
                                ++ [Reply Scripted.started;
                                    Throws (ExternalError "timeout")]))
                          _ _ (VInt 2) (VStr "c2") eq_refl eq_refl eq_refl
                          2%nat _ _ (VStr "e1") _ _
                          eq_refl eq_refl eq_refl eq_refl eq_refl)
                   (ExternalError "timeout") _ eq_refl).
Defined.

Lemma submit_execution_incomplete_answer_witness :
  fst (submit_execution 2 Scripted.hook (VStr "b") (VStr "train") (VDict []) (VDict [])
         VNone (VStr "c0") (VStr "master") VNone 30
         (Scripted.start
            (Scripted.resolved_on_branch
               ++ [Reply (VDict [("detail", VStr "Not found.")])])))
  = Raise (KeyError "id")
  /\ fst (submit_execution 2 Scripted.hook (VStr "b") (VStr "train") (VDict [])
            (VDict []) VNone (VStr "c0") VNone VNone 30
            (Scripted.start
               [Reply (Scripted.listing [VDict [("id", VInt 2); ("name", VStr "b")]]);
                Reply (VDict [("id", VStr "e1")])]))
     = Raise (KeyError "urls").
Proof.
  split.
  - now rewrite (proj1 (submit_execution_incomplete_answer Scripted.hook Scripted.auth
                          (VStr "b") (VStr "train") (VDict []) (VDict []) VNone
                          (VStr "c0") (VStr "master") VNone 30
                          (Scripted.start
                             (Scripted.resolved_on_branch
                                ++ [Reply (VDict [("detail", VStr "Not found.")])]))
                          _ _ (VInt 2) (VStr "c2") eq_refl eq_refl eq_refl
                          2%nat _ _ eq_refl) eq_refl).
  - now rewrite (proj2 (submit_execution_incomplete_answer Scripted.hook Scripted.auth
                          (VStr "b") (VStr "train") (VDict []) (VDict []) VNone
                          (VStr "c0") VNone VNone 30
                          (Scripted.start
                             [Reply (Scripted.listing
                                       [VDict [("id", VInt 2); ("name", VStr "b")]]);
                              Reply (VDict [("id", VStr "e1")])])
                          _ _ (VInt 2) (VStr "c0") eq_refl eq_refl eq_refl
                          2%nat _ _ eq_refl) (VStr "e1") eq_refl eq_refl).
Defined.

Lemma submit_execution_negative_period_witness :
  fst (submit_execution 1 Scripted.hook (VStr "b") (VStr "train") (VDict []) (VDict [])
         VNone (VStr "c0") (VStr "master") (VList [VStr "nightly"]) (-1)
         (Scripted.start
            (Scripted.resolved_on_branch
               ++ [Reply Scripted.started; Reply (VDict []);
                   Reply (Scripted.status "complete")])))
  = Raise ValueError.
Proof.
  assert (Hneg : -9223372037 < -1 < 0) by lia.
  destruct (submit_execution_negative_period Scripted.hook Scripted.auth
              (VStr "b") (VStr "train") (VDict []) (VDict []) VNone (VStr "c0")
              (VStr "master") (VList [VStr "nightly"]) (-1)
              (Scripted.start
                 (Scripted.resolved_on_branch
                    ++ [Reply Scripted.started; Reply (VDict []);
                        Reply (Scripted.status "complete")]))
              _ _ (VInt 2) (VStr "c2") eq_refl eq_refl eq_refl
              0%nat _ _ (VStr "e1") _ _ _
              Hneg eq_refl eq_refl eq_refl eq_refl eq_refl) as [Hrun _].
  now rewrite Hrun.
Defined.

Lemma download_execution_outputs_stops_at_failure_witness :
  exists w',
    download_execution_outputs (VStr "train") "/tmp" (VStr "^a")
      (Scripted.start
         [Reply (VDict [("outputs",
                         VList [VDict [("name", VStr "a.txt"); ("url", VStr "u1")];
                                VDict [("name", VStr "ab.txt"); ("url", VStr "u2")];
                                VDict [("name", VStr "ac.txt"); ("url", VStr "u3")]])]);
          Reply VNone;
          Throws (ExternalError "timeout");
          Reply VNone])
    = (Raise (ExternalError "timeout"), w')
    /\ downloads (trace w') = [(VStr "u1", "/tmp/a.txt"); (VStr "u2", "/tmp/ab.txt")].
Proof.
  eexists. split.
  - apply (download_execution_outputs_stops_at_failure (VStr "train") "/tmp"
             (VStr "^a")
             (Scripted.start
                [Reply (VDict [("outputs",
                                VList [VDict [("name", VStr "a.txt"); ("url", VStr "u1")];
                                       VDict [("name", VStr "ab.txt");
                                              ("url", VStr "u2")];
                                       VDict [("name", VStr "ac.txt");
                                              ("url", VStr "u3")]])]);
                 Reply VNone;
                 Throws (ExternalError "timeout");
                 Reply VNone])
             _ _
             [VDict [("name", VStr "a.txt"); ("url", VStr "u1")]]
             [VDict [("name", VStr "ac.txt"); ("url", VStr "u3")]]
             [("name", VStr "ab.txt"); ("url", VStr "u2")] (VStr "u2") "ab.txt"
             (ExternalError "timeout") _ _
             eq_refl eq_refl eq_refl
             (or_intror (ex_intro _ "^a" (conj eq_refl eq_refl)))
             eq_refl eq_refl eq_refl).
  - reflexivity.
Defined.

End ScriptedWitnesses.

Section ArchiveWitnesses.
#[local] Existing Instance Archive.runtime.

Lemma archive_outputs :
  Forall2 output_entry Archive.outputs
    [("/srv/models/model.pkl", VStr "s3://bucket/model.pkl");
     ("log.txt", VStr "s3://bucket/log.txt")].
Proof.
  repeat constructor; (eexists; split; [reflexivity | split; reflexivity]).
Defined.

Lemma archive_always_retrieves : always_retrieves.
Proof. intros url filename s. exists VNone, s. reflexivity. Defined.

Lemma download_execution_outputs_file_names_witness :
  exists w',
    download_execution_outputs (VStr "train") "/tmp" VNone Archive.start = (Ret tt, w')
    /\ In (VStr "s3://bucket/model.pkl", "/srv/models/model.pkl")
         (downloads (trace w')).
Proof.
  destruct (download_execution_outputs_file_names (VStr "train") "/tmp" Archive.start
              _ Archive.outputs _ tt eq_refl eq_refl archive_outputs
              archive_always_retrieves) as [w' [Hrun Hnames]].
  exists w'. split; [exact Hrun |].
  apply (proj1 (Hnames "/srv/models/model.pkl" (VStr "s3://bucket/model.pkl")
                  (or_introl eq_refl)) eq_refl).
Defined.

End ArchiveWitnesses.
